(** * Tax wizard: bracket calculator, filing computation, rules engine,
      gap-question selector

    A shallow embedding of [taxes/tax-data.js], [taxes/wizard.js]
    ([computeAndRenderTaxes]), [taxes/rules.js] ([runRulesEngine]) and
    [taxes/gap-analysis.js] ([getGapQuestions]).

    JavaScript numbers are IEEE-754 binary64 values.  They are modelled by
    the standard's own definition: every arithmetic operation returns the
    exact rational result rounded to the nearest binary64 value, ties to
    even ([JsNumber.RN]).  The two zeros are identified: the program never
    divides by a value that can be zero, so their sign is not observable in
    any value modelled here. *)

From Stdlib Require Import ZArith QArith Qround Qpower Lia Lqa List Bool.
From Stdlib Require Import Floats.SpecFloat.
From stdpp Require Import base gmap strings pretty.

Local Open Scope Z_scope.

(* ================================================================== *)
(** * JavaScript numbers                                                *)
(* ================================================================== *)

Module JsNumber.

(** A JavaScript number: [NaN], the two infinities, or a finite value.
    A finite value is written as a rational; the values of the binary64
    format are the ones rounding leaves unchanged ([binary64] below), and
    every literal and every operation yields such a value. *)
Inductive number : Type :=
| NaN
| PInf
| NInf
| Fin (q : Q).

(** [2^e] for any integer exponent. *)
Definition pow2 (e : Z) : Q := Qpower 2 e.

(** [floor (log2 q)] for a positive rational. *)
Definition ilog2 (q : Q) : Z :=
  let e0 := Z.log2 (Qnum q) - Z.log2 (Zpos (Qden q)) in
  if Qle_bool (pow2 e0) q then e0 else e0 - 1.

(** Nearest integer, ties to the even one. *)
Definition round_half_even (s : Q) : Z :=
  let fl := Qfloor s in
  match Qcompare (s - inject_Z fl) (1 # 2) with
  | Lt => fl
  | Gt => fl + 1
  | Eq => if Z.even fl then fl else fl + 1
  end.

(** binary64: 53 bits of precision, least exponent of a unit in the last
    place -1074, overflow threshold 2^1024. *)
Definition ulp_exp (q : Q) : Z := Z.max (ilog2 q - 52) (-1074).

(** The value of the binary64 grid nearest to a positive rational, before
    the overflow test. *)
Definition rval (q : Q) : Q :=
  inject_Z (round_half_even (q / pow2 (ulp_exp q))) * pow2 (ulp_exp q).

Definition round_pos (q : Q) : number :=
  if Qle_bool (pow2 1024) (rval q) then PInf else Fin (Qred (rval q)).

Definition neg (x : number) : number :=
  match x with
  | NaN => NaN
  | PInf => NInf
  | NInf => PInf
  | Fin q => Fin (Qred (- q))
  end.

(** Round to nearest, ties to even, into binary64. *)
Definition RN (q : Q) : number :=
  match Qnum q with
  | Z0 => Fin 0
  | Zpos _ => round_pos q
  | Zneg _ => neg (round_pos (- q))
  end.

(** A numeric literal of the source text denotes the nearest binary64. *)
Definition js (q : Q) : number := RN q.

Definition sgn (q : Q) : comparison := Qcompare q 0.

Definition add (x y : number) : number :=
  match x, y with
  | NaN, _ | _, NaN => NaN
  | PInf, NInf | NInf, PInf => NaN
  | PInf, _ | _, PInf => PInf
  | NInf, _ | _, NInf => NInf
  | Fin a, Fin b => RN (a + b)
  end.

Definition sub (x y : number) : number := add x (neg y).

Definition inf_of (c : comparison) : number :=
  match c with Gt => PInf | Lt => NInf | Eq => NaN end.

Definition mul (x y : number) : number :=
  match x, y with
  | NaN, _ | _, NaN => NaN
  | PInf, PInf | NInf, NInf => PInf
  | PInf, NInf | NInf, PInf => NInf
  | PInf, Fin b | Fin b, PInf => inf_of (sgn b)
  | NInf, Fin b | Fin b, NInf => inf_of (CompOpp (sgn b))
  | Fin a, Fin b => RN (a * b)
  end.

Definition div (x y : number) : number :=
  match x, y with
  | NaN, _ | _, NaN => NaN
  | (PInf | NInf), (PInf | NInf) => NaN
  | PInf, Fin b => match sgn b with Lt => NInf | _ => PInf end
  | NInf, Fin b => match sgn b with Lt => PInf | _ => NInf end
  | Fin _, (PInf | NInf) => Fin 0
  | Fin a, Fin b =>
      match sgn b with
      | Eq => inf_of (sgn a)
      | _ => RN (a / b)
      end
  end.

(** [x < y], [x <= y], [x > y], [x >= y]; every comparison with [NaN] is
    false. *)
Definition ltb (x y : number) : bool :=
  match x, y with
  | NaN, _ | _, NaN => false
  | _, NInf => false
  | NInf, _ => true
  | PInf, _ => false
  | _, PInf => true
  | Fin a, Fin b => match Qcompare a b with Lt => true | _ => false end
  end.

Definition leb (x y : number) : bool :=
  match x, y with
  | NaN, _ | _, NaN => false
  | NInf, _ => true
  | _, PInf => true
  | _, NInf => false
  | PInf, _ => false
  | Fin a, Fin b => Qle_bool a b
  end.

Definition gtb (x y : number) : bool := ltb y x.
Definition geb (x y : number) : bool := leb y x.

(** [x === y] on numbers. *)
Definition eqb (x y : number) : bool :=
  match x, y with
  | PInf, PInf | NInf, NInf => true
  | Fin a, Fin b => Qeq_bool a b
  | _, _ => false
  end.

(** [Math.min], [Math.max]: [NaN] if either argument is. *)
Definition min (x y : number) : number :=
  match x, y with
  | NaN, _ | _, NaN => NaN
  | _, _ => if leb x y then x else y
  end.

Definition max (x y : number) : number :=
  match x, y with
  | NaN, _ | _, NaN => NaN
  | _, _ => if leb x y then y else x
  end.

(** [Math.round]: nearest integer, ties towards +Infinity; [Math.floor]. *)
Definition round (x : number) : number :=
  match x with
  | Fin q => Fin (inject_Z (Qfloor (q + (1 # 2))))
  | _ => x
  end.

Definition floor (x : number) : number :=
  match x with
  | Fin q => Fin (inject_Z (Qfloor q))
  | _ => x
  end.

(** Truthiness of a number: everything but [0] and [NaN]. *)
Definition truthy (x : number) : bool :=
  match x with
  | NaN => false
  | Fin q => negb (Qeq_bool q 0)
  | _ => true
  end.

(** An integer as a number (exact below 2^53). *)
Definition of_Z (z : Z) : number := RN (inject_Z z).
Definition of_nat (n : nat) : number := of_Z (Z.of_nat n).

(** [Number.isFinite]. *)
Definition isFinite (x : number) : bool :=
  match x with Fin _ => true | _ => false end.

(** The order on numbers as a proposition. *)
Definition le (x y : number) : Prop := leb x y = true.

(** [0 <= x]. *)
Definition nonneg (x : number) : Prop := le (Fin 0) x.

(** [x] is a value of the binary64 format: rounding leaves it unchanged
    (for a finite value, the fraction is in lowest terms and lies on the
    binary64 grid). *)
Definition binary64 (x : number) : Prop :=
  match x with
  | Fin q => RN q = Fin q
  | _ => True
  end.

(** ** Agreement with the Standard Library's binary64 operations *)

Definition SF2number (f : spec_float) : number :=
  match f with
  | S754_zero _ => Fin 0
  | S754_infinity false => PInf
  | S754_infinity true => NInf
  | S754_nan => NaN
  | S754_finite s m e =>
      Fin (Qred (inject_Z (if s then Z.neg m else Z.pos m) * pow2 e))
  end.

Definition SFadd64 := SFadd 53 1024.
Definition SFmul64 := SFmul 53 1024.
Definition SFdiv64 := SFdiv 53 1024.

Definition SFofZ (z : Z) : spec_float := binary_normalize 53 1024 z 0 false.
Definition SFlit (n d : Z) : spec_float := SFdiv 53 1024 (SFofZ n) (SFofZ d).

End JsNumber.

Import JsNumber.

(* ================================================================== *)
(** * taxes/tax-data.js                                                 *)
(* ================================================================== *)

Module TaxData.

(** Filing statuses: 'single', 'mfj', 'mfs', 'hoh', 'qss'. *)
Inductive FilingStatus : Type := single | mfj | mfs | hoh | qss.

(** State identifiers: 'california', 'newYork'. *)
Inductive StateId : Type := california | newYork.

(** One bracket: [[width, rate]]. *)
Definition bracket : Type := (number * number)%type.

(** An object keyed by filing status.  Every table of the source has the
    key [single]; the other keys may be absent. *)
Record StatusTable (A : Type) : Type := {
  single_ : A;
  mfj_ : option A;
  mfs_ : option A;
  hoh_ : option A;
  qss_ : option A
}.
Arguments single_ {A} _.
Arguments mfj_ {A} _.
Arguments mfs_ {A} _.
Arguments hoh_ {A} _.
Arguments qss_ {A} _.

(** [table[fs]]: [None] stands for [undefined]. *)
Definition lookup_status {A : Type} (t : StatusTable A) (fs : FilingStatus)
  : option A :=
  match fs with
  | single => Some (single_ t)
  | mfj => mfj_ t
  | mfs => mfs_ t
  | hoh => hoh_ t
  | qss => qss_ t
  end.

(** [table[fs] || table.single] where the entries are arrays (every array
    is truthy). *)
Definition entry_or_single {A : Type} (t : StatusTable A) (fs : FilingStatus) : A :=
  match lookup_status t fs with
  | Some a => a
  | None => single_ t
  end.

(** [table[fs] || table.single] where the entries are numbers ([0] and
    [NaN] are falsy). *)
Definition amount_or_single (t : StatusTable number) (fs : FilingStatus) : number :=
  match lookup_status t fs with
  | Some a => if truthy a then a else single_ t
  | None => single_ t
  end.

Module Fed.
Record Year : Type := {
  standardDeduction : StatusTable number;
  brackets : StatusTable (list bracket);
  ssWageBase : number;
  ssRate : number;
  medicareRate : number;
  seTaxRate : number;
  contrib401kLimit : number;
  contrib401kCatchUp : number;
  contribIRALimit : number;
  contribIRACatchUp : number;
  contribHSASelf : number;
  contribHSAFamily : number;
  eitcNoChild : number;
  saversCreditLimit : number;
  studentLoanPhaseout : StatusTable number;
  iraPhaseout : StatusTable (number * number);
  qbiThreshold : StatusTable number;
  mileageRate : number;
  saltCap : number;
  ctcAmount : number;
  ctcIncomeLimit : StatusTable number;
  educatorExpense : number;
  studentLoanMax : number
}.
End Fed.

Module Ca.
Record Year : Type := {
  standardDeduction : StatusTable number;
  brackets : StatusTable (list bracket);
  mentalHealthThreshold : number;
  mentalHealthRate : number;
  sdiWageLimit : number;
  sdiRate : number;
  rentersCreditLimit : StatusTable number;
  rentersCreditAmount : StatusTable number
}.
End Ca.

Module Ny.
Record Year : Type := {
  standardDeduction : StatusTable number;
  brackets : StatusTable (list bracket);
  eitcRate : number;
  nycBrackets : StatusTable (list bracket)
}.
End Ny.

Definition FEDERAL_2023 : Fed.Year :=
  {| Fed.standardDeduction :=
      {| single_ := js 13850;
         mfj_ := Some (js 27700);
         mfs_ := Some (js 13850);
         hoh_ := Some (js 20800);
         qss_ := Some (js 27700) |};
     Fed.brackets :=
      {| single_ := [
          (js 11000, js 0.10); (sub (js 44725) (js 11000), js 0.12);
          (sub (js 95375) (js 44725), js 0.22); (sub (js 182100) (js 95375), js 0.24);
          (sub (js 231250) (js 182100), js 0.32); (sub (js 578125) (js 231250), js 0.35);
          (PInf, js 0.37) ];
         mfj_ := Some ([
          (js 22000, js 0.10); (sub (js 89450) (js 22000), js 0.12);
          (sub (js 190750) (js 89450), js 0.22); (sub (js 364200) (js 190750), js 0.24);
          (sub (js 462500) (js 364200), js 0.32); (sub (js 693750) (js 462500), js 0.35);
          (PInf, js 0.37) ]);
         mfs_ := Some ([
          (js 11000, js 0.10); (sub (js 44725) (js 11000), js 0.12);
          (sub (js 95375) (js 44725), js 0.22); (sub (js 182100) (js 95375), js 0.24);
          (sub (js 231250) (js 182100), js 0.32); (sub (js 346875) (js 231250), js 0.35);
          (PInf, js 0.37) ]);
         hoh_ := Some ([
          (js 15700, js 0.10); (sub (js 59850) (js 15700), js 0.12);
          (sub (js 95350) (js 59850), js 0.22); (sub (js 182100) (js 95350), js 0.24);
          (sub (js 231250) (js 182100), js 0.32); (sub (js 578100) (js 231250), js 0.35);
          (PInf, js 0.37) ]);
         qss_ := None |};
     Fed.ssWageBase := js 160200;
     Fed.ssRate := js 0.062;
     Fed.medicareRate := js 0.0145;
     Fed.seTaxRate := js 0.153;
     Fed.contrib401kLimit := js 22500;
     Fed.contrib401kCatchUp := js 7500;
     Fed.contribIRALimit := js 6500;
     Fed.contribIRACatchUp := js 1000;
     Fed.contribHSASelf := js 3850;
     Fed.contribHSAFamily := js 7750;
     Fed.eitcNoChild := js 17640;
     Fed.saversCreditLimit := js 36500;
     Fed.studentLoanPhaseout :=
      {| single_ := js 85000;
         mfj_ := Some (js 175000);
         mfs_ := None;
         hoh_ := None;
         qss_ := None |};
     Fed.iraPhaseout :=
      {| single_ := (js 73000, js 83000);
         mfj_ := Some ((js 116000, js 136000));
         mfs_ := None;
         hoh_ := None;
         qss_ := None |};
     Fed.qbiThreshold :=
      {| single_ := js 182100;
         mfj_ := Some (js 364200);
         mfs_ := None;
         hoh_ := None;
         qss_ := None |};
     Fed.mileageRate := js 0.655;
     Fed.saltCap := js 10000;
     Fed.ctcAmount := js 2000;
     Fed.ctcIncomeLimit :=
      {| single_ := js 200000;
         mfj_ := Some (js 400000);
         mfs_ := None;
         hoh_ := None;
         qss_ := None |};
     Fed.educatorExpense := js 300;
     Fed.studentLoanMax := js 2500 |}.

Definition FEDERAL_2024 : Fed.Year :=
  {| Fed.standardDeduction :=
      {| single_ := js 14600;
         mfj_ := Some (js 29200);
         mfs_ := Some (js 14600);
         hoh_ := Some (js 21900);
         qss_ := Some (js 29200) |};
     Fed.brackets :=
      {| single_ := [
          (js 11600, js 0.10); (sub (js 47150) (js 11600), js 0.12);
          (sub (js 100525) (js 47150), js 0.22); (sub (js 191950) (js 100525), js 0.24);
          (sub (js 243725) (js 191950), js 0.32); (sub (js 609350) (js 243725), js 0.35);
          (PInf, js 0.37) ];
         mfj_ := Some ([
          (js 23200, js 0.10); (sub (js 94300) (js 23200), js 0.12);
          (sub (js 201050) (js 94300), js 0.22); (sub (js 383900) (js 201050), js 0.24);
          (sub (js 487450) (js 383900), js 0.32); (sub (js 731200) (js 487450), js 0.35);
          (PInf, js 0.37) ]);
         mfs_ := Some ([
          (js 11600, js 0.10); (sub (js 47150) (js 11600), js 0.12);
          (sub (js 100525) (js 47150), js 0.22); (sub (js 191950) (js 100525), js 0.24);
          (sub (js 243725) (js 191950), js 0.32); (sub (js 365600) (js 243725), js 0.35);
          (PInf, js 0.37) ]);
         hoh_ := Some ([
          (js 16550, js 0.10); (sub (js 63100) (js 16550), js 0.12);
          (sub (js 100500) (js 63100), js 0.22); (sub (js 191950) (js 100500), js 0.24);
          (sub (js 243700) (js 191950), js 0.32); (sub (js 609350) (js 243700), js 0.35);
          (PInf, js 0.37) ]);
         qss_ := None |};
     Fed.ssWageBase := js 168600;
     Fed.ssRate := js 0.062;
     Fed.medicareRate := js 0.0145;
     Fed.seTaxRate := js 0.153;
     Fed.contrib401kLimit := js 23000;
     Fed.contrib401kCatchUp := js 7500;
     Fed.contribIRALimit := js 7000;
     Fed.contribIRACatchUp := js 1000;
     Fed.contribHSASelf := js 4150;
     Fed.contribHSAFamily := js 8300;
     Fed.eitcNoChild := js 18591;
     Fed.saversCreditLimit := js 38250;
     Fed.studentLoanPhaseout :=
      {| single_ := js 90000;
         mfj_ := Some (js 185000);
         mfs_ := None;
         hoh_ := None;
         qss_ := None |};
     Fed.iraPhaseout :=
      {| single_ := (js 77000, js 87000);
         mfj_ := Some ((js 123000, js 143000));
         mfs_ := None;
         hoh_ := None;
         qss_ := None |};
     Fed.qbiThreshold :=
      {| single_ := js 191950;
         mfj_ := Some (js 383900);
         mfs_ := None;
         hoh_ := None;
         qss_ := None |};
     Fed.mileageRate := js 0.67;
     Fed.saltCap := js 10000;
     Fed.ctcAmount := js 2000;
     Fed.ctcIncomeLimit :=
      {| single_ := js 200000;
         mfj_ := Some (js 400000);
         mfs_ := None;
         hoh_ := None;
         qss_ := None |};
     Fed.educatorExpense := js 300;
     Fed.studentLoanMax := js 2500 |}.

Definition FEDERAL_2025 : Fed.Year :=
  {| Fed.standardDeduction :=
      {| single_ := js 15000;
         mfj_ := Some (js 30000);
         mfs_ := Some (js 15000);
         hoh_ := Some (js 22500);
         qss_ := Some (js 30000) |};
     Fed.brackets :=
      {| single_ := [
          (js 11925, js 0.10); (sub (js 48475) (js 11925), js 0.12);
          (sub (js 103350) (js 48475), js 0.22); (sub (js 197300) (js 103350), js 0.24);
          (sub (js 250525) (js 197300), js 0.32); (sub (js 626350) (js 250525), js 0.35);
          (PInf, js 0.37) ];
         mfj_ := Some ([
          (js 23850, js 0.10); (sub (js 96950) (js 23850), js 0.12);
          (sub (js 206700) (js 96950), js 0.22); (sub (js 394600) (js 206700), js 0.24);
          (sub (js 501050) (js 394600), js 0.32); (sub (js 751600) (js 501050), js 0.35);
          (PInf, js 0.37) ]);
         mfs_ := Some ([
          (js 11925, js 0.10); (sub (js 48475) (js 11925), js 0.12);
          (sub (js 103350) (js 48475), js 0.22); (sub (js 197300) (js 103350), js 0.24);
          (sub (js 250525) (js 197300), js 0.32); (sub (js 375800) (js 250525), js 0.35);
          (PInf, js 0.37) ]);
         hoh_ := Some ([
          (js 17000, js 0.10); (sub (js 64850) (js 17000), js 0.12);
          (sub (js 103350) (js 64850), js 0.22); (sub (js 197300) (js 103350), js 0.24);
          (sub (js 250500) (js 197300), js 0.32); (sub (js 626350) (js 250500), js 0.35);
          (PInf, js 0.37) ]);
         qss_ := None |};
     Fed.ssWageBase := js 176100;
     Fed.ssRate := js 0.062;
     Fed.medicareRate := js 0.0145;
     Fed.seTaxRate := js 0.153;
     Fed.contrib401kLimit := js 23500;
     Fed.contrib401kCatchUp := js 7500;
     Fed.contribIRALimit := js 7000;
     Fed.contribIRACatchUp := js 1000;
     Fed.contribHSASelf := js 4300;
     Fed.contribHSAFamily := js 8550;
     Fed.eitcNoChild := js 18591;
     Fed.saversCreditLimit := js 38250;
     Fed.studentLoanPhaseout :=
      {| single_ := js 90000;
         mfj_ := Some (js 185000);
         mfs_ := None;
         hoh_ := None;
         qss_ := None |};
     Fed.iraPhaseout :=
      {| single_ := (js 79000, js 89000);
         mfj_ := Some ((js 126000, js 146000));
         mfs_ := None;
         hoh_ := None;
         qss_ := None |};
     Fed.qbiThreshold :=
      {| single_ := js 191950;
         mfj_ := Some (js 383900);
         mfs_ := None;
         hoh_ := None;
         qss_ := None |};
     Fed.mileageRate := js 0.70;
     Fed.saltCap := js 10000;
     Fed.ctcAmount := js 2000;
     Fed.ctcIncomeLimit :=
      {| single_ := js 200000;
         mfj_ := Some (js 400000);
         mfs_ := None;
         hoh_ := None;
         qss_ := None |};
     Fed.educatorExpense := js 300;
     Fed.studentLoanMax := js 2500 |}.

Definition CALIFORNIA_2023 : Ca.Year :=
  {| Ca.standardDeduction :=
      {| single_ := js 5363;
         mfj_ := Some (js 10726);
         mfs_ := Some (js 5363);
         hoh_ := Some (js 10726);
         qss_ := None |};
     Ca.brackets :=
      {| single_ := [
          (js 10099, js 0.01); (sub (js 23942) (js 10099), js 0.02);
          (sub (js 37788) (js 23942), js 0.04); (sub (js 52455) (js 37788), js 0.06);
          (sub (js 66295) (js 52455), js 0.08); (sub (js 338639) (js 66295), js 0.093);
          (sub (js 406364) (js 338639), js 0.103); (sub (js 677275) (js 406364), js 0.113);
          (PInf, js 0.123) ];
         mfj_ := Some ([
          (js 20198, js 0.01); (sub (js 47884) (js 20198), js 0.02);
          (sub (js 75576) (js 47884), js 0.04); (sub (js 104910) (js 75576), js 0.06);
          (sub (js 132590) (js 104910), js 0.08); (sub (js 677278) (js 132590), js 0.093);
          (sub (js 812728) (js 677278), js 0.103); (sub (js 1354550) (js 812728), js 0.113);
          (PInf, js 0.123) ]);
         mfs_ := None;
         hoh_ := None;
         qss_ := None |};
     Ca.mentalHealthThreshold := js 1000000;
     Ca.mentalHealthRate := js 0.01;
     Ca.sdiWageLimit := js 153164;
     Ca.sdiRate := js 0.009;
     Ca.rentersCreditLimit :=
      {| single_ := js 49220;
         mfj_ := Some (js 98440);
         mfs_ := None;
         hoh_ := None;
         qss_ := None |};
     Ca.rentersCreditAmount :=
      {| single_ := js 60;
         mfj_ := Some (js 120);
         mfs_ := None;
         hoh_ := None;
         qss_ := None |} |}.

Definition CALIFORNIA_2024 : Ca.Year :=
  {| Ca.standardDeduction :=
      {| single_ := js 5540;
         mfj_ := Some (js 11080);
         mfs_ := Some (js 5540);
         hoh_ := Some (js 11080);
         qss_ := None |};
     Ca.brackets :=
      {| single_ := [
          (js 10412, js 0.01); (sub (js 24684) (js 10412), js 0.02);
          (sub (js 38959) (js 24684), js 0.04); (sub (js 54081) (js 38959), js 0.06);
          (sub (js 68350) (js 54081), js 0.08); (sub (js 349137) (js 68350), js 0.093);
          (sub (js 418961) (js 349137), js 0.103); (sub (js 698271) (js 418961), js 0.113);
          (PInf, js 0.123) ];
         mfj_ := Some ([
          (js 20824, js 0.01); (sub (js 49368) (js 20824), js 0.02);
          (sub (js 77918) (js 49368), js 0.04); (sub (js 108162) (js 77918), js 0.06);
          (sub (js 136700) (js 108162), js 0.08); (sub (js 698274) (js 136700), js 0.093);
          (sub (js 837922) (js 698274), js 0.103); (sub (js 1396542) (js 837922), js 0.113);
          (PInf, js 0.123) ]);
         mfs_ := None;
         hoh_ := None;
         qss_ := None |};
     Ca.mentalHealthThreshold := js 1000000;
     Ca.mentalHealthRate := js 0.01;
     Ca.sdiWageLimit := js 153164;
     Ca.sdiRate := js 0.009;
     Ca.rentersCreditLimit :=
      {| single_ := js 50746;
         mfj_ := Some (js 101492);
         mfs_ := None;
         hoh_ := None;
         qss_ := None |};
     Ca.rentersCreditAmount :=
      {| single_ := js 60;
         mfj_ := Some (js 120);
         mfs_ := None;
         hoh_ := None;
         qss_ := None |} |}.

Definition CALIFORNIA_2025 : Ca.Year :=
  {| Ca.standardDeduction :=
      {| single_ := js 5540;
         mfj_ := Some (js 11080);
         mfs_ := Some (js 5540);
         hoh_ := Some (js 11080);
         qss_ := None |};
     Ca.brackets :=
      {| single_ := [
          (js 10412, js 0.01); (sub (js 24684) (js 10412), js 0.02);
          (sub (js 38959) (js 24684), js 0.04); (sub (js 54081) (js 38959), js 0.06);
          (sub (js 68350) (js 54081), js 0.08); (sub (js 349137) (js 68350), js 0.093);
          (sub (js 418961) (js 349137), js 0.103); (sub (js 698271) (js 418961), js 0.113);
          (PInf, js 0.123) ];
         mfj_ := Some ([
          (js 20824, js 0.01); (sub (js 49368) (js 20824), js 0.02);
          (sub (js 77918) (js 49368), js 0.04); (sub (js 108162) (js 77918), js 0.06);
          (sub (js 136700) (js 108162), js 0.08); (sub (js 698274) (js 136700), js 0.093);
          (sub (js 837922) (js 698274), js 0.103); (sub (js 1396542) (js 837922), js 0.113);
          (PInf, js 0.123) ]);
         mfs_ := None;
         hoh_ := None;
         qss_ := None |};
     Ca.mentalHealthThreshold := js 1000000;
     Ca.mentalHealthRate := js 0.01;
     Ca.sdiWageLimit := js 174148;
     Ca.sdiRate := js 0.011;
     Ca.rentersCreditLimit :=
      {| single_ := js 50746;
         mfj_ := Some (js 101492);
         mfs_ := None;
         hoh_ := None;
         qss_ := None |};
     Ca.rentersCreditAmount :=
      {| single_ := js 60;
         mfj_ := Some (js 120);
         mfs_ := None;
         hoh_ := None;
         qss_ := None |} |}.

Definition NEWYORK_2023 : Ny.Year :=
  {| Ny.standardDeduction :=
      {| single_ := js 8000;
         mfj_ := Some (js 16050);
         mfs_ := Some (js 8000);
         hoh_ := Some (js 11200);
         qss_ := None |};
     Ny.brackets :=
      {| single_ := [
          (js 8500, js 0.04); (sub (js 11700) (js 8500), js 0.045);
          (sub (js 13900) (js 11700), js 0.0525); (sub (js 80650) (js 13900), js 0.0585);
          (sub (js 215400) (js 80650), js 0.0625); (sub (js 1077550) (js 215400), js 0.0685);
          (sub (js 5000000) (js 1077550), js 0.0965); (sub (js 25000000) (js 5000000), js 0.103);
          (PInf, js 0.109) ];
         mfj_ := Some ([
          (js 17150, js 0.04); (sub (js 23600) (js 17150), js 0.045);
          (sub (js 27900) (js 23600), js 0.0525); (sub (js 161550) (js 27900), js 0.0585);
          (sub (js 323200) (js 161550), js 0.0625); (sub (js 2155350) (js 323200), js 0.0685);
          (sub (js 5000000) (js 2155350), js 0.0965); (sub (js 25000000) (js 5000000), js 0.103);
          (PInf, js 0.109) ]);
         mfs_ := None;
         hoh_ := None;
         qss_ := None |};
     Ny.eitcRate := js 0.30;
     Ny.nycBrackets :=
      {| single_ := [
          (js 12000, js 0.03078); (sub (js 25000) (js 12000), js 0.03762);
          (sub (js 50000) (js 25000), js 0.03819); (PInf, js 0.03876) ];
         mfj_ := None;
         mfs_ := None;
         hoh_ := None;
         qss_ := None |} |}.

Definition NEWYORK_2024 : Ny.Year :=
  {| Ny.standardDeduction :=
      {| single_ := js 8000;
         mfj_ := Some (js 16050);
         mfs_ := Some (js 8000);
         hoh_ := Some (js 11200);
         qss_ := None |};
     Ny.brackets :=
      {| single_ := [
          (js 8500, js 0.04); (sub (js 11700) (js 8500), js 0.045);
          (sub (js 13900) (js 11700), js 0.0525); (sub (js 80650) (js 13900), js 0.0585);
          (sub (js 215400) (js 80650), js 0.0625); (sub (js 1077550) (js 215400), js 0.0685);
          (sub (js 5000000) (js 1077550), js 0.0965); (sub (js 25000000) (js 5000000), js 0.103);
          (PInf, js 0.109) ];
         mfj_ := Some ([
          (js 17150, js 0.04); (sub (js 23600) (js 17150), js 0.045);
          (sub (js 27900) (js 23600), js 0.0525); (sub (js 161550) (js 27900), js 0.0585);
          (sub (js 323200) (js 161550), js 0.0625); (sub (js 2155350) (js 323200), js 0.0685);
          (sub (js 5000000) (js 2155350), js 0.0965); (sub (js 25000000) (js 5000000), js 0.103);
          (PInf, js 0.109) ]);
         mfs_ := None;
         hoh_ := None;
         qss_ := None |};
     Ny.eitcRate := js 0.30;
     Ny.nycBrackets :=
      {| single_ := [
          (js 12000, js 0.03078); (sub (js 25000) (js 12000), js 0.03762);
          (sub (js 50000) (js 25000), js 0.03819); (PInf, js 0.03876) ];
         mfj_ := None;
         mfs_ := None;
         hoh_ := None;
         qss_ := None |} |}.

Definition NEWYORK_2025 : Ny.Year :=
  {| Ny.standardDeduction :=
      {| single_ := js 8000;
         mfj_ := Some (js 16050);
         mfs_ := Some (js 8000);
         hoh_ := Some (js 11200);
         qss_ := None |};
     Ny.brackets :=
      {| single_ := [
          (js 8500, js 0.04); (sub (js 11700) (js 8500), js 0.045);
          (sub (js 13900) (js 11700), js 0.0525); (sub (js 80650) (js 13900), js 0.0585);
          (sub (js 215400) (js 80650), js 0.0625); (sub (js 1077550) (js 215400), js 0.0685);
          (sub (js 5000000) (js 1077550), js 0.0965); (sub (js 25000000) (js 5000000), js 0.103);
          (PInf, js 0.109) ];
         mfj_ := Some ([
          (js 17150, js 0.04); (sub (js 23600) (js 17150), js 0.045);
          (sub (js 27900) (js 23600), js 0.0525); (sub (js 161550) (js 27900), js 0.0585);
          (sub (js 323200) (js 161550), js 0.0625); (sub (js 2155350) (js 323200), js 0.0685);
          (sub (js 5000000) (js 2155350), js 0.0965); (sub (js 25000000) (js 5000000), js 0.103);
          (PInf, js 0.109) ]);
         mfs_ := None;
         hoh_ := None;
         qss_ := None |};
     Ny.eitcRate := js 0.30;
     Ny.nycBrackets :=
      {| single_ := [
          (js 12000, js 0.03078); (sub (js 25000) (js 12000), js 0.03762);
          (sub (js 50000) (js 25000), js 0.03819); (PInf, js 0.03876) ];
         mfj_ := None;
         mfs_ := None;
         hoh_ := None;
         qss_ := None |} |}.

(** [FEDERAL_DATA[yr]], [CALIFORNIA_DATA[yr]], [NEWYORK_DATA[yr]]. *)
Definition FEDERAL_DATA (yr : Z) : option Fed.Year :=
  if yr =? 2023 then Some FEDERAL_2023
  else if yr =? 2024 then Some FEDERAL_2024
  else if yr =? 2025 then Some FEDERAL_2025
  else None.

Definition CALIFORNIA_DATA (yr : Z) : option Ca.Year :=
  if yr =? 2023 then Some CALIFORNIA_2023
  else if yr =? 2024 then Some CALIFORNIA_2024
  else if yr =? 2025 then Some CALIFORNIA_2025
  else None.

Definition NEWYORK_DATA (yr : Z) : option Ny.Year :=
  if yr =? 2023 then Some NEWYORK_2023
  else if yr =? 2024 then Some NEWYORK_2024
  else if yr =? 2025 then Some NEWYORK_2025
  else None.

(** The [for]-loop of [computeTaxFromBrackets]: [tax] and [remaining] are
    the loop variables; [remaining <= 0] breaks out of the loop. *)
Fixpoint bracketLoop (tax remaining : number) (brackets : list bracket) : number :=
  match brackets with
  | [] => tax
  | (width, rate) :: rest =>
      if leb remaining (js 0) then tax
      else
        let amt := min remaining width in
        bracketLoop (add tax (mul amt rate)) (sub remaining amt) rest
  end.

Definition computeTaxFromBrackets (taxableIncome : number) (brackets : list bracket)
  : number :=
  round (bracketLoop (js 0) taxableIncome brackets).

(** The objects returned by [getTaxConstants]: the year's data spread,
    with [brackets] replaced by the table resolved for the filing status
    and [stdDeduction] added. *)
Record FedConstants : Type := {
  fedYear : Fed.Year;
  fed_brackets : list bracket;
  fed_stdDeduction : number
}.

Record CaConstants : Type := {
  caYear : Ca.Year;
  ca_brackets : list bracket;
  ca_stdDeduction : number
}.

Record NyConstants : Type := {
  nyYear : Ny.Year;
  ny_brackets : list bracket;
  ny_stdDeduction : number;
  ny_nycBrackets : list bracket
}.

Inductive StateConstants : Type :=
| CaState (c : CaConstants)
| NyState (c : NyConstants).

Record TaxConstants : Type := {
  fed : FedConstants;
  state : option StateConstants
}.

(** Which state table a filing status uses:
    [(fs === 'mfj' || fs === 'qss') ? 'mfj' : 'single']. *)
Definition stateBracketKey (fs : FilingStatus) : FilingStatus :=
  match fs with
  | mfj | qss => mfj
  | _ => single
  end.

(** [getTaxConstants(year, stateId, filingStatus)].  [year = 0] and
    [filingStatus = None] are the falsy arguments replaced by the defaults
    ([year || 2025], [filingStatus || 'single']); [stateId = None] is any
    value other than 'california' and 'newYork'. *)
Definition getTaxConstants (year : Z) (stateId : option StateId)
    (filingStatus : option FilingStatus) : TaxConstants :=
  let yr := if year =? 0 then 2025 else year in
  let fs := match filingStatus with Some f => f | None => single end in
  let fedYear := match FEDERAL_DATA yr with Some y => y | None => FEDERAL_2025 end in
  let fedBrackets := entry_or_single (Fed.brackets fedYear) fs in
  let fedStdDed := amount_or_single (Fed.standardDeduction fedYear) fs in
  let fed :=
    {| fedYear := fedYear; fed_brackets := fedBrackets; fed_stdDeduction := fedStdDed |} in
  let stateConstants :=
    match stateId with
    | Some california =>
        let caYear :=
          match CALIFORNIA_DATA yr with Some y => y | None => CALIFORNIA_2025 end in
        let caBracketKey := stateBracketKey fs in
        let caBrackets := entry_or_single (Ca.brackets caYear) caBracketKey in
        let caStdDed := amount_or_single (Ca.standardDeduction caYear) fs in
        Some (CaState {| caYear := caYear; ca_brackets := caBrackets;
                         ca_stdDeduction := caStdDed |})
    | Some newYork =>
        let nyYear :=
          match NEWYORK_DATA yr with Some y => y | None => NEWYORK_2025 end in
        let nyBracketKey := stateBracketKey fs in
        let nyBrackets := entry_or_single (Ny.brackets nyYear) nyBracketKey in
        let nyStdDed := amount_or_single (Ny.standardDeduction nyYear) fs in
        let nycBrackets := entry_or_single (Ny.nycBrackets nyYear) nyBracketKey in
        Some (NyState {| nyYear := nyYear; ny_brackets := nyBrackets;
                         ny_stdDeduction := nyStdDed; ny_nycBrackets := nycBrackets |})
    | None => None
    end in
  {| fed := fed; state := stateConstants |}.

End TaxData.

(* ================================================================== *)
(** * taxes/wizard.js: session state and the filing computation         *)
(* ================================================================== *)

Module Wizard.
Import TaxData.

(** One entry of a W-2's box 12: [{ code, amount }]. *)
Record Box12 : Type := {
  code : string;
  amount : option number
}.

(** An income record extracted from an uploaded document.  A field that
    the extraction did not produce is [None] ([undefined]). *)
Record Income : Type := {
  doc_type : string;
  wages : option number;
  nonemployee_compensation : option number;
  interest_income : option number;
  ordinary_dividends : option number;
  fed_income_tax_withheld : option number;
  state_income_tax_withheld : option number;
  state_tax_withheld : option number;
  state_wages : option number;
  box12_codes : option (list Box12)
}.

Record Itemized : Type := {
  mortgage : number;
  salt : number;
  charitable : number;
  medical : number
}.

(** The fields of [taxSession] read by the computation.  [gapAnswers],
    [manualEntries] and [credits] are objects used as maps. *)
Record Session : Type := {
  taxYear : Z;
  filingStatus : FilingStatus;
  stateOfResidence : option string;
  childrenUnder17 : number;
  otherDependents : number;
  incomes : list Income;
  gapAnswers : gmap string bool;
  manualEntries : gmap string number;
  deductionType : string;
  itemized : Itemized;
  credits : gmap string number
}.

(** [x || d] for a possibly missing number. *)
Definition or_else (x : option number) (d : number) : number :=
  match x with
  | Some v => if truthy v then v else d
  | None => d
  end.

(** Truthiness of a possibly missing number. *)
Definition truthy_opt (x : option number) : bool :=
  match x with
  | Some v => truthy v
  | None => false
  end.

(** Truthiness of an answer of the gap analysis. *)
Definition answered_yes (answers : gmap string bool) (key : string) : bool :=
  match answers !! key with
  | Some b => b
  | None => false
  end.

(** [list.reduce((sum, i) => sum + f(i), 0)]. *)
Definition sumOf {A : Type} (f : A -> number) (l : list A) : number :=
  fold_left (fun sum i => add sum (f i)) l (js 0).

Definition ofType (t : string) (i : Income) : bool := String.eqb (doc_type i) t.

(** [getStateId()]: [stMap[stateOfResidence] || null]. *)
Definition getStateId (s : Session) : option StateId :=
  match stateOfResidence s with
  | Some st =>
      if String.eqb st "CA" then Some california
      else if String.eqb st "NY" then Some newYork
      else None
  | None => None
  end.

Record CaFiling : Type := {
  caStdDeduction : number;
  caDeduction : number;
  caTaxableIncome : number;
  caBaseTax : number;
  caMHTax : number;
  caCredits : number;
  caTax : number;
  caResult : number
}.

Record NyFiling : Type := {
  nyStdDeduction : number;
  nyDeduction : number;
  nyTaxableIncome : number;
  nyTax : number;
  nyCredits : number;
  nyResult : number
}.

(** The [filing] object.  The California and New York fields exist only
    when that state's pass ran. *)
Record Filing : Type := {
  filing_filingStatus : FilingStatus;
  totalW2Wages : number;
  totalNEC : number;
  totalInterest : number;
  totalDividends : number;
  capitalGains : number;
  otherIncome : number;
  totalIncome : number;
  adjustments : number;
  agi : number;
  deduction : number;
  filing_deductionType : string;
  standardDeduction : number;
  taxableIncome : number;
  fedIncomeTax : number;
  seTax : number;
  totalCredits : number;
  fedTaxAfterCredits : number;
  totalFedTax : number;
  totalFedWithheld : number;
  fedResult : number;
  totalStateWithheld : number;
  homeOfficeDeduction : number;
  mileageDeduction : number;
  ca : option CaFiling;
  ny : option NyFiling
}.

(** The credits stored by [updateCreditsView]
    ([taxSession.credits = { ctc, education, renter, ev, childcare }]). *)
Definition updateCreditsView (s : Session) : Session :=
  let c := getTaxConstants (taxYear s) (getStateId s) (Some (filingStatus s)) in
  let ctcPerChild := or_else (Some (Fed.ctcAmount (fedYear (fed c)))) (js 2000) in
  let ctcTotal := mul (childrenUnder17 s) ctcPerChild in
  let eduCredit :=
    if answered_yes (gapAnswers s) "hasTuition"
       && truthy_opt (manualEntries s !! "tuitionPaid")
    then min (or_else (manualEntries s !! "tuitionPaid") (js 0)) (js 2500)
    else js 0 in
  let renterCredit : option number :=
    if match stateOfResidence s with Some st => String.eqb st "CA" | None => false end
       && answered_yes (gapAnswers s) "isRenter"
    then match state c with
         | Some (CaState sc) =>
             lookup_status (Ca.rentersCreditAmount (caYear sc))
               (match filingStatus s with mfj => mfj | _ => single end)
         | Some (NyState _) => Some (js 60)
         | None => Some (js 60)
         end
    else Some (js 0) in
  let evCredit := if answered_yes (gapAnswers s) "hasEV" then js 7500 else js 0 in
  let childcareCredit :=
    if truthy_opt (manualEntries s !! "childcareExpenses") then
      let maxExpense := if geb (childrenUnder17 s) (js 2) then js 6000 else js 3000 in
      round (mul (min (or_else (manualEntries s !! "childcareExpenses") (js 0)) maxExpense)
                 (js 0.20))
    else js 0 in
  let withRenter (m : gmap string number) :=
    match renterCredit with Some r => <["renter" := r]> m | None => m end in
  {| taxYear := taxYear s;
     filingStatus := filingStatus s;
     stateOfResidence := stateOfResidence s;
     childrenUnder17 := childrenUnder17 s;
     otherDependents := otherDependents s;
     incomes := incomes s;
     gapAnswers := gapAnswers s;
     manualEntries := manualEntries s;
     deductionType := deductionType s;
     itemized := itemized s;
     credits :=
       withRenter (<["ctc" := ctcTotal]> (<["education" := eduCredit]>
         (<["ev" := evCredit]> (<["childcare" := childcareCredit]> ∅)))) |}.

(** The 401(k) amounts of box 12 code D.  The source computes this total
    and then does nothing with it. *)
Definition w2_401k (s : Session) : number :=
  fold_left
    (fun sum i =>
       match box12_codes i with
       | Some codes =>
           add sum (sumOf (fun c => or_else (amount c) (js 0))
                          (List.filter (fun c => String.eqb (code c) "D") codes))
       | None => sum
       end)
    (List.filter (ofType "W-2") (incomes s)) (js 0).

(** The self-employment block of [computeAndRenderTaxes]:
    [seTaxableIncome = totalNEC * 0.9235],
    [seTax = totalNEC > 0 ? Math.round(seTaxableIncome * (fed.seTaxRate || 0.153)) : 0]
    and [seDeduction = Math.floor(seTax * 0.5)]. *)
Definition selfEmploymentTax (fy : Fed.Year) (totalNEC : number) : number :=
  let seTaxableIncome := mul totalNEC (js 0.9235) in
  if gtb totalNEC (js 0)
  then round (mul seTaxableIncome (or_else (Some (Fed.seTaxRate fy)) (js 0.153)))
  else js 0.

Definition selfEmploymentDeduction (seTax : number) : number :=
  floor (mul seTax (js 0.5)).

(** The block [if (stateId === 'california' && sc) { ... }] of
    [computeAndRenderTaxes]: the California fields added to [filing]. *)
Definition californiaPass (s : Session) (sc : CaConstants)
    (agi totalStateWithheld : number) : CaFiling :=
  let caStdDed := ca_stdDeduction sc in
  let caTaxable := max (js 0) (sub agi caStdDed) in
  let caTax := computeTaxFromBrackets caTaxable (ca_brackets sc) in
  let mhTax :=
    if gtb caTaxable (Ca.mentalHealthThreshold (caYear sc))
    then round (mul (sub caTaxable (Ca.mentalHealthThreshold (caYear sc)))
                    (Ca.mentalHealthRate (caYear sc)))
    else js 0 in
  let caCredits := or_else (credits s !! "renter") (js 0) in
  let caTotal := sub (add caTax mhTax) caCredits in
  {| caStdDeduction := caStdDed;
     caDeduction := caStdDed;
     caTaxableIncome := caTaxable;
     caBaseTax := caTax;
     caMHTax := mhTax;
     caCredits := caCredits;
     caTax := caTotal;
     caResult := sub totalStateWithheld caTotal |}.

(** The block [if (stateId === 'newYork' && sc) { ... }]: the New York
    fields added to [filing]. *)
Definition newYorkPass (sc : NyConstants) (agi totalStateWithheld : number)
  : NyFiling :=
  let nyStdDed := ny_stdDeduction sc in
  let nyTaxable := max (js 0) (sub agi nyStdDed) in
  let nyTax := computeTaxFromBrackets nyTaxable (ny_brackets sc) in
  {| nyStdDeduction := nyStdDed;
     nyDeduction := nyStdDed;
     nyTaxableIncome := nyTaxable;
     nyTax := nyTax;
     nyCredits := js 0;
     nyResult := sub totalStateWithheld nyTax |}.

(** [computeAndRenderTaxes()]: the [filing] object it stores in the
    session. *)
Definition computeAndRenderTaxes (s : Session) : Filing :=
  let stateId := getStateId s in
  let c := getTaxConstants (taxYear s) stateId (Some (filingStatus s)) in
  let fed := fed c in
  let fy := fedYear fed in
  let sc := state c in
  (* Aggregate income *)
  let totalW2 :=
    sumOf (fun i => or_else (wages i) (js 0)) (List.filter (ofType "W-2") (incomes s)) in
  let totalNEC :=
    sumOf (fun i => or_else (nonemployee_compensation i) (js 0))
          (List.filter (ofType "1099-NEC") (incomes s)) in
  let totalINT :=
    sumOf (fun i => or_else (interest_income i) (js 0))
          (List.filter (ofType "1099-INT") (incomes s)) in
  let totalDIV :=
    sumOf (fun i => or_else (ordinary_dividends i) (js 0))
          (List.filter (ofType "1099-DIV") (incomes s)) in
  let totalCapGains := or_else (manualEntries s !! "capitalGains") (js 0) in
  let otherIncome := or_else (manualEntries s !! "otherIncome") (js 0) in
  let totalIncome :=
    add (add (add (add (add totalW2 totalNEC) totalINT) totalDIV) totalCapGains)
        otherIncome in
  (* Self-employment tax *)
  let seTax := selfEmploymentTax fy totalNEC in
  let seDeduction := selfEmploymentDeduction seTax in
  (* Adjustments *)
  let capped (key : string) (limit : number) (adj : number) : number :=
    if truthy_opt (manualEntries s !! key)
    then add adj (min (or_else (manualEntries s !! key) (js 0)) limit)
    else adj in
  let adjustments := seDeduction in
  let adjustments :=
    capped "contribution401k" (or_else (Some (Fed.contrib401kLimit fy)) (js 23500))
           adjustments in
  let adjustments :=
    capped "contributionIRA" (or_else (Some (Fed.contribIRALimit fy)) (js 7000))
           adjustments in
  let adjustments :=
    capped "contributionHSA" (or_else (Some (Fed.contribHSASelf fy)) (js 4300))
           adjustments in
  let adjustments :=
    capped "studentLoanInterest" (or_else (Some (Fed.studentLoanMax fy)) (js 2500))
           adjustments in
  let adjustments :=
    if truthy_opt (manualEntries s !! "seHealthInsurance")
    then add adjustments (or_else (manualEntries s !! "seHealthInsurance") (js 0))
    else adjustments in
  let adjustments :=
    if answered_yes (gapAnswers s) "isEducator"
    then add adjustments (or_else (Some (Fed.educatorExpense fy)) (js 300))
    else adjustments in
  let agi := sub totalIncome adjustments in
  (* Deduction *)
  let stdDeduction := fed_stdDeduction fed in
  let isItemized := String.eqb (deductionType s) "itemized" in
  let itemizedTotal :=
    if isItemized
    then add (add (add (mortgage (itemized s))
                       (min (salt (itemized s))
                            (or_else (Some (Fed.saltCap fy)) (js 10000))))
                  (charitable (itemized s)))
             (medical (itemized s))
    else js 0 in
  let deduction := if isItemized then itemizedTotal else stdDeduction in
  (* Home office deduction (SE only) *)
  let homeOfficeDeduction :=
    if truthy_opt (manualEntries s !! "homeOfficeSqft") && gtb totalNEC (js 0)
    then min (mul (or_else (manualEntries s !! "homeOfficeSqft") (js 0)) (js 5)) (js 1500)
    else js 0 in
  (* Business mileage (SE only) *)
  let mileageDeduction :=
    if truthy_opt (manualEntries s !! "businessMiles") && gtb totalNEC (js 0)
    then round (mul (or_else (manualEntries s !! "businessMiles") (js 0))
                    (or_else (Some (Fed.mileageRate fy)) (js 0.70)))
    else js 0 in
  let taxableIncome :=
    max (js 0) (sub (sub (sub agi deduction) homeOfficeDeduction) mileageDeduction) in
  (* Federal tax *)
  let fedIncomeTax := computeTaxFromBrackets taxableIncome (fed_brackets fed) in
  (* Credits *)
  let totalCredits :=
    add (add (add (or_else (credits s !! "ctc") (js 0))
                  (or_else (credits s !! "education") (js 0)))
             (or_else (credits s !! "ev") (js 0)))
        (or_else (credits s !! "childcare") (js 0)) in
  let fedTaxAfterCredits := max (js 0) (sub fedIncomeTax totalCredits) in
  let totalFedTax := add fedTaxAfterCredits seTax in
  (* Withholding *)
  let totalFedWithheld :=
    sumOf (fun i => or_else (fed_income_tax_withheld i) (js 0)) (incomes s) in
  let fedResult := sub totalFedWithheld totalFedTax in
  (* State *)
  let totalStateWithheld :=
    sumOf (fun i =>
             if truthy_opt (state_income_tax_withheld i)
             then or_else (state_income_tax_withheld i) (js 0)
             else or_else (state_tax_withheld i) (js 0))
          (incomes s) in
  (* CA computation *)
  let caFiling :=
    match stateId, sc with
    | Some california, Some (CaState sc) =>
        Some (californiaPass s sc agi totalStateWithheld)
    | _, _ => None
    end in
  (* NY computation *)
  let nyFiling :=
    match stateId, sc with
    | Some newYork, Some (NyState sc) => Some (newYorkPass sc agi totalStateWithheld)
    | _, _ => None
    end in
  {| filing_filingStatus := filingStatus s;
     totalW2Wages := totalW2;
     totalNEC := totalNEC;
     totalInterest := totalINT;
     totalDividends := totalDIV;
     capitalGains := totalCapGains;
     otherIncome := otherIncome;
     totalIncome := totalIncome;
     adjustments := adjustments;
     agi := agi;
     deduction := deduction;
     filing_deductionType := deductionType s;
     standardDeduction := stdDeduction;
     taxableIncome := taxableIncome;
     fedIncomeTax := fedIncomeTax;
     seTax := seTax;
     totalCredits := totalCredits;
     fedTaxAfterCredits := fedTaxAfterCredits;
     totalFedTax := totalFedTax;
     totalFedWithheld := totalFedWithheld;
     fedResult := fedResult;
     totalStateWithheld := totalStateWithheld;
     homeOfficeDeduction := homeOfficeDeduction;
     mileageDeduction := mileageDeduction;
     ca := caFiling;
     ny := nyFiling |}.

End Wizard.

(* ================================================================== *)
(** * taxes/rules.js: the rules engine                                  *)
(* ================================================================== *)

(** The outcome of calling a JavaScript function: it returns a value or
    throws an [Error] carrying a message. *)
Inductive Completion (A : Type) : Type :=
| Normal (a : A)
| Throw (message : string).
Arguments Normal {A} a.
Arguments Throw {A} message.

Module Rules.
Import TaxData Wizard.

(** [status]: 'pass' | 'fail' | 'warn' | 'skip'. *)
Inductive Status : Type := pass | fail | warn | skip.

Definition Status_eqb (a b : Status) : bool :=
  match a, b with
  | pass, pass | fail, fail | warn, warn | skip, skip => true
  | _, _ => false
  end.

(** What a rule's [check] returns. *)
Record Verdict : Type := {
  status : Status;
  currentValue : string;
  expectedValue : string;
  extracted : bool;
  detail : string
}.

Record TaxCode : Type := {
  section : string;
  form : string;
  line : string
}.

(** A rule of the [RULES] table over states of type [State]. *)
Record Rule (State : Type) : Type := {
  id : string;
  name : string;
  taxCode : TaxCode;
  scenarios : list string;
  stage : string;
  type : string;
  severity : string;
  check : State -> Completion Verdict
}.
Arguments id {State} _.
Arguments name {State} _.
Arguments taxCode {State} _.
Arguments scenarios {State} _.
Arguments stage {State} _.
Arguments type {State} _.
Arguments severity {State} _.
Arguments check {State} _ _.

(** One element of [results]: the rule's descriptive fields followed by
    the spread verdict. *)
Record Result : Type := {
  r_id : string;
  r_name : string;
  r_taxCode : TaxCode;
  r_scenarios : list string;
  r_stage : string;
  r_type : string;
  r_severity : string;
  r_verdict : Verdict
}.

Record Summary : Type := {
  total : nat;
  passed : nat;
  failed : nat;
  warnings : nat;
  skipped : nat;
  score : number
}.

Record SavingsSummary : Type := {
  sav_total : nat;
  opportunities : nat;
  evaluated : nat;
  sav_skipped : nat
}.

(** The value returned by [runRulesEngine]; its constant fields [stages]
    and [scenarios] are left out. *)
Record EngineOutput : Type := {
  results : list Result;
  summary : Summary;
  complianceSummary : Summary;
  savingsSummary : SavingsSummary
}.

Section Engine.

Context {State : Type}.

(** [scenarios.includes(x)]. *)
Definition includes (l : list string) (x : string) : bool :=
  existsb (String.eqb x) l.

(** [scenarioFilter ? RULES.filter(r => r.scenarios.includes(scenarioFilter)) : RULES];
    a missing filter and the empty string are falsy. *)
Definition applicableRules (RULES : list (Rule State)) (scenarioFilter : option string)
  : list (Rule State) :=
  match scenarioFilter with
  | Some f =>
      if String.eqb f "" then RULES
      else List.filter (fun r => includes (scenarios r) f) RULES
  | None => RULES
  end.

(** The body of [applicableRules.map(rule => { try { ... } catch (e) { ... } })]. *)
Definition runRule (state : State) (rule : Rule State) : Result :=
  let verdict :=
    match check rule state with
    | Normal result => result
    | Throw message =>
        {| status := skip;
           currentValue := "—";
           expectedValue := "—";
           extracted := false;
           detail := "Error running check: " +:+ message |}
    end in
  {| r_id := id rule;
     r_name := name rule;
     r_taxCode := taxCode rule;
     r_scenarios := scenarios rule;
     r_stage := stage rule;
     r_type := type rule;
     r_severity := severity rule;
     r_verdict := verdict |}.

Definition hasStatus (st : Status) (r : Result) : bool :=
  Status_eqb (status (r_verdict r)) st.

Definition hasType (t : string) (r : Result) : bool := String.eqb (r_type r) t.

Definition count (p : Result -> bool) (l : list Result) : nat :=
  length (List.filter p l).

(** [r.status === 'pass' ? 1 : r.status === 'warn' ? 0.5 : 0]. *)
Definition pointsOf (r : Result) : number :=
  match status (r_verdict r) with
  | pass => js 1
  | warn => js 0.5
  | _ => js 0
  end.

(** The score of a list of results: [0] when nothing was scored,
    otherwise [Math.round((points / scored.length) * 100)]. *)
Definition scoreOf (l : list Result) : number :=
  let scored := List.filter (fun r => negb (hasStatus skip r)) l in
  if (0 <? length scored)%nat then
    let points := fold_left (fun sum r => add sum (pointsOf r)) scored (js 0) in
    round (mul (div points (of_nat (length scored))) (js 100))
  else js 0.

Definition summarize (l : list Result) : Summary :=
  {| total := length l;
     passed := count (hasStatus pass) l;
     failed := count (hasStatus fail) l;
     warnings := count (hasStatus warn) l;
     skipped := count (hasStatus skip) l;
     score := scoreOf l |}.

(** [runRulesEngine(state, scenarioFilter)] over the table [RULES]. *)
Definition runRulesEngine (RULES : list (Rule State)) (state : State)
    (scenarioFilter : option string) : EngineOutput :=
  let results := List.map (runRule state) (applicableRules RULES scenarioFilter) in
  let complianceResults := List.filter (hasType "compliance") results in
  let savingsResults := List.filter (hasType "savings") results in
  {| results := results;
     summary := summarize results;
     complianceSummary := summarize complianceResults;
     savingsSummary :=
       {| sav_total := length savingsResults;
          opportunities := count (hasStatus warn) savingsResults;
          evaluated := count (fun r => negb (hasStatus skip r)) savingsResults;
          sav_skipped := count (hasStatus skip) savingsResults |} |}.

End Engine.

(** ** The state the wizard passes to the engine, and rules of the table *)

Record Document : Type := {
  doc_status : string
}.

(** [{ documents, incomes, filing, taxYear, stateId }].  A field the
    caller left out is [None]. *)
Record State : Type := {
  documents : option (list Document);
  st_incomes : option (list Income);
  filing : option Filing;
  st_taxYear : Z;
  stateId : option StateId
}.

(** Reading a property of [undefined] throws a [TypeError]. *)
Definition propertyOf {A B : Type} (o : option A) (prop : string)
    (k : A -> Completion B) : Completion B :=
  match o with
  | Some a => k a
  | None =>
      Throw ("Cannot read properties of undefined (reading '" +:+ prop +:+ "')")
  end.

Definition all_scenarios : list string := ["fed-w2"; "fed-1099"; "ca-w2"; "ca-1099"].

(** Rule dc-01. *)
Definition rule_dc_01 : Rule State :=
  {| id := "dc-01";
     name := "W-2 Present";
     taxCode := {| section := "IRC 6051"; form := "W-2"; line := "All" |};
     scenarios := ["fed-w2"; "ca-w2"];
     stage := "income";
     type := "compliance";
     severity := "warning";
     check := fun s =>
       propertyOf (st_incomes s) "filter" (fun incomes =>
         let w2s := List.filter (ofType "W-2") incomes in
         let found := (0 <? length w2s)%nat in
         Normal
           {| status := if found then pass else warn;
              currentValue := pretty (length w2s) +:+ " W-2(s)";
              expectedValue := "≥1 W-2";
              extracted := found;
              detail :=
                if found
                then "Found " +:+ pretty (length w2s) +:+ " W-2 document(s)"
                else "No W-2 uploaded — skip if self-employed only" |}) |}.

(** Rule dc-02. *)
Definition rule_dc_02 : Rule State :=
  {| id := "dc-02";
     name := "All Documents Processed";
     taxCode := {| section := "General"; form := "N/A"; line := "N/A" |};
     scenarios := all_scenarios;
     stage := "income";
     type := "compliance";
     severity := "error";
     check := fun s =>
       propertyOf (documents s) "length" (fun docs =>
         let total := length docs in
         let processed :=
           length (List.filter (fun d => String.eqb (doc_status d) "processed") docs) in
         Normal
           {| status :=
                if (total =? 0)%nat then skip
                else if (processed =? total)%nat then pass else fail;
              currentValue := pretty processed +:+ "/" +:+ pretty total;
              expectedValue := pretty total +:+ "/" +:+ pretty total;
              extracted := (processed =? total)%nat;
              detail :=
                if (processed =? total)%nat
                then "All documents processed successfully"
                else pretty (total - processed)%nat +:+ " document(s) still pending" |}) |}.

(** Rule dc-05. *)
Definition rule_dc_05 : Rule State :=
  {| id := "dc-05";
     name := "Tax Year Match";
     taxCode := {| section := "IRC 441"; form := "1040"; line := "Header" |};
     scenarios := all_scenarios;
     stage := "income";
     type := "compliance";
     severity := "error";
     check := fun s =>
       propertyOf (st_incomes s) "length" (fun incomes =>
         if (length incomes =? 0)%nat then
           Normal {| status := skip; currentValue := "—"; expectedValue := "2025";
                     extracted := false; detail := "No documents" |}
         else
           Normal {| status := pass; currentValue := "2025"; expectedValue := "2025";
                     extracted := true;
                     detail := "Documents appear to be for the correct tax year (verify manually)" |}) |}.

(** Rule wh-05, tagged with the scenario 'ca-w2' only. *)
Definition rule_wh_05 : Rule State :=
  {| id := "wh-05";
     name := "State Withholding Present";
     taxCode := {| section := "CA RTC 18662"; form := "W-2"; line := "Box 17" |};
     scenarios := ["ca-w2"];
     stage := "income";
     type := "compliance";
     severity := "warning";
     check := fun s =>
       propertyOf (st_incomes s) "filter" (fun incomes =>
         let w2s :=
           List.filter
             (fun i => ofType "W-2" i && gtb (or_else (state_wages i) (js 0)) (js 0))
             incomes in
         if (length w2s =? 0)%nat then
           Normal {| status := skip; currentValue := "—"; expectedValue := "Present";
                     extracted := false; detail := "No state wages" |}
         else
           let missing :=
             List.filter
               (fun w => eqb (or_else (state_income_tax_withheld w) (js 0)) (js 0))
               w2s in
           let some_missing := (0 <? length missing)%nat in
           Normal
             {| status := if some_missing then warn else pass;
                currentValue :=
                  if some_missing then pretty (length missing) +:+ " missing"
                  else "All present";
                expectedValue := "Present";
                extracted := true;
                detail :=
                  if some_missing
                  then "Some W-2s show state wages but no state withholding"
                  else "State withholding present on all W-2s with state wages" |}) |}.

(** Rule sav-adj-03, of type 'savings'. *)
Definition rule_sav_adj_03 : Rule State :=
  {| id := "sav-adj-03";
     name := "Educator Expense Deduction";
     taxCode :=
       {| section := "IRC 62(a)(2)(D)"; form := "1040"; line := "Sch 1 Line 11" |};
     scenarios := ["fed-w2"];
     stage := "adjustments";
     type := "savings";
     severity := "info";
     check := fun _ =>
       Normal
         {| status := skip;
            currentValue := "N/A";
            expectedValue := "Up to $300";
            extracted := true;
            detail := "If you are a K-12 teacher, you may deduct up to $300 for unreimbursed classroom supplies. No 1098 or special form needed — just keep receipts." |} |}.

(** Rule ded-03 ([fmt(5540)] is "$5,540"). *)
Definition rule_ded_03 : Rule State :=
  {| id := "ded-03";
     name := "CA Standard Deduction";
     taxCode := {| section := "CA RTC 17073.5"; form := "540"; line := "18" |};
     scenarios := ["ca-w2"; "ca-1099"];
     stage := "deductions";
     type := "compliance";
     severity := "error";
     check := fun s =>
       match filing s with
       | None =>
           Normal {| status := skip; currentValue := "—"; expectedValue := "$5,540";
                     extracted := false; detail := "No filing data" |}
       | Some _ =>
           Normal {| status := pass; currentValue := "$5,540"; expectedValue := "$5,540";
                     extracted := true;
                     detail := "California standard deduction correctly applied" |}
       end |}.

(** Six rules of the [RULES] table, in table order. *)
Definition RULES_excerpt : list (Rule State) :=
  [rule_dc_01; rule_dc_02; rule_dc_05; rule_wh_05; rule_sav_adj_03; rule_ded_03].

(** ** The table [RULES] *)

(** A rule of the table from its descriptive fields; its predicate is
    [checkOf ident]. *)
Definition rule (checkOf : string -> State -> Completion Verdict)
    (ident nm sec frm ln : string) (scen : list string) (stg ty sev : string)
  : Rule State :=
  {| id := ident;
     name := nm;
     taxCode := {| section := sec; form := frm; line := ln |};
     scenarios := scen;
     stage := stg;
     type := ty;
     severity := sev;
     check := checkOf ident |}.

(** The 69 rules of [RULES] in table order, with their id, name, tax
    code, scenarios, stage, type and severity.  The predicates are the
    family [checkOf], indexed by the rule's id: the engine treats them as
    opaque functions of the state. *)
Definition RULES (checkOf : string -> State -> Completion Verdict)
  : list (Rule State) :=
  [
    rule checkOf "dc-01" "W-2 Present"
         "IRC 6051" "W-2" "All"
         ["fed-w2"; "ca-w2"] "income" "compliance" "warning";
    rule checkOf "dc-02" "All Documents Processed"
         "General" "N/A" "N/A"
         ["fed-w2"; "fed-1099"; "ca-w2"; "ca-1099"] "income" "compliance" "error";
    rule checkOf "dc-03" "Document Legibility"
         "General" "N/A" "N/A"
         ["fed-w2"; "fed-1099"; "ca-w2"; "ca-1099"] "income" "compliance" "warning";
    rule checkOf "dc-04" "Document Type Identified"
         "General" "N/A" "N/A"
         ["fed-w2"; "fed-1099"; "ca-w2"; "ca-1099"] "income" "compliance" "warning";
    rule checkOf "dc-05" "Tax Year Match"
         "IRC 441" "1040" "Header"
         ["fed-w2"; "fed-1099"; "ca-w2"; "ca-1099"] "income" "compliance" "error";
    rule checkOf "id-01" "SSN Consistency"
         "IRC 6109" "1040" "Header"
         ["fed-w2"; "fed-1099"; "ca-w2"; "ca-1099"] "income" "compliance" "error";
    rule checkOf "id-02" "EIN Format Valid"
         "IRC 6109" "W-2" "Box b"
         ["fed-w2"; "fed-1099"; "ca-w2"; "ca-1099"] "income" "compliance" "warning";
    rule checkOf "id-03" "Employee Name Consistency"
         "IRC 6109" "W-2" "Box e"
         ["fed-w2"; "fed-1099"; "ca-w2"; "ca-1099"] "income" "compliance" "warning";
    rule checkOf "id-04" "Filing Status Determined"
         "IRC 1(a)-(d)" "1040" "Filing Status"
         ["fed-w2"; "fed-1099"; "ca-w2"; "ca-1099"] "income" "compliance" "info";
    rule checkOf "id-05" "State Residency Identified"
         "CA RTC 17014" "540" "Header"
         ["ca-w2"; "ca-1099"] "income" "compliance" "warning";
    rule checkOf "inc-01" "W-2 Wages to 1040 Line 1a"
         "IRC 61(a)" "1040" "1a"
         ["fed-w2"] "income" "compliance" "error";
    rule checkOf "inc-02" "1099-NEC to Schedule C"
         "IRC 61(a)(2)" "Schedule C" "1"
         ["fed-1099"] "income" "compliance" "error";
    rule checkOf "inc-03" "Interest Income Reported"
         "IRC 61(a)(4)" "1040" "2b"
         ["fed-w2"; "fed-1099"] "income" "compliance" "error";
    rule checkOf "inc-04" "Dividend Income Reported"
         "IRC 61(a)(7)" "1040" "3b"
         ["fed-w2"; "fed-1099"] "income" "compliance" "error";
    rule checkOf "inc-05" "No Duplicate Documents"
         "General" "N/A" "N/A"
         ["fed-w2"; "fed-1099"; "ca-w2"; "ca-1099"] "income" "compliance" "warning";
    rule checkOf "inc-06" "Total Income Computed"
         "IRC 61" "1040" "9"
         ["fed-w2"; "fed-1099"] "income" "compliance" "error";
    rule checkOf "inc-07" "Qualified Dividends ≤ Ordinary"
         "IRC 1(h)(11)" "1040" "3a/3b"
         ["fed-w2"; "fed-1099"] "income" "compliance" "error";
    rule checkOf "inc-08" "Income Sources Non-Negative"
         "General" "N/A" "N/A"
         ["fed-w2"; "fed-1099"; "ca-w2"; "ca-1099"] "income" "compliance" "error";
    rule checkOf "wh-01" "Federal Withholding Rate"
         "IRC 3402" "W-2" "Box 2"
         ["fed-w2"] "income" "compliance" "warning";
    rule checkOf "wh-02" "Social Security Tax = 6.2%"
         "IRC 3101(a)" "W-2" "Box 4"
         ["fed-w2"] "income" "compliance" "warning";
    rule checkOf "wh-03" "Medicare Tax = 1.45%"
         "IRC 3101(b)" "W-2" "Box 6"
         ["fed-w2"] "income" "compliance" "warning";
    rule checkOf "wh-04" "SS Wages ≤ Wage Base"
         "IRC 3121(a)(1)" "W-2" "Box 3"
         ["fed-w2"] "income" "compliance" "warning";
    rule checkOf "wh-05" "State Withholding Present"
         "CA RTC 18662" "W-2" "Box 17"
         ["ca-w2"] "income" "compliance" "warning";
    rule checkOf "wh-06" "Withholding ≤ Income"
         "General" "N/A" "N/A"
         ["fed-w2"; "fed-1099"; "ca-w2"; "ca-1099"] "income" "compliance" "error";
    rule checkOf "adj-01" "SE Tax Deduction"
         "IRC 164(f)" "Schedule SE" "13"
         ["fed-1099"] "adjustments" "compliance" "error";
    rule checkOf "sav-adj-01" "Retirement Contribution Optimization"
         "IRC 219 / IRC 401(k)" "1040" "Sch 1 Line 20"
         ["fed-w2"; "fed-1099"] "adjustments" "savings" "info";
    rule checkOf "sav-adj-02" "HSA Contribution Check"
         "IRC 223" "8889" "2"
         ["fed-w2"; "fed-1099"] "adjustments" "savings" "info";
    rule checkOf "sav-adj-03" "Educator Expense Deduction"
         "IRC 62(a)(2)(D)" "1040" "Sch 1 Line 11"
         ["fed-w2"] "adjustments" "savings" "info";
    rule checkOf "sav-adj-04" "Student Loan Interest Deduction"
         "IRC 221" "1040" "Sch 1 Line 21"
         ["fed-w2"; "fed-1099"] "adjustments" "savings" "info";
    rule checkOf "sav-adj-05" "Self-Employed Health Insurance"
         "IRC 162(l)" "1040" "Sch 1 Line 17"
         ["fed-1099"] "adjustments" "savings" "info";
    rule checkOf "sav-adj-06" "IRA Contribution Eligibility"
         "IRC 219(b)" "1040" "Sch 1 Line 20"
         ["fed-w2"; "fed-1099"] "adjustments" "savings" "info";
    rule checkOf "ded-01" "Standard Deduction Applied"
         "IRC 63(c)" "1040" "13"
         ["fed-w2"; "fed-1099"] "deductions" "compliance" "error";
    rule checkOf "ded-02" "Taxable Income Non-Negative"
         "IRC 63" "1040" "15"
         ["fed-w2"; "fed-1099"] "deductions" "compliance" "error";
    rule checkOf "ded-03" "CA Standard Deduction"
         "CA RTC 17073.5" "540" "18"
         ["ca-w2"; "ca-1099"] "deductions" "compliance" "error";
    rule checkOf "sav-ded-01" "Standard vs Itemized Analysis"
         "IRC 63(d)-(e)" "1040" "12-13"
         ["fed-w2"; "fed-1099"] "deductions" "savings" "info";
    rule checkOf "sav-ded-02" "SALT Deduction Cap Awareness"
         "IRC 164(b)(6)" "Schedule A" "5d"
         ["fed-w2"; "fed-1099"] "deductions" "savings" "info";
    rule checkOf "sav-ded-03" "Home Office Deduction (1099)"
         "IRC 280A" "Schedule C" "30"
         ["fed-1099"] "deductions" "savings" "info";
    rule checkOf "sav-ded-04" "QBI Deduction Eligibility"
         "IRC 199A" "8995" "15"
         ["fed-1099"] "deductions" "savings" "info";
    rule checkOf "sav-ded-05" "Business Mileage Deduction"
         "IRC 162(a)" "Schedule C" "9"
         ["fed-1099"] "deductions" "savings" "info";
    rule checkOf "cr-01" "Child Tax Credit"
         "IRC 24" "1040" "19"
         ["fed-w2"; "fed-1099"] "credits" "compliance" "info";
    rule checkOf "cr-02" "Earned Income Credit"
         "IRC 32" "1040" "27"
         ["fed-w2"; "fed-1099"] "credits" "compliance" "warning";
    rule checkOf "cr-03" "Education Credits"
         "IRC 25A" "8863" "19/31"
         ["fed-w2"; "fed-1099"] "credits" "compliance" "info";
    rule checkOf "cr-04" "Saver's Credit"
         "IRC 25B" "8880" "4"
         ["fed-w2"; "fed-1099"] "credits" "compliance" "info";
    rule checkOf "sav-cr-01" "CA Renter's Credit"
         "CA RTC 17053.5" "540" "46"
         ["ca-w2"; "ca-1099"] "credits" "savings" "info";
    rule checkOf "sav-cr-02" "Energy Efficiency Home Credit"
         "IRC 25C" "5695" "14"
         ["fed-w2"; "fed-1099"] "credits" "savings" "info";
    rule checkOf "sav-cr-03" "Clean Vehicle Credit"
         "IRC 30D" "8936" "6"
         ["fed-w2"; "fed-1099"] "credits" "savings" "info";
    rule checkOf "tc-01" "AGI Correctly Computed"
         "IRC 62" "1040" "11"
         ["fed-w2"; "fed-1099"] "computation" "compliance" "error";
    rule checkOf "tc-02" "Federal Tax Brackets Applied"
         "IRC 1(a)-(d)" "1040" "16"
         ["fed-w2"; "fed-1099"] "computation" "compliance" "error";
    rule checkOf "tc-03" "Self-Employment Tax"
         "IRC 1401" "Schedule SE" "12"
         ["fed-1099"] "computation" "compliance" "error";
    rule checkOf "tc-04" "Total Tax Computed"
         "IRC 1/1401" "1040" "24"
         ["fed-w2"; "fed-1099"] "computation" "compliance" "error";
    rule checkOf "tc-05" "Federal Refund/Balance Correct"
         "IRC 6401/6402" "1040" "34/37"
         ["fed-w2"; "fed-1099"] "computation" "compliance" "error";
    rule checkOf "tc-06" "Effective Tax Rate Reasonable"
         "General" "1040" "N/A"
         ["fed-w2"; "fed-1099"] "computation" "compliance" "warning";
    rule checkOf "ca-01" "Federal AGI Flows to CA"
         "CA RTC 17071" "540" "13"
         ["ca-w2"; "ca-1099"] "computation" "compliance" "error";
    rule checkOf "ca-02" "CA Tax Brackets Applied"
         "CA RTC 17041" "540" "Tax Table"
         ["ca-w2"; "ca-1099"] "computation" "compliance" "error";
    rule checkOf "ca-03" "CA Mental Health Tax"
         "CA RTC 17043" "540" "32a"
         ["ca-w2"; "ca-1099"] "computation" "compliance" "warning";
    rule checkOf "ca-04" "CA Withholding Applied"
         "CA RTC 18662" "540" "71"
         ["ca-w2"; "ca-1099"] "computation" "compliance" "warning";
    rule checkOf "ca-05" "CA Refund/Balance Correct"
         "CA RTC 19001" "540" "93/100"
         ["ca-w2"; "ca-1099"] "computation" "compliance" "error";
    rule checkOf "sav-comp-01" "Estimated Tax Penalty Avoidance"
         "IRC 6654" "2210" "1"
         ["fed-1099"] "computation" "savings" "warning";
    rule checkOf "sav-comp-02" "CA SDI Overpayment Check"
         "CA UI Code 984" "540" "74"
         ["ca-w2"] "computation" "savings" "info";
    rule checkOf "ma-01" "Income Additions Verified"
         "IRC 61" "1040" "9"
         ["fed-w2"; "fed-1099"; "ca-w2"; "ca-1099"] "optimization" "compliance" "error";
    rule checkOf "ma-02" "No Negative Tax Values"
         "General" "N/A" "N/A"
         ["fed-w2"; "fed-1099"; "ca-w2"; "ca-1099"] "optimization" "compliance" "error";
    rule checkOf "ma-03" "Decimal Precision"
         "IRC 6102" "N/A" "N/A"
         ["fed-w2"; "fed-1099"; "ca-w2"; "ca-1099"] "optimization" "compliance" "info";
    rule checkOf "ma-04" "Withholding Sum Verified"
         "IRC 3402" "1040" "25"
         ["fed-w2"; "fed-1099"; "ca-w2"; "ca-1099"] "optimization" "compliance" "error";
    rule checkOf "ma-05" "AGI ≤ Total Income"
         "IRC 62" "1040" "11"
         ["fed-w2"; "fed-1099"; "ca-w2"; "ca-1099"] "optimization" "compliance" "error";
    rule checkOf "ar-01" "Round Number Check"
         "IRS DIF Score" "N/A" "N/A"
         ["fed-w2"; "fed-1099"; "ca-w2"; "ca-1099"] "optimization" "compliance" "info";
    rule checkOf "ar-02" "High Income Flag"
         "IRS DIF Score" "N/A" "N/A"
         ["fed-w2"; "fed-1099"; "ca-w2"; "ca-1099"] "optimization" "compliance" "info";
    rule checkOf "ar-03" "Schedule C Loss Ratio"
         "IRC 183" "Schedule C" "31"
         ["fed-1099"] "optimization" "compliance" "warning";
    rule checkOf "ar-04" "Withholding Pattern"
         "General" "N/A" "N/A"
         ["fed-w2"] "optimization" "compliance" "info";
    rule checkOf "ar-05" "Multiple Income Sources"
         "General" "N/A" "N/A"
         ["fed-w2"; "fed-1099"; "ca-w2"; "ca-1099"] "optimization" "compliance" "info" ].

End Rules.

(* ================================================================== *)
(** * taxes/gap-analysis.js: follow-up questions                        *)
(* ================================================================== *)

Module GapAnalysis.
Import TaxData Wizard.

(** A gap rule.  [field], [placeholder] and [docType] are present only
    for some follow-up kinds. *)
Record GapRule : Type := {
  id : string;
  question : string;
  hint : string;
  condition : Session -> Completion bool;
  followUp : string;
  field : option string;
  placeholder : option string;
  docType : option string
}.

(** [s.incomes.some(i => i.doc_type === t)]. *)
Definition hasDoc (t : string) (s : Session) : bool :=
  existsb (ofType t) (incomes s).

(** [s.incomes.some(i => i.doc_type === 'W-2' && i.box12_codes &&
    i.box12_codes.some(c => codes.includes(c.code) && c.amount > 0))]. *)
Definition hasBox12 (codes : list string) (s : Session) : bool :=
  existsb
    (fun i =>
       ofType "W-2" i &&
       match box12_codes i with
       | Some cs =>
           existsb
             (fun c =>
                existsb (String.eqb (code c)) codes &&
                match amount c with Some a => gtb a (js 0) | None => false end)
             cs
       | None => false
       end)
    (incomes s).

Definition GAP_RULES : list GapRule :=
  [ (* RETIREMENT *)
    {| id := "has401k";
       question := "Did you contribute to a 401(k) or 403(b) in this tax year?";
       hint := "Employer-sponsored retirement plan contributions reduce your taxable income.";
       condition := fun s =>
         Normal (negb (hasBox12 ["D"; "E"; "F"; "G"; "AA"; "BB"] s));
       followUp := "amount";
       field := Some "contribution401k";
       placeholder := Some "Total 401(k) contributions";
       docType := None |};
    {| id := "hasIRA";
       question := "Did you contribute to a Traditional IRA?";
       hint := "Traditional IRA contributions may be tax-deductible depending on income.";
       condition := fun s => Normal true;
       followUp := "amount";
       field := Some "contributionIRA";
       placeholder := Some "IRA contribution amount";
       docType := None |};
    {| id := "hasHSA";
       question := "Did you contribute to a Health Savings Account (HSA)?";
       hint := "HSA contributions are tax-deductible if you have a high-deductible health plan.";
       condition := fun s => Normal (negb (hasBox12 ["W"] s));
       followUp := "amount";
       field := Some "contributionHSA";
       placeholder := Some "HSA contribution amount";
       docType := None |};
    (* HOUSING *)
    {| id := "hasMortgage";
       question := "Did you pay mortgage interest this year?";
       hint := "You would have received a Form 1098 from your lender.";
       condition := fun s => Normal (negb (hasDoc "1098" s));
       followUp := "amount_or_upload";
       field := Some "mortgageInterest";
       placeholder := Some "Total mortgage interest paid";
       docType := Some "1098" |};
    {| id := "isRenter";
       question := "Do you pay rent in California?";
       hint := "California residents with income under ~$50K may qualify for a renter's credit.";
       condition := fun s =>
         Normal match stateOfResidence s with
                | Some st => String.eqb st "CA"
                | None => false
                end;
       followUp := "yesno";
       field := None;
       placeholder := None;
       docType := None |};
    (* TAXES PAID *)
    {| id := "hasSALT";
       question := "Did you pay state and local taxes beyond paycheck withholding?";
       hint := "Property taxes, estimated tax payments, or prior-year balance due. SALT deduction is capped at $10,000.";
       condition := fun s => Normal true;
       followUp := "amount";
       field := Some "saltExtra";
       placeholder := Some "Additional state/local/property taxes paid";
       docType := None |};
    (* CHARITABLE *)
    {| id := "hasCharitable";
       question := "Did you make charitable donations over $250?";
       hint := "Cash and non-cash contributions to qualified organizations.";
       condition := fun s => Normal true;
       followUp := "amount";
       field := Some "charitableDonations";
       placeholder := Some "Total charitable contributions";
       docType := None |};
    (* EDUCATION *)
    {| id := "hasStudentLoan";
       question := "Did you pay student loan interest?";
       hint := "Up to $2,500 in student loan interest is deductible. You would have received a 1098-E.";
       condition := fun s => Normal (negb (hasDoc "1098-E" s));
       followUp := "amount_or_upload";
       field := Some "studentLoanInterest";
       placeholder := Some "Student loan interest paid";
       docType := Some "1098-E" |};
    {| id := "hasTuition";
       question := "Did you pay college tuition or education expenses?";
       hint := "You may qualify for the American Opportunity or Lifetime Learning credit. You would have received a 1098-T.";
       condition := fun s => Normal (negb (hasDoc "1098-T" s));
       followUp := "amount_or_upload";
       field := Some "tuitionPaid";
       placeholder := Some "Tuition and fees paid";
       docType := Some "1098-T" |};
    {| id := "isEducator";
       question := "Are you a K-12 teacher or educator?";
       hint := "Educators can deduct up to $300 for unreimbursed classroom expenses.";
       condition := fun s => Normal true;
       followUp := "yesno";
       field := None;
       placeholder := None;
       docType := None |};
    (* INVESTMENTS *)
    {| id := "hasSoldStocks";
       question := "Did you sell any stocks, bonds, or cryptocurrency?";
       hint := "You would have received a 1099-B from your brokerage.";
       condition := fun s => Normal (negb (hasDoc "1099-B" s));
       followUp := "amount_or_upload";
       field := Some "capitalGains";
       placeholder := Some "Net capital gain/loss";
       docType := Some "1099-B" |};
    (* SELF-EMPLOYMENT *)
    {| id := "hasSEHealthInsurance";
       question := "Are you self-employed and pay for your own health insurance?";
       hint := "Self-employed health insurance premiums are deductible above-the-line.";
       condition := fun s => Normal (hasDoc "1099-NEC" s);
       followUp := "amount";
       field := Some "seHealthInsurance";
       placeholder := Some "Annual health insurance premiums";
       docType := None |};
    {| id := "hasHomeOffice";
       question := "Do you use part of your home exclusively for business?";
       hint := "Self-employed individuals can deduct home office expenses (simplified: $5/sq ft, max 300 sq ft).";
       condition := fun s => Normal (hasDoc "1099-NEC" s);
       followUp := "amount";
       field := Some "homeOfficeSqft";
       placeholder := Some "Square footage of home office";
       docType := None |};
    {| id := "hasBusinessMileage";
       question := "Did you drive for business purposes?";
       hint := "Standard mileage rate applies for self-employed business driving.";
       condition := fun s => Normal (hasDoc "1099-NEC" s);
       followUp := "amount";
       field := Some "businessMiles";
       placeholder := Some "Total business miles driven";
       docType := None |};
    (* CREDITS *)
    {| id := "hasEV";
       question := "Did you purchase or lease a qualifying electric vehicle?";
       hint := "The Clean Vehicle Credit can be up to $7,500 for new EVs.";
       condition := fun s => Normal true;
       followUp := "yesno";
       field := None;
       placeholder := None;
       docType := None |};
    {| id := "hasEnergyImprovements";
       question := "Did you make energy-efficient home improvements?";
       hint := "Solar panels, heat pumps, insulation, etc. may qualify for the Residential Clean Energy Credit.";
       condition := fun s => Normal true;
       followUp := "yesno";
       field := None;
       placeholder := None;
       docType := None |};
    {| id := "hasChildcare";
       question := "Did you pay for childcare or dependent care expenses?";
       hint := "The Child and Dependent Care Credit covers up to $3,000 per child ($6,000 for 2+).";
       condition := fun s =>
         Normal (gtb (childrenUnder17 s) (js 0) || gtb (otherDependents s) (js 0));
       followUp := "amount";
       field := Some "childcareExpenses";
       placeholder := Some "Total childcare expenses";
       docType := None |};
    (* MISC INCOME *)
    {| id := "hasOtherIncome";
       question := "Did you have any other income not covered by documents above?";
       hint := "Gambling winnings, rental income, alimony received, jury duty, etc.";
       condition := fun s => Normal true;
       followUp := "amount";
       field := Some "otherIncome";
       placeholder := Some "Total other income";
       docType := None |} ].

(** The callback of the [filter] in [getGapQuestions]: a rule already
    answered is dropped; otherwise the rule is kept when its condition
    returns true, and dropped when it returns false or throws.  The
    session's [gapAnswers] is always an object, so the guard
    [session.gapAnswers &&] of the source is true. *)
Definition keepRule (session : Session) (rule : GapRule) : bool :=
  match gapAnswers session !! id rule with
  | Some _ => false
  | None =>
      match condition rule session with
      | Normal b => b
      | Throw _ => false
      end
  end.

(** [getGapQuestions(session)] over a table of gap rules. *)
Definition getGapQuestionsFrom (rules : list GapRule) (session : Session)
  : list GapRule :=
  List.filter (keepRule session) rules.

Definition getGapQuestions (session : Session) : list GapRule :=
  getGapQuestionsFrom GAP_RULES session.

(** [getAllGapRules()]. *)
Definition getAllGapRules : list GapRule := GAP_RULES.

End GapAnalysis.

(* ================================================================== *)
(** * Notions used in the statements                                    *)
(* ================================================================== *)

Module Notions.
Import TaxData Wizard Rules.

(** A bracket of a tax table: a positive width (possibly [Infinity]) and
    a finite, non-negative rate. *)
Definition wellFormedBracket (b : bracket) : bool :=
  ltb (js 0) (fst b) && leb (js 0) (snd b) && isFinite (snd b).

Definition wellFormedBrackets (brackets : list bracket) : bool :=
  forallb wellFormedBracket brackets.

(** The loop variables [(tax, remaining)] of [computeTaxFromBrackets]
    when the loop has gone through the brackets [pre] (or has left the
    loop inside them). *)
Fixpoint loopState (tax remaining : number) (pre : list bracket) : number * number :=
  match pre with
  | [] => (tax, remaining)
  | (width, rate) :: rest =>
      if leb remaining (js 0) then (tax, remaining)
      else
        let amt := min remaining width in
        loopState (add tax (mul amt rate)) (sub remaining amt) rest
  end.

(** The amount a bracket of width [w] takes from a positive remainder. *)
Definition amtQ (q : Q) (w : number) : Q :=
  match w with
  | Fin w' => if Qle_bool q w' then q else w'
  | _ => q
  end.

(** A tax accumulator: a non-negative binary64 value. *)
Definition taxok (t : number) : Prop := nonneg t /\ binary64 t.

(** The score as the specification words it: skipped verdicts are left
    out, a pass counts 1, a warning 0.5 and a failure 0, and the score
    is [100 * points / scored] rounded to the nearest integer (halves up),
    in exact arithmetic; [0] when nothing was scored. *)
Definition specScore (l : list Result) : number :=
  let P := Z.of_nat (count (hasStatus pass) l) in
  let W := Z.of_nat (count (hasStatus warn) l) in
  let n := Z.of_nat (count (fun r => negb (hasStatus skip r)) l) in
  if (n =? 0)%Z then js 0
  else
    Fin (inject_Z
           (Qfloor (100 * (inject_Z P + inject_Z W * (1 # 2)) / inject_Z n + (1 # 2)))).

(** The half-integer [k/2] as a number. *)
Definition half (k : Z) : number := Fin (Qred (k # 2)).

(** The score the engine computes from the numbers of passes, warnings
    and failures: [Math.round((points / scored) * 100)] in binary64
    arithmetic, with [points = passes + warnings / 2] (an exact value). *)
Definition scoreFormula (P W F : nat) : number :=
  if (P + W + F =? 0)%nat then js 0
  else round (mul (div (js (inject_Z (Z.of_nat P) + inject_Z (Z.of_nat W) * 0.5))
                       (js (inject_Z (Z.of_nat (P + W + F)))))
                  (js 100)).

Definition scoreByCounts (l : list Result) : number :=
  scoreFormula (count (hasStatus pass) l) (count (hasStatus warn) l)
               (count (hasStatus fail) l).

(** The filing status whose table the specification says a state uses:
    married-filing-separately and head-of-household are mapped onto
    single, qualifying-surviving-spouse onto married-filing-jointly. *)
Definition claimedStatus (fs : FilingStatus) : FilingStatus :=
  match fs with
  | mfs | hoh => single
  | qss => mfj
  | _ => fs
  end.

(** The bracket table and the standard deduction of the state constants
    returned by [getTaxConstants]. *)
Definition stateBrackets (c : TaxConstants) : option (list bracket) :=
  match state c with
  | Some (CaState sc) => Some (ca_brackets sc)
  | Some (NyState sc) => Some (ny_brackets sc)
  | None => None
  end.

Definition stateStdDeduction (c : TaxConstants) : option number :=
  match state c with
  | Some (CaState sc) => Some (ca_stdDeduction sc)
  | Some (NyState sc) => Some (ny_stdDeduction sc)
  | None => None
  end.

(** The year's tables of a state, with the fall-back to 2025. *)
Definition californiaYear (year : Z) : Ca.Year :=
  match CALIFORNIA_DATA (if year =? 0 then 2025 else year) with
  | Some y => y
  | None => CALIFORNIA_2025
  end.

Definition newYorkYear (year : Z) : Ny.Year :=
  match NEWYORK_DATA (if year =? 0 then 2025 else year) with
  | Some y => y
  | None => NEWYORK_2025
  end.

Definition federalYear (year : Z) : Fed.Year :=
  match FEDERAL_DATA (if year =? 0 then 2025 else year) with
  | Some y => y
  | None => FEDERAL_2025
  end.

Definition stateBracketTable (year : Z) (st : StateId) : StatusTable (list bracket) :=
  match st with
  | california => Ca.brackets (californiaYear year)
  | newYork => Ny.brackets (newYorkYear year)
  end.

Definition stateDeductionTable (year : Z) (st : StateId) : StatusTable number :=
  match st with
  | california => Ca.standardDeduction (californiaYear year)
  | newYork => Ny.standardDeduction (newYorkYear year)
  end.

(** The engine's score and the specification's score for [n] scored
    verdicts holding [k] half-points, and the pairs [(n, k)] with
    [n <= N] on which they differ. *)
Definition engineScore (k n : nat) : number :=
  round (mul (div (js (Z.of_nat k # 2)) (js (inject_Z (Z.of_nat n)))) (js 100)).

Definition exactScore (k n : nat) : number :=
  Fin (inject_Z
         (Qfloor (100 * (Z.of_nat k # 2) / inject_Z (Z.of_nat n) + (1 # 2)))).

Definition sameScore (k n : nat) : bool :=
  match engineScore k n, exactScore k n with
  | Fin a, Fin b => Qeq_bool a b
  | _, _ => false
  end.

Definition scoreDeviations (N : nat) : list (nat * nat) :=
  flat_map
    (fun n =>
       flat_map (fun k => if sameScore k n then [] else [(n, k)]) (seq 0 (2 * n + 1)))
    (seq 1 N).

(** Whether a rule passes the scenario filter. *)
Definition isApplicable {State : Type} (scenarioFilter : option string)
    (r : Rule State) : bool :=
  match scenarioFilter with
  | Some f => if String.eqb f "" then true else includes (scenarios r) f
  | None => true
  end.

End Notions.

(* ================================================================== *)
(** * Concrete sessions, states and rule tables                         *)
(* ================================================================== *)

Module Scenarios.
Import TaxData Wizard Rules GapAnalysis.

(** An income record of the given type with no field extracted. *)
Definition blankIncome (t : string) : Income :=
  {| doc_type := t;
     wages := None;
     nonemployee_compensation := None;
     interest_income := None;
     ordinary_dividends := None;
     fed_income_tax_withheld := None;
     state_income_tax_withheld := None;
     state_tax_withheld := None;
     state_wages := None;
     box12_codes := None |}.

(** The initial value of [taxSession]. *)
Definition initialSession : Session :=
  {| taxYear := 2025;
     filingStatus := single;
     stateOfResidence := None;
     childrenUnder17 := js 0;
     otherDependents := js 0;
     incomes := [];
     gapAnswers := ∅;
     manualEntries := ∅;
     deductionType := "standard";
     itemized :=
       {| mortgage := js 0; salt := js 0; charitable := js 0; medical := js 0 |};
     credits := ∅ |}.

Definition withIncomes (s : Session) (l : list Income) : Session :=
  {| taxYear := taxYear s;
     filingStatus := filingStatus s;
     stateOfResidence := stateOfResidence s;
     childrenUnder17 := childrenUnder17 s;
     otherDependents := otherDependents s;
     incomes := l;
     gapAnswers := gapAnswers s;
     manualEntries := manualEntries s;
     deductionType := deductionType s;
     itemized := itemized s;
     credits := credits s |}.

Definition withAnswers (s : Session) (a : gmap string bool) : Session :=
  {| taxYear := taxYear s;
     filingStatus := filingStatus s;
     stateOfResidence := stateOfResidence s;
     childrenUnder17 := childrenUnder17 s;
     otherDependents := otherDependents s;
     incomes := incomes s;
     gapAnswers := a;
     manualEntries := manualEntries s;
     deductionType := deductionType s;
     itemized := itemized s;
     credits := credits s |}.

Definition withState (s : Session) (st : option string) : Session :=
  {| taxYear := taxYear s;
     filingStatus := filingStatus s;
     stateOfResidence := st;
     childrenUnder17 := childrenUnder17 s;
     otherDependents := otherDependents s;
     incomes := incomes s;
     gapAnswers := gapAnswers s;
     manualEntries := manualEntries s;
     deductionType := deductionType s;
     itemized := itemized s;
     credits := credits s |}.

(** A W-2 with the given wages and federal and state withholding. *)
Definition w2 (w fedWithheld stateWithheld : number) : Income :=
  {| doc_type := "W-2";
     wages := Some w;
     nonemployee_compensation := None;
     interest_income := None;
     ordinary_dividends := None;
     fed_income_tax_withheld := Some fedWithheld;
     state_income_tax_withheld := Some stateWithheld;
     state_tax_withheld := None;
     state_wages := None;
     box12_codes := None |}.

(** A 1099-NEC with the given nonemployee compensation. *)
Definition nec (amount : number) : Income :=
  {| doc_type := "1099-NEC";
     wages := None;
     nonemployee_compensation := Some amount;
     interest_income := None;
     ordinary_dividends := None;
     fed_income_tax_withheld := None;
     state_income_tax_withheld := None;
     state_tax_withheld := None;
     state_wages := None;
     box12_codes := None |}.

(** The single filer of tax year 2025 with one W-2: wages 80000, federal
    withholding 9000. *)
Definition singleW2Session : Session :=
  withIncomes initialSession
    [ {| doc_type := "W-2";
         wages := Some (js 80000);
         nonemployee_compensation := None;
         interest_income := None;
         ordinary_dividends := None;
         fed_income_tax_withheld := Some (js 9000);
         state_income_tax_withheld := None;
         state_tax_withheld := None;
         state_wages := None;
         box12_codes := None |} ].

(** A freelancer with 1099-NEC compensation of 100000. *)
Definition freelancerSession : Session :=
  withIncomes initialSession [nec (js 100000)].

(** A 1099-NEC that reports a negative amount. *)
Definition negativeNecSession : Session :=
  withIncomes initialSession [nec (js (-1000))].

(** A California renter with one W-2 (wages 5000, state withholding 100)
    who answered the renter question with yes; the credits are the ones
    [updateCreditsView] stores. *)
Definition californiaRenterSession : Session :=
  updateCreditsView
    (withAnswers
       (withState (withIncomes initialSession [w2 (js 5000) (js 0) (js 100)])
                  (Some "CA"))
       (<["isRenter" := true]> ∅)).

(** The entries of a table keyed by filing status. *)
Definition tableEntries {A : Type} (t : StatusTable A) : list A :=
  single_ t :: omap (fun x => x) [mfj_ t; mfs_ t; hoh_ t; qss_ t].

(** Every bracket table of the data: federal, California, New York and
    New York City, for 2023, 2024 and 2025. *)
Definition allBracketTables : list (list bracket) :=
  concat
    (List.map (fun y => tableEntries (Fed.brackets y))
              [FEDERAL_2023; FEDERAL_2024; FEDERAL_2025]
     ++ List.map (fun y => tableEntries (Ca.brackets y))
                 [CALIFORNIA_2023; CALIFORNIA_2024; CALIFORNIA_2025]
     ++ List.map (fun y => tableEntries (Ny.brackets y) ++ tableEntries (Ny.nycBrackets y))
                 [NEWYORK_2023; NEWYORK_2024; NEWYORK_2025]).

(** The 2025 federal brackets for a single filer. *)
Definition fedSingle2025 : list bracket :=
  fed_brackets (fed (getTaxConstants 2025 None (Some single))).

(** A rule whose predicate returns a fixed status, and a rule whose
    predicate throws: the rules a test injects into the table. *)
Definition fixedRule {State : Type} (ident : string) (st : Status) : Rule State :=
  {| Rules.id := ident;
     name := ident;
     taxCode := {| section := "General"; form := "N/A"; line := "N/A" |};
     scenarios := ["fed-w2"; "fed-1099"];
     stage := "income";
     type := "compliance";
     severity := "info";
     check := fun _ =>
       Normal {| status := st; currentValue := "—"; expectedValue := "—";
                 extracted := true; detail := "" |} |}.

Definition throwingRule {State : Type} (ident : string) (message : string)
  : Rule State :=
  {| Rules.id := ident;
     name := ident;
     taxCode := {| section := "General"; form := "N/A"; line := "N/A" |};
     scenarios := ["fed-w2"; "fed-1099"];
     stage := "income";
     type := "compliance";
     severity := "info";
     check := fun _ => Throw message |}.

(** Twenty scored rules: eleven pass, one warns, eight fail. *)
Definition twentyRules : list (Rule unit) :=
  List.map (fixedRule "p") (repeat pass 11)
  ++ [fixedRule "w" warn]
  ++ List.map (fixedRule "f") (repeat fail 8).

(** A state in which the caller left out [incomes]. *)
Definition stateWithoutIncomes : State :=
  {| documents := Some [];
     st_incomes := None;
     filing := None;
     st_taxYear := 2025;
     stateId := None |}.

(** A state with one processed document and one W-2. *)
Definition stateWithW2 : State :=
  {| documents := Some [ {| doc_status := "processed" |} ];
     st_incomes := Some [w2 (js 80000) (js 9000) (js 0)];
     filing := None;
     st_taxYear := 2025;
     stateId := None |}.

(** A gap rule whose condition throws. *)
Definition throwingGapRule : GapRule :=
  {| GapAnalysis.id := "broken";
     question := "?";
     hint := "";
     condition := fun _ => Throw "boom";
     followUp := "yesno";
     field := None;
     placeholder := None;
     docType := None |}.

End Scenarios.

(* ================================================================== *)
(** * taxes/rules.js: helpers and the checks of the computation        *)
(* ================================================================== *)

Module RulesChecks.
Import TaxData Wizard Rules.

(** [Math.abs]. *)
Definition abs (x : number) : number :=
  match x with
  | NaN => NaN
  | PInf | NInf => PInf
  | Fin q => if Qle_bool 0 q then x else neg x
  end.

(** [approxEqual(a, b, tolerance)]: [None] is [null] or [undefined]. *)
Definition approxEqual (a b : option number) (tolerance : number) : bool :=
  match a, b with
  | Some a, Some b => leb (abs (sub a b)) tolerance
  | _, _ => false
  end.

Definition SE_TAX_RATE : number := js 0.153.

(** The tables [FED_BRACKETS] and [CA_BRACKETS] of rules.js. *)
Definition FED_BRACKETS : list bracket :=
  [ (js 11925, js 0.10); (sub (js 48475) (js 11925), js 0.12);
    (sub (js 103350) (js 48475), js 0.22);
    (sub (js 197300) (js 103350), js 0.24); (sub (js 250525) (js 197300), js 0.32);
    (sub (js 626350) (js 250525), js 0.35); (PInf, js 0.37) ].

Definition CA_BRACKETS : list bracket :=
  [ (js 10412, js 0.01); (sub (js 24684) (js 10412), js 0.02);
    (sub (js 38959) (js 24684), js 0.04);
    (sub (js 54081) (js 38959), js 0.06); (sub (js 68350) (js 54081), js 0.08);
    (sub (js 349137) (js 68350), js 0.093); (sub (js 418961) (js 349137), js 0.103);
    (sub (js 698271) (js 418961), js 0.113); (PInf, js 0.123) ].

(** [computeFedTax(taxable)]: the loop is the one of
    [computeTaxFromBrackets], over [FED_BRACKETS]. *)
Definition computeFedTax (taxable : number) : number :=
  round (bracketLoop (js 0) taxable FED_BRACKETS).

(** [computeCATax(taxable)]: the same loop over [CA_BRACKETS], then
    [if (taxable > 1000000) tax += (taxable - 1000000) * 0.01] before the
    rounding. *)
Definition computeCATax (taxable : number) : number :=
  let tax := bracketLoop (js 0) taxable CA_BRACKETS in
  let tax :=
    if gtb taxable (js 1000000)
    then add tax (mul (sub taxable (js 1000000)) (js 0.01))
    else tax in
  round tax.

(** The verdict returned when a check has nothing to look at. *)
Definition skipped (expected message : string) : Verdict :=
  {| status := skip; currentValue := "—"; expectedValue := expected;
     extracted := false; detail := message |}.

(** [s.incomes.reduce((sum, i) => sum +
    (i.state_income_tax_withheld || i.state_tax_withheld || 0), 0)]. *)
Definition stateWithheldOf (incomes : list Income) : number :=
  sumOf (fun i =>
           if truthy_opt (state_income_tax_withheld i)
           then or_else (state_income_tax_withheld i) (js 0)
           else or_else (state_tax_withheld i) (js 0))
        incomes.

Section Checks.

(** [Number(n).toLocaleString('en-US', { minimumFractionDigits: 0,
    maximumFractionDigits: 0 })], a function of the host. *)
Variable toLocaleString : number -> string.

(** [fmt(n)]. *)
Definition fmt (n : option number) : string :=
  match n with
  | None => "—"
  | Some n => "$" +:+ toLocaleString n
  end.

(** Rule tc-01. *)
Definition rule_tc_01 : Rule State :=
  {| Rules.id := "tc-01";
     name := "AGI Correctly Computed";
     taxCode := {| section := "IRC 62"; form := "1040"; line := "11" |};
     scenarios := ["fed-w2"; "fed-1099"];
     stage := "computation";
     type := "compliance";
     severity := "error";
     check := fun s =>
       match filing s with
       | None => Normal (skipped "—" "No filing data")
       | Some f =>
           let expected := sub (totalIncome f) (or_else (Some (adjustments f)) (js 0)) in
           Normal
             {| status :=
                  if approxEqual (Some (agi f)) (Some expected) (js 1)
                  then pass else fail;
                currentValue := fmt (Some (agi f));
                expectedValue := fmt (Some expected);
                extracted := true;
                detail :=
                  "AGI = " +:+ fmt (Some (totalIncome f)) +:+ " − "
                  +:+ fmt (Some (or_else (Some (adjustments f)) (js 0)))
                  +:+ " = " +:+ fmt (Some expected) |}
       end |}.

(** Rule tc-02. *)
Definition rule_tc_02 : Rule State :=
  {| Rules.id := "tc-02";
     name := "Federal Tax Brackets Applied";
     taxCode := {| section := "IRC 1(a)-(d)"; form := "1040"; line := "16" |};
     scenarios := ["fed-w2"; "fed-1099"];
     stage := "computation";
     type := "compliance";
     severity := "error";
     check := fun s =>
       match filing s with
       | None => Normal (skipped "—" "No taxable income")
       | Some f =>
           if negb (truthy (taxableIncome f))
           then Normal (skipped "—" "No taxable income")
           else
             let expected := computeFedTax (taxableIncome f) in
             let actual := or_else (Some (fedIncomeTax f)) (js 0) in
             Normal
               {| status :=
                    if approxEqual (Some actual) (Some expected) (js 5)
                    then pass else fail;
                  currentValue := fmt (Some actual);
                  expectedValue := fmt (Some expected);
                  extracted := true;
                  detail :=
                    "Federal tax on " +:+ fmt (Some (taxableIncome f))
                    +:+ " taxable income" |}
       end |}.

(** Rule tc-03. *)
Definition rule_tc_03 : Rule State :=
  {| Rules.id := "tc-03";
     name := "Self-Employment Tax";
     taxCode := {| section := "IRC 1401"; form := "Schedule SE"; line := "12" |};
     scenarios := ["fed-1099"];
     stage := "computation";
     type := "compliance";
     severity := "error";
     check := fun s =>
       propertyOf (st_incomes s) "filter" (fun incomes =>
         let necTotal :=
           sumOf (fun i => or_else (nonemployee_compensation i) (js 0))
                 (List.filter (ofType "1099-NEC") incomes) in
         if eqb necTotal (js 0) then Normal (skipped "—" "No SE income")
         else
           let expected := round (mul (mul necTotal (js 0.9235)) SE_TAX_RATE) in
           let actual :=
             match filing s with
             | Some f => or_else (Some (seTax f)) (js 0)
             | None => js 0
             end in
           Normal
             {| status :=
                  if approxEqual (Some actual) (Some expected) (js 5)
                  then pass else fail;
                currentValue := fmt (Some actual);
                expectedValue := fmt (Some expected);
                extracted := true;
                detail :=
                  "SE tax: " +:+ fmt (Some necTotal) +:+ " × 92.35% × 15.3% = "
                  +:+ fmt (Some expected) |}) |}.

(** Rule tc-04. *)
Definition rule_tc_04 : Rule State :=
  {| Rules.id := "tc-04";
     name := "Total Tax Computed";
     taxCode := {| section := "IRC 1/1401"; form := "1040"; line := "24" |};
     scenarios := ["fed-w2"; "fed-1099"];
     stage := "computation";
     type := "compliance";
     severity := "error";
     check := fun s =>
       match filing s with
       | None => Normal (skipped "—" "No filing data")
       | Some f =>
           let expected :=
             add (or_else (Some (fedIncomeTax f)) (js 0))
                 (or_else (Some (seTax f)) (js 0)) in
           let actual := or_else (Some (totalFedTax f)) (js 0) in
           Normal
             {| status :=
                  if approxEqual (Some actual) (Some expected) (js 5)
                  then pass else fail;
                currentValue := fmt (Some actual);
                expectedValue := fmt (Some expected);
                extracted := true;
                detail :=
                  "Total tax = " +:+ fmt (Some (or_else (Some (fedIncomeTax f)) (js 0)))
                  +:+ " income tax + " +:+ fmt (Some (or_else (Some (seTax f)) (js 0)))
                  +:+ " SE tax" |}
       end |}.

(** Rule tc-05. *)
Definition rule_tc_05 : Rule State :=
  {| Rules.id := "tc-05";
     name := "Federal Refund/Balance Correct";
     taxCode := {| section := "IRC 6401/6402"; form := "1040"; line := "34/37" |};
     scenarios := ["fed-w2"; "fed-1099"];
     stage := "computation";
     type := "compliance";
     severity := "error";
     check := fun s =>
       match filing s with
       | None => Normal (skipped "—" "No filing data")
       | Some f =>
           let expected :=
             sub (or_else (Some (totalFedWithheld f)) (js 0))
                 (or_else (Some (totalFedTax f)) (js 0)) in
           let actual := or_else (Some (fedResult f)) (js 0) in
           Normal
             {| status :=
                  if approxEqual (Some actual) (Some expected) (js 1)
                  then pass else fail;
                currentValue := fmt (Some actual);
                expectedValue := fmt (Some expected);
                extracted := true;
                detail :=
                  fmt (Some (or_else (Some (totalFedWithheld f)) (js 0)))
                  +:+ " payments − "
                  +:+ fmt (Some (or_else (Some (totalFedTax f)) (js 0)))
                  +:+ " tax = " +:+ fmt (Some expected) |}
       end |}.

(** Rule ca-05. *)
Definition rule_ca_05 : Rule State :=
  {| Rules.id := "ca-05";
     name := "CA Refund/Balance Correct";
     taxCode := {| section := "CA RTC 19001"; form := "540"; line := "93/100" |};
     scenarios := ["ca-w2"; "ca-1099"];
     stage := "computation";
     type := "compliance";
     severity := "error";
     check := fun s =>
       match filing s with
       | None => Normal (skipped "—" "No filing data")
       | Some f =>
           propertyOf (st_incomes s) "reduce" (fun incomes =>
             let totalStateWithheld := stateWithheldOf incomes in
             let caTaxOr0 := or_else (option_map caTax (ca f)) (js 0) in
             let expected := sub totalStateWithheld caTaxOr0 in
             let actual := or_else (option_map caResult (ca f)) (js 0) in
             Normal
               {| status :=
                    if approxEqual (Some actual) (Some expected) (js 1)
                    then pass else fail;
                  currentValue := fmt (Some actual);
                  expectedValue := fmt (Some expected);
                  extracted := true;
                  detail :=
                    fmt (Some totalStateWithheld) +:+ " withholding − "
                    +:+ fmt (Some caTaxOr0) +:+ " tax = " +:+ fmt (Some expected) |})
       end |}.

(** Rule ma-02. *)
Definition rule_ma_02 : Rule State :=
  {| Rules.id := "ma-02";
     name := "No Negative Tax Values";
     taxCode := {| section := "General"; form := "N/A"; line := "N/A" |};
     scenarios := all_scenarios;
     stage := "optimization";
     type := "compliance";
     severity := "error";
     check := fun s =>
       match filing s with
       | None => Normal (skipped "All ≥ 0" "No filing data")
       | Some f =>
           let values :=
             [totalIncome f; agi f; taxableIncome f; totalFedTax f; totalFedWithheld f] in
           let negatives := List.filter (fun v => ltb v (js 0)) values in
           let some_negative := (0 <? length negatives)%nat in
           Normal
             {| status := if some_negative then fail else pass;
                currentValue :=
                  if some_negative then pretty (length negatives) +:+ " negative"
                  else "All ≥ 0";
                expectedValue := "All ≥ 0";
                extracted := true;
                detail :=
                  if some_negative then "Negative values found in tax computation"
                  else "All computed values are non-negative" |}
       end |}.

(** Rule ma-04. *)
Definition rule_ma_04 : Rule State :=
  {| Rules.id := "ma-04";
     name := "Withholding Sum Verified";
     taxCode := {| section := "IRC 3402"; form := "1040"; line := "25" |};
     scenarios := all_scenarios;
     stage := "optimization";
     type := "compliance";
     severity := "error";
     check := fun s =>
       match filing s with
       | None => Normal (skipped "—" "No filing data")
       | Some f =>
           propertyOf (st_incomes s) "reduce" (fun incomes =>
             let computed :=
               sumOf (fun i => or_else (fed_income_tax_withheld i) (js 0)) incomes in
             Normal
               {| status :=
                    if approxEqual (Some computed) (Some (totalFedWithheld f)) (js 1)
                    then pass else fail;
                  currentValue := fmt (Some (totalFedWithheld f));
                  expectedValue := fmt (Some computed);
                  extracted := true;
                  detail := "Sum of withholdings: " +:+ fmt (Some computed) |})
       end |}.

(** Rule ma-05. *)
Definition rule_ma_05 : Rule State :=
  {| Rules.id := "ma-05";
     name := "AGI ≤ Total Income";
     taxCode := {| section := "IRC 62"; form := "1040"; line := "11" |};
     scenarios := all_scenarios;
     stage := "optimization";
     type := "compliance";
     severity := "error";
     check := fun s =>
       match filing s with
       | None => Normal (skipped "AGI ≤ Income" "No filing data")
       | Some f =>
           Normal
             {| status := if leb (agi f) (totalIncome f) then pass else fail;
                currentValue := fmt (Some (agi f));
                expectedValue := "≤ " +:+ fmt (Some (totalIncome f));
                extracted := true;
                detail :=
                  "AGI " +:+ fmt (Some (agi f)) +:+ " vs Total Income "
                  +:+ fmt (Some (totalIncome f)) |}
       end |}.

(** The modelled checks of the stages 'computation' and 'optimization',
    in table order. *)
Definition RULES_computation : list (Rule State) :=
  [rule_tc_01; rule_tc_02; rule_tc_03; rule_tc_04; rule_tc_05; rule_ca_05;
   rule_ma_02; rule_ma_04; rule_ma_05].
End Checks.

End RulesChecks.

(* ================================================================== *)
(** * taxes/wizard.js: answers, deductions, navigation, the rules panel *)
(* ================================================================== *)

Module WizardSteps.
Import TaxData Wizard Rules.

(** [answerGap(id, value)]: [taxSession.gapAnswers[id] = value]. *)
Definition answerGap (s : Session) (id : string) (value : bool) : Session :=
  {| taxYear := taxYear s;
     filingStatus := filingStatus s;
     stateOfResidence := stateOfResidence s;
     childrenUnder17 := childrenUnder17 s;
     otherDependents := otherDependents s;
     incomes := incomes s;
     gapAnswers := <[id := value]> (gapAnswers s);
     manualEntries := manualEntries s;
     deductionType := deductionType s;
     itemized := itemized s;
     credits := credits s |}.

(** [selectDeduction(type)]: [taxSession.deductionType = type]. *)
Definition selectDeduction (s : Session) (type : string) : Session :=
  {| taxYear := taxYear s;
     filingStatus := filingStatus s;
     stateOfResidence := stateOfResidence s;
     childrenUnder17 := childrenUnder17 s;
     otherDependents := otherDependents s;
     incomes := incomes s;
     gapAnswers := gapAnswers s;
     manualEntries := manualEntries s;
     deductionType := type;
     itemized := itemized s;
     credits := credits s |}.

(** The total of [updateItemizedTotal] and [updateDeductionsView]:
    [mortgage + Math.min(salt, 10000) + charitable + medical]. *)
Definition itemizedTotal (it : Itemized) : number :=
  add (add (add (mortgage it) (min (salt it) (js 10000))) (charitable it))
      (medical it).

Section Deductions.

(** The field [mortgage_interest] of an income record extracted from a
    Form 1098. *)
Variable mortgage_interest : Income -> option number.

(** The itemized amounts after the pre-population of
    [updateDeductionsView]: the manual entries of the gap analysis when
    they are truthy, then the mortgage interest of the first 1098. *)
Definition prepopulated (s : Session) : Itemized :=
  let it := itemized s in
  let mortgage0 := or_else (manualEntries s !! "mortgageInterest") (mortgage it) in
  let salt0 := or_else (manualEntries s !! "saltExtra") (salt it) in
  let charitable0 := or_else (manualEntries s !! "charitableDonations") (charitable it) in
  let mortgage1 :=
    match List.find (ofType "1098") (incomes s) with
    | Some mortgage1098 => or_else (mortgage_interest mortgage1098) mortgage0
    | None => mortgage0
    end in
  {| mortgage := mortgage1; salt := salt0; charitable := charitable0;
     medical := medical it |}.

(** [updateDeductionsView()]: pre-populates the itemized amounts, selects
    the deduction type by comparing the itemized total with the standard
    deduction, and ends with [updateCreditsView()]. *)
Definition updateDeductionsView (s : Session) : Session :=
  let c := getTaxConstants (taxYear s) (getStateId s) (Some (filingStatus s)) in
  let stdDed := fed_stdDeduction (fed c) in
  let it := prepopulated s in
  let itemTotal := itemizedTotal it in
  updateCreditsView
    {| taxYear := taxYear s;
       filingStatus := filingStatus s;
       stateOfResidence := stateOfResidence s;
       childrenUnder17 := childrenUnder17 s;
       otherDependents := otherDependents s;
       incomes := incomes s;
       gapAnswers := gapAnswers s;
       manualEntries := manualEntries s;
       deductionType := if gtb itemTotal stdDed then "itemized" else "standard";
       itemized := it;
       credits := credits s |}.

(** The wizard: the session, the step shown and the computed filing
    ([taxSession.currentStep], [taxSession.filing]). *)
Record WizardState : Type := {
  session : Session;
  currentStep : Z;
  ws_filing : option Filing
}.

Definition TOTAL_STEPS : Z := 8.

(** [goToStep(n)] for an integer [n]: nothing happens out of range;
    otherwise the step is shown and its action runs (step 5 updates the
    deductions view, step 6 computes the taxes; the actions of the steps
    4, 7 and 8 only render). *)
Definition goToStep (n : Z) (w : WizardState) : WizardState :=
  if (n <? 1) || (n >? TOTAL_STEPS) then w
  else if n =? 5 then
    {| session := updateDeductionsView (session w); currentStep := n;
       ws_filing := ws_filing w |}
  else if n =? 6 then
    {| session := session w; currentStep := n;
       ws_filing := Some (computeAndRenderTaxes (session w)) |}
  else {| session := session w; currentStep := n; ws_filing := ws_filing w |}.

Definition nextStep (w : WizardState) : WizardState := goToStep (currentStep w + 1) w.
Definition prevStep (w : WizardState) : WizardState := goToStep (currentStep w - 1) w.

End Deductions.

(** The state [runRulesCheck(filing, stateId)] passes to the engine at
    the end of [computeAndRenderTaxes]. *)
Definition rulesState (documents : list Document) (s : Session) : State :=
  {| Rules.documents := Some documents;
     st_incomes := Some (incomes s);
     filing := Some (computeAndRenderTaxes s);
     st_taxYear := taxYear s;
     stateId := getStateId s |}.

(** The four counters [runRulesCheck] writes into the rules panel:
    passed, failed, warnings and
    [results.length - passed - failed - warnings], all read from the
    compliance summary. *)
Record PanelCounts : Type := {
  rp_passed : Z;
  rp_failed : Z;
  rp_warnings : Z;
  rp_skipped : Z
}.

Definition panelCounts (out : EngineOutput) : PanelCounts :=
  let cs := complianceSummary out in
  {| rp_passed := Z.of_nat (passed cs);
     rp_failed := Z.of_nat (failed cs);
     rp_warnings := Z.of_nat (warnings cs);
     rp_skipped :=
       Z.of_nat (length (results out)) - Z.of_nat (passed cs) - Z.of_nat (failed cs)
       - Z.of_nat (warnings cs) |}.

End WizardSteps.

(* ================================================================== *)
(** * taxes/interview.js: the interview and the state it hands over     *)
(* ================================================================== *)

Module Interview.
Import TaxData.

(** One element of [necEntries]: [{ payerName, compensation, withholding }]. *)
Record NecEntry : Type := {
  payerName : string;
  compensation : number;
  withholding : number
}.

(** The fields of [interviewState] that the functions below read or
    write. *)
Record InterviewState : Type := {
  taxYear : Z;
  filingStatus : FilingStatus;
  stateOfResidence : option string;
  has1099NEC : bool;
  necEntries : list NecEntry;
  has1099INT : bool;
  interestIncome : number;
  has1099DIV : bool;
  dividendIncome : number
}.

Definition withNecEntries (s : InterviewState) (l : list NecEntry) : InterviewState :=
  {| taxYear := taxYear s;
     filingStatus := filingStatus s;
     stateOfResidence := stateOfResidence s;
     has1099NEC := has1099NEC s;
     necEntries := l;
     has1099INT := has1099INT s;
     interestIncome := interestIncome s;
     has1099DIV := has1099DIV s;
     dividendIncome := dividendIncome s |}.

(** [addNECCard(data)]: pushes [data || { payerName: '', compensation: 0,
    withholding: 0 }]. *)
Definition addNECCard (data : option NecEntry) (s : InterviewState) : InterviewState :=
  let entry :=
    match data with
    | Some e => e
    | None => {| payerName := ""; compensation := js 0; withholding := js 0 |}
    end in
  withNecEntries s (necEntries s ++ [entry]).

(** [array.splice(index, 1)] for an integer [index]: a negative index
    counts from the end, and the start is clamped to the array. *)
Definition splice1 {A : Type} (index : Z) (l : list A) : list A :=
  let len := Z.of_nat (length l) in
  let start := if index <? 0 then Z.max (len + index) 0 else Z.min index len in
  take (Z.to_nat start) l ++ drop (S (Z.to_nat start)) l.

(** [removeNECCard(index)]. *)
Definition removeNECCard (index : Z) (s : InterviewState) : InterviewState :=
  withNecEntries s (splice1 index (necEntries s)).

(** The field and value of a call [updateNECEntry(index, field, value)]. *)
Inductive NecUpdate : Type :=
| setPayerName (value : string)
| setCompensation (value : number)
| setWithholding (value : number).

Definition applyUpdate (u : NecUpdate) (e : NecEntry) : NecEntry :=
  match u with
  | setPayerName v =>
      {| payerName := v; compensation := compensation e; withholding := withholding e |}
  | setCompensation v =>
      {| payerName := payerName e; compensation := v; withholding := withholding e |}
  | setWithholding v =>
      {| payerName := payerName e; compensation := compensation e; withholding := v |}
  end.

(** [updateNECEntry(index, field, value)]: only an existing entry is
    updated. *)
Definition updateNECEntry (index : Z) (u : NecUpdate) (s : InterviewState)
  : InterviewState :=
  if index <? 0 then s
  else
    match necEntries s !! Z.to_nat index with
    | Some e => withNecEntries s (<[Z.to_nat index := applyUpdate u e]> (necEntries s))
    | None => s
    end.

Definition TOTAL_SECTIONS : Z := 9.

(** [goToSection(n)]: the new value of [currentSection]. *)
Definition goToSection (n : Z) (currentSection : Z) : Z :=
  if (n <? 1) || (n >? TOTAL_SECTIONS) then currentSection else n.

(** An element of the [incomes] array built by [buildRulesState].
    [state] is present on the 1099-NEC records only, and is then the
    state of residence, which may be [null]. *)
Record IncomeRecord : Type := {
  doc_type : string;
  payer_name : string;
  nonemployee_compensation : option number;
  interest_income : option number;
  ordinary_dividends : option number;
  fed_income_tax_withheld : option number;
  state : option (option string);
  extraction_status : list (string * string)
}.

(** The California and New York fields [buildRulesState] adds to the
    filing. *)
Record CaFields : Type := {
  caTaxableIncome : number;
  caTax : number;
  caResult : number
}.

Record NyFields : Type := {
  nyTaxableIncome : number;
  nyTax : number;
  nyResult : number
}.

(** The [filing] object of [buildRulesState]. *)
Record Filing : Type := {
  filing_filingStatus : FilingStatus;
  totalW2Wages : number;
  totalIncome : number;
  adjustments : number;
  agi : number;
  standardDeduction : number;
  taxableIncome : number;
  fedIncomeTax : number;
  seTax : number;
  totalFedTax : number;
  totalFedWithheld : number;
  fedResult : number;
  totalStateWithheld : number;
  ca : option CaFields;
  ny : option NyFields
}.

(** [{ documents: [], incomes, filing, taxYear, stateId }]. *)
Record RulesState : Type := {
  documents : list Rules.Document;
  incomes : list IncomeRecord;
  filing : Filing;
  rs_taxYear : Z;
  stateId : option StateId
}.

(** [x || d] for a string. *)
Definition or_string (x d : string) : string :=
  if String.eqb x "" then d else x.

(** The 1099-NEC record pushed for an entry. *)
Definition necRecord (s : InterviewState) (entry : NecEntry) : IncomeRecord :=
  {| doc_type := "1099-NEC";
     payer_name := or_string (payerName entry) "Self-Employment";
     nonemployee_compensation := Some (compensation entry);
     interest_income := None;
     ordinary_dividends := None;
     fed_income_tax_withheld := Some (Wizard.or_else (Some (withholding entry)) (js 0));
     state := Some (stateOfResidence s);
     extraction_status :=
       [("payer_name", "extracted"); ("nonemployee_compensation", "extracted")] |}.

(** The [incomes] array of [buildRulesState]. *)
Definition buildIncomes (s : InterviewState) : list IncomeRecord :=
  (if has1099NEC s
   then List.map (necRecord s)
                 (List.filter (fun entry => gtb (compensation entry) (js 0))
                              (necEntries s))
   else [])
  ++ (if has1099INT s && gtb (interestIncome s) (js 0)
      then [ {| doc_type := "1099-INT";
                payer_name := "Interest";
                nonemployee_compensation := None;
                interest_income := Some (interestIncome s);
                ordinary_dividends := None;
                fed_income_tax_withheld := None;
                state := None;
                extraction_status := [("interest_income", "extracted")] |} ]
      else [])
  ++ (if has1099DIV s && gtb (dividendIncome s) (js 0)
      then [ {| doc_type := "1099-DIV";
                payer_name := "Dividends";
                nonemployee_compensation := None;
                interest_income := None;
                ordinary_dividends := Some (dividendIncome s);
                fed_income_tax_withheld := None;
                state := None;
                extraction_status := [("ordinary_dividends", "extracted")] |} ]
      else []).

(** [buildRulesState()].  [taxDataLoaded] tells whether
    [getTaxConstants] is defined on the page
    ([typeof getTaxConstants === 'function']). *)
Definition buildRulesState (taxDataLoaded : bool) (s : InterviewState) : RulesState :=
  let stateId :=
    match stateOfResidence s with
    | Some st =>
        if String.eqb st "CA" then Some california
        else if String.eqb st "NY" then Some newYork
        else None
    | None => None
    end in
  let incomes := buildIncomes s in
  let c :=
    if taxDataLoaded
    then Some (getTaxConstants (taxYear s) stateId (Some (filingStatus s)))
    else None in
  let fed := option_map TaxData.fed c in
  let sc := match c with Some c => TaxData.state c | None => None end in
  let totalNEC :=
    Wizard.sumOf (fun i => Wizard.or_else (nonemployee_compensation i) (js 0))
                 (List.filter (fun i => String.eqb (doc_type i) "1099-NEC") incomes) in
  let totalINT := if has1099INT s then interestIncome s else js 0 in
  let totalDIV := if has1099DIV s then dividendIncome s else js 0 in
  let totalIncome := add (add totalNEC totalINT) totalDIV in
  let seRate :=
    match fed with
    | Some fed => Fed.seTaxRate (fedYear fed)
    | None => js 0.153
    end in
  let seTaxableIncome := mul totalNEC (js 0.9235) in
  let seTax := round (mul seTaxableIncome seRate) in
  let seDeduction := floor (mul seTax (js 0.5)) in
  let adjustments := seDeduction in
  let agi := sub totalIncome adjustments in
  let standardDeduction :=
    match fed with
    | Some fed => fed_stdDeduction fed
    | None => js 15000
    end in
  let taxableIncome := max (js 0) (sub agi standardDeduction) in
  let fedIncomeTax :=
    match fed with
    | Some fed => computeTaxFromBrackets taxableIncome (fed_brackets fed)
    | None => js 0
    end in
  let totalFedWithheld :=
    Wizard.sumOf (fun i => Wizard.or_else (fed_income_tax_withheld i) (js 0)) incomes in
  let totalFedTax := add fedIncomeTax seTax in
  let fedResult := sub totalFedWithheld totalFedTax in
  let caFields :=
    match stateId, sc with
    | Some california, Some (CaState sc) =>
        let caTaxableIncome := max (js 0) (sub agi (ca_stdDeduction sc)) in
        let caTax := computeTaxFromBrackets caTaxableIncome (ca_brackets sc) in
        let caTax :=
          if gtb caTaxableIncome (Ca.mentalHealthThreshold (caYear sc))
          then add caTax
                   (round (mul (sub caTaxableIncome (Ca.mentalHealthThreshold (caYear sc)))
                               (Ca.mentalHealthRate (caYear sc))))
          else caTax in
        Some {| caTaxableIncome := caTaxableIncome;
                caTax := caTax;
                caResult := sub (js 0) caTax |}
    | _, _ => None
    end in
  let nyFields :=
    match stateId, sc with
    | Some newYork, Some (NyState sc) =>
        let nyTaxableIncome := max (js 0) (sub agi (ny_stdDeduction sc)) in
        let nyTax := computeTaxFromBrackets nyTaxableIncome (ny_brackets sc) in
        Some {| nyTaxableIncome := nyTaxableIncome;
                nyTax := nyTax;
                nyResult := sub (js 0) nyTax |}
    | _, _ => None
    end in
  {| documents := [];
     incomes := incomes;
     filing :=
       {| filing_filingStatus := filingStatus s;
          totalW2Wages := js 0;
          totalIncome := totalIncome;
          adjustments := adjustments;
          agi := agi;
          standardDeduction := standardDeduction;
          taxableIncome := taxableIncome;
          fedIncomeTax := fedIncomeTax;
          seTax := seTax;
          totalFedTax := totalFedTax;
          totalFedWithheld := totalFedWithheld;
          fedResult := fedResult;
          totalStateWithheld := js 0;
          ca := caFields;
          ny := nyFields |};
     rs_taxYear := taxYear s;
     stateId := stateId |}.

End Interview.

(* ================================================================== *)
(** * Notions used in the statements about this code                   *)
(* ================================================================== *)

Module CheckNotions.
Import TaxData Wizard Rules.

(** Two numbers with the same value (a finite value may be written as
    different fractions). *)
Definition eqv (x y : number) : Prop :=
  match x, y with
  | NaN, NaN | PInf, PInf | NInf, NInf => True
  | Fin a, Fin b => (a == b)%Q
  | _, _ => False
  end.

(** An amount of tax: not negative, or [NaN] when an input was [NaN]. *)
Definition okTax (x : number) : Prop := x = NaN \/ nonneg x.

(** The status a check returns, if it returns. *)
Definition statusOf (c : Completion Verdict) : option Status :=
  match c with
  | Normal v => Some (status v)
  | Throw _ => None
  end.

(** A click on the navigation of the wizard: a step of the progress bar,
    Next or Previous. *)
Inductive Click : Type :=
| goTo (n : Z)
| next
| previous.

Definition click (mortgage_interest : Income -> option number)
    (w : WizardSteps.WizardState) (c : Click) : WizardSteps.WizardState :=
  match c with
  | goTo n => WizardSteps.goToStep mortgage_interest n w
  | next => WizardSteps.nextStep mortgage_interest w
  | previous => WizardSteps.prevStep mortgage_interest w
  end.

(** The constants [computeAndRenderTaxes] resolves for a session. *)
Definition constantsOf (s : Session) : TaxConstants :=
  getTaxConstants (taxYear s) (getStateId s) (Some (filingStatus s)).

(** An income record of the interview as the wizard's computation reads
    it: the fields [wages], [state_income_tax_withheld],
    [state_tax_withheld], [state_wages] and [box12_codes] are absent. *)
Definition asIncome (i : Interview.IncomeRecord) : Income :=
  {| doc_type := Interview.doc_type i;
     wages := None;
     nonemployee_compensation := Interview.nonemployee_compensation i;
     interest_income := Interview.interest_income i;
     ordinary_dividends := Interview.ordinary_dividends i;
     fed_income_tax_withheld := Interview.fed_income_tax_withheld i;
     state_income_tax_withheld := None;
     state_tax_withheld := None;
     state_wages := None;
     box12_codes := None |}.

(** The wizard's session that holds the answers of an interview: its
    year, filing status, state and income records, and otherwise the
    initial values of [taxSession]. *)
Definition wizardSession (s : Interview.InterviewState) : Session :=
  {| taxYear := Interview.taxYear s;
     filingStatus := Interview.filingStatus s;
     stateOfResidence := Interview.stateOfResidence s;
     childrenUnder17 := js 0;
     otherDependents := js 0;
     incomes := List.map asIncome (Interview.buildIncomes s);
     gapAnswers := ∅;
     manualEntries := ∅;
     deductionType := "standard";
     itemized :=
       {| mortgage := js 0; salt := js 0; charitable := js 0; medical := js 0 |};
     credits := ∅ |}.

(** The amount an income record of the interview reports. *)
Definition reportedAmount (i : Interview.IncomeRecord) : option number :=
  if String.eqb (Interview.doc_type i) "1099-NEC"
  then Interview.nonemployee_compensation i
  else if String.eqb (Interview.doc_type i) "1099-INT" then Interview.interest_income i
  else if String.eqb (Interview.doc_type i) "1099-DIV"
  then Interview.ordinary_dividends i
  else None.

(** The brackets of resolved California constants; empty for another
    state or none. *)
Definition caBracketsOf (o : option StateConstants) : list bracket :=
  match o with Some (CaState c) => ca_brackets c | _ => [] end.

End CheckNotions.

(* ================================================================== *)
(** * More concrete sessions and states                                 *)
(* ================================================================== *)

Module MoreScenarios.
Import TaxData Wizard Rules WizardSteps Scenarios.

Definition withChildren (s : Session) (n : number) : Session :=
  {| taxYear := taxYear s;
     filingStatus := filingStatus s;
     stateOfResidence := stateOfResidence s;
     childrenUnder17 := n;
     otherDependents := otherDependents s;
     incomes := incomes s;
     gapAnswers := gapAnswers s;
     manualEntries := manualEntries s;
     deductionType := deductionType s;
     itemized := itemized s;
     credits := credits s |}.

Definition withManualEntries (s : Session) (m : gmap string number) : Session :=
  {| taxYear := taxYear s;
     filingStatus := filingStatus s;
     stateOfResidence := stateOfResidence s;
     childrenUnder17 := childrenUnder17 s;
     otherDependents := otherDependents s;
     incomes := incomes s;
     gapAnswers := gapAnswers s;
     manualEntries := m;
     deductionType := deductionType s;
     itemized := itemized s;
     credits := credits s |}.

(** The single filer with one W-2 (wages 80000, federal withholding
    9000) and one child under 17, with the credits [updateCreditsView]
    stores. *)
Definition parentSession : Session :=
  updateCreditsView (withChildren singleW2Session (js 1)).

(** A New York resident with one W-2: wages 80000, federal withholding
    9000, state withholding 3000. *)
Definition newYorkW2Session : Session :=
  withState (withIncomes initialSession [w2 (js 80000) (js 9000) (js 3000)])
            (Some "NY").

(** A California resident with the same W-2. *)
Definition californiaW2Session : Session :=
  withState (withIncomes initialSession [w2 (js 80000) (js 9000) (js 3000)])
            (Some "CA").

(** The wizard when the page is loaded. *)
Definition initialWizard : WizardState :=
  {| session := initialSession; currentStep := 1; ws_filing := None |}.

(** An interview: a California resident with two 1099-NEC cards (60000
    with 3000 withheld, and an empty card), interest of 250 and no
    dividends. *)
Definition freelancerInterview : Interview.InterviewState :=
  {| Interview.taxYear := 2025;
     Interview.filingStatus := single;
     Interview.stateOfResidence := Some "CA";
     Interview.has1099NEC := true;
     Interview.necEntries :=
       [ {| Interview.payerName := "Acme";
            Interview.compensation := js 60000;
            Interview.withholding := js 3000 |};
         {| Interview.payerName := "";
            Interview.compensation := js 0;
            Interview.withholding := js 0 |} ];
     Interview.has1099INT := true;
     Interview.interestIncome := js 250;
     Interview.has1099DIV := false;
     Interview.dividendIncome := js 0 |}.

(** A home owner: mortgage interest 18000 and 2000 of charitable
    donations entered in the gap analysis. *)
Definition homeOwnerSession : Session :=
  withManualEntries singleW2Session
    (<["mortgageInterest" := js 18000]> (<["charitableDonations" := js 2000]> ∅)).

End MoreScenarios.

(* ================================================================== *)
(** * Facts about binary64 rounding                                     *)
(* ================================================================== *)

Module JsNumberFacts.

Local Open Scope Q_scope.

Lemma pow2_pos e : 0 < pow2 e.
Proof. unfold pow2. apply Qpower_0_lt. reflexivity. Qed.

Lemma pow2_add a b : pow2 (a + b) == pow2 a * pow2 b.
Proof. unfold pow2. apply Qpower_plus. discriminate. Qed.

Lemma pow2_nonneg_Z k : (0 <= k)%Z -> pow2 k == inject_Z (2 ^ k).
Proof. intros Hk. unfold pow2. rewrite Zpower_Qpower by assumption. reflexivity. Qed.

Lemma pow2_le a b : (a <= b)%Z -> pow2 a <= pow2 b.
Proof.
  intros Hab. unfold pow2. apply Qpower_le_compat_l; [assumption|].
  discriminate.
Qed.

Lemma pow2_lt a b : (a < b)%Z -> pow2 a < pow2 b.
Proof.
  intros Hab. unfold pow2. apply Qpower_lt_compat_l; [assumption|].
  reflexivity.
Qed.

Lemma pow2_lt_inv_le a b : pow2 a <= pow2 b -> (a <= b)%Z.
Proof.
  intros H. destruct (Z_le_gt_dec a b) as [Hle|Hgt]; [assumption|].
  exfalso. assert (Hlt : (b < a)%Z) by lia.
  apply pow2_lt in Hlt. exact (Qlt_not_le _ _ Hlt H).
Qed.

Lemma pow2_lt_inv a b : pow2 a < pow2 b -> (a < b)%Z.
Proof.
  intros H. destruct (Z_lt_le_dec a b) as [Hlt|Hle]; [assumption|].
  apply pow2_le in Hle. exfalso. exact (Qlt_not_le _ _ H Hle).
Qed.

(** [ilog2] is the floor of the binary logarithm. *)
Lemma Q_as_fraction q : q * inject_Z (Zpos (Qden q)) == inject_Z (Qnum q).
Proof.
  destruct q as [a b]. unfold Qeq, Qmult, inject_Z. simpl. lia.
Qed.

Lemma ilog2_raw_upper q :
  0 < q -> q < pow2 (Z.log2 (Qnum q) - Z.log2 (Zpos (Qden q)) + 1).
Proof.
  intros Hq.
  assert (Ha : (0 < Qnum q)%Z).
  { destruct q as [a b]. unfold Qlt in Hq. simpl in *. lia. }
  set (la := Z.log2 (Qnum q)). set (lb := Z.log2 (Zpos (Qden q))).
  assert (Hla : (0 <= la)%Z) by apply Z.log2_nonneg.
  assert (Hlb : (0 <= lb)%Z) by apply Z.log2_nonneg.
  destruct (Z.log2_spec (Qnum q) Ha) as [_ Hau].
  destruct (Z.log2_spec (Zpos (Qden q)) eq_refl) as [Hbl _].
  fold la in Hau. fold lb in Hbl.
  apply (Qmult_lt_r _ _ (pow2 lb) (pow2_pos lb)).
  rewrite <- pow2_add.
  replace (la - lb + 1 + lb)%Z with (Z.succ la) by lia.
  rewrite (pow2_nonneg_Z (Z.succ la)) by lia.
  apply Qle_lt_trans with (inject_Z (Qnum q)).
  - rewrite <- Q_as_fraction. apply Qmult_le_l; [assumption|].
    rewrite pow2_nonneg_Z by assumption. rewrite <- Zle_Qle. assumption.
  - rewrite <- Zlt_Qlt. assumption.
Qed.

Lemma ilog2_raw_lower q :
  0 < q -> pow2 (Z.log2 (Qnum q) - Z.log2 (Zpos (Qden q)) - 1) < q.
Proof.
  intros Hq.
  assert (Ha : (0 < Qnum q)%Z).
  { destruct q as [a b]. unfold Qlt in Hq. simpl in *. lia. }
  set (la := Z.log2 (Qnum q)). set (lb := Z.log2 (Zpos (Qden q))).
  assert (Hla : (0 <= la)%Z) by apply Z.log2_nonneg.
  assert (Hlb : (0 <= lb)%Z) by apply Z.log2_nonneg.
  destruct (Z.log2_spec (Qnum q) Ha) as [Hal _].
  destruct (Z.log2_spec (Zpos (Qden q)) eq_refl) as [_ Hbu].
  fold la in Hal. fold lb in Hbu.
  apply (Qmult_lt_r _ _ (pow2 (Z.succ lb)) (pow2_pos _)).
  rewrite <- pow2_add.
  replace (la - lb - 1 + Z.succ lb)%Z with la by lia.
  rewrite (pow2_nonneg_Z la) by lia.
  apply Qle_lt_trans with (inject_Z (Qnum q)).
  - rewrite <- Zle_Qle. assumption.
  - rewrite <- Q_as_fraction. apply Qmult_lt_l; [assumption|].
    rewrite pow2_nonneg_Z by lia. rewrite <- Zlt_Qlt. assumption.
Qed.

Lemma ilog2_spec q : 0 < q -> pow2 (ilog2 q) <= q /\ q < pow2 (ilog2 q + 1).
Proof.
  intros Hq. unfold ilog2.
  pose proof (ilog2_raw_upper q Hq) as Hu.
  pose proof (ilog2_raw_lower q Hq) as Hl.
  set (e0 := (Z.log2 (Qnum q) - Z.log2 (Zpos (Qden q)))%Z) in *.
  destruct (Qle_bool (pow2 e0) q) eqn:Hb.
  - split; [apply Qle_bool_iff; assumption | assumption].
  - split; [apply Qlt_le_weak; assumption|].
    replace (e0 - 1 + 1)%Z with e0 by lia.
    apply Qnot_le_lt. intros Hle. apply Qle_bool_iff in Hle. congruence.
Qed.

(** The floor of the logarithm is determined by its two bounds. *)
Lemma ilog2_unique q e :
  pow2 e <= q -> q < pow2 (e + 1) -> ilog2 q = e.
Proof.
  intros Hl Hu.
  assert (Hq : 0 < q) by (eapply Qlt_le_trans; [apply pow2_pos | exact Hl]).
  destruct (ilog2_spec q Hq) as [Hl' Hu'].
  assert (H1 : (e < ilog2 q + 1)%Z).
  { apply pow2_lt_inv. eapply Qle_lt_trans; eassumption. }
  assert (H2 : (ilog2 q < e + 1)%Z).
  { apply pow2_lt_inv. eapply Qle_lt_trans; eassumption. }
  lia.
Qed.

Lemma ilog2_proper q1 q2 : 0 < q1 -> q1 == q2 -> ilog2 q1 = ilog2 q2.
Proof.
  intros Hq Heq. symmetry. apply ilog2_unique.
  - rewrite <- Heq. apply ilog2_spec; assumption.
  - rewrite <- Heq. apply ilog2_spec; assumption.
Qed.

Lemma ilog2_mono q1 q2 : 0 < q1 -> q1 <= q2 -> (ilog2 q1 <= ilog2 q2)%Z.
Proof.
  intros Hq Hle.
  assert (Hq2 : 0 < q2) by (eapply Qlt_le_trans; eassumption).
  destruct (ilog2_spec q1 Hq) as [Hl1 _].
  destruct (ilog2_spec q2 Hq2) as [_ Hu2].
  assert (H : (ilog2 q1 < ilog2 q2 + 1)%Z).
  { apply pow2_lt_inv. eapply Qle_lt_trans; [exact Hl1|].
    eapply Qle_lt_trans; eassumption. }
  lia.
Qed.

(** ** Rounding to the nearest integer, ties to even *)

Lemma rhe_bounds s :
  (Qfloor s <= round_half_even s <= Qfloor s + 1)%Z.
Proof.
  unfold round_half_even.
  destruct (Qcompare _ _); [destruct (Z.even _)| |]; lia.
Qed.

Lemma rhe_proper s t : s == t -> round_half_even s = round_half_even t.
Proof.
  intros Heq. unfold round_half_even.
  rewrite (Qfloor_comp _ _ Heq).
  assert (Hc : (s - inject_Z (Qfloor t) ?= 1 # 2) = (t - inject_Z (Qfloor t) ?= 1 # 2)).
  { rewrite Heq. reflexivity. }
  rewrite Hc. reflexivity.
Qed.

Lemma rhe_Z n : round_half_even (inject_Z n) = n.
Proof.
  unfold round_half_even. rewrite Qfloor_Z.
  assert (Hc : (inject_Z n - inject_Z n ?= 1 # 2) = Lt).
  { apply (proj1 (Qlt_alt _ _)). lra. }
  rewrite Hc. reflexivity.
Qed.

Lemma rhe_ge_Z s n : inject_Z n <= s -> (n <= round_half_even s)%Z.
Proof.
  intros H. apply Qfloor_resp_le in H. rewrite Qfloor_Z in H.
  pose proof (rhe_bounds s). lia.
Qed.

Lemma rhe_le_Z s n : s <= inject_Z n -> (round_half_even s <= n)%Z.
Proof.
  intros H.
  pose proof (rhe_bounds s) as Hb.
  pose proof (Qfloor_resp_le _ _ H) as Hf. rewrite Qfloor_Z in Hf.
  destruct (Z.eq_dec (Qfloor s) n) as [Heq|Hne]; [|lia].
  assert (Hs : s == inject_Z n).
  { apply Qle_antisym; [assumption|]. rewrite <- Heq. apply Qfloor_le. }
  rewrite (rhe_proper _ _ Hs), rhe_Z. lia.
Qed.

Lemma rhe_mono s t : s <= t -> (round_half_even s <= round_half_even t)%Z.
Proof.
  intros Hst.
  pose proof (Qfloor_resp_le _ _ Hst) as Hf.
  destruct (Z.eq_dec (Qfloor s) (Qfloor t)) as [Heq|Hne].
  - unfold round_half_even. rewrite Heq.
    destruct (Qcompare_spec (s - inject_Z (Qfloor t)) (1 # 2)) as [H1|H1|H1];
      destruct (Qcompare_spec (t - inject_Z (Qfloor t)) (1 # 2)) as [H2|H2|H2];
      try destruct (Z.even (Qfloor t)); try lia; exfalso; lra.
  - pose proof (rhe_bounds s). pose proof (rhe_bounds t). lia.
Qed.

(** ** Rounding onto the binary64 grid *)

Lemma pow2_div_cancel f k : pow2 (f + k) / pow2 f == pow2 k.
Proof.
  rewrite pow2_add. pose proof (pow2_pos f) as Hf.
  generalize dependent (pow2 f). generalize (pow2 k). intros a b Hb.
  field. lra.
Qed.

Lemma div_pow2_le q1 q2 f : q1 <= q2 -> q1 / pow2 f <= q2 / pow2 f.
Proof.
  intros H. pose proof (pow2_pos f) as Hf.
  unfold Qdiv. apply Qmult_le_compat_r; [assumption|].
  apply Qlt_le_weak, Qinv_lt_0_compat. assumption.
Qed.

Lemma grid_le q f k :
  (0 <= k)%Z -> q <= pow2 (f + k) ->
  inject_Z (round_half_even (q / pow2 f)) * pow2 f <= pow2 (f + k).
Proof.
  intros Hk Hq.
  assert (Hr : (round_half_even (q / pow2 f) <= 2 ^ k)%Z).
  { apply rhe_le_Z. rewrite <- pow2_nonneg_Z by assumption.
    rewrite <- (pow2_div_cancel f k). apply div_pow2_le. assumption. }
  rewrite pow2_add, (pow2_nonneg_Z k) by assumption.
  rewrite (Qmult_comm (pow2 f)).
  apply Qmult_le_compat_r; [|apply Qlt_le_weak, pow2_pos].
  rewrite <- Zle_Qle. assumption.
Qed.

Lemma grid_ge q f k :
  (0 <= k)%Z -> pow2 (f + k) <= q ->
  pow2 (f + k) <= inject_Z (round_half_even (q / pow2 f)) * pow2 f.
Proof.
  intros Hk Hq.
  assert (Hr : (2 ^ k <= round_half_even (q / pow2 f))%Z).
  { apply rhe_ge_Z. rewrite <- pow2_nonneg_Z by assumption.
    rewrite <- (pow2_div_cancel f k). apply div_pow2_le. assumption. }
  rewrite pow2_add, (pow2_nonneg_Z k) by assumption.
  rewrite (Qmult_comm (pow2 f)).
  apply Qmult_le_compat_r; [|apply Qlt_le_weak, pow2_pos].
  rewrite <- Zle_Qle. assumption.
Qed.

Lemma grid_mono q1 q2 f :
  q1 <= q2 ->
  inject_Z (round_half_even (q1 / pow2 f)) * pow2 f
  <= inject_Z (round_half_even (q2 / pow2 f)) * pow2 f.
Proof.
  intros H. apply Qmult_le_compat_r; [|apply Qlt_le_weak, pow2_pos].
  rewrite <- Zle_Qle. apply rhe_mono, div_pow2_le. assumption.
Qed.

Lemma ulp_exp_proper q1 q2 : 0 < q1 -> q1 == q2 -> ulp_exp q1 = ulp_exp q2.
Proof. intros Hq Heq. unfold ulp_exp. rewrite (ilog2_proper q1 q2); auto. Qed.

Lemma rval_proper q1 q2 : 0 < q1 -> q1 == q2 -> rval q1 == rval q2.
Proof.
  intros Hq Heq. unfold rval. rewrite (ulp_exp_proper q1 q2) by assumption.
  rewrite (rhe_proper (q1 / pow2 (ulp_exp q2)) (q2 / pow2 (ulp_exp q2))).
  - reflexivity.
  - rewrite Heq. reflexivity.
Qed.

Lemma rval_nonneg q : 0 < q -> 0 <= rval q.
Proof.
  intros Hq. unfold rval.
  apply Qmult_le_0_compat; [|apply Qlt_le_weak, pow2_pos].
  change 0 with (inject_Z 0). rewrite <- Zle_Qle.
  apply rhe_ge_Z. change (inject_Z 0) with 0.
  apply Qlt_le_weak. unfold Qdiv. apply Qmult_lt_0_compat; [assumption|].
  apply Qinv_lt_0_compat, pow2_pos.
Qed.

Lemma rval_mono q1 q2 : 0 < q1 -> q1 <= q2 -> rval q1 <= rval q2.
Proof.
  intros Hq Hle.
  assert (Hq2 : 0 < q2) by (eapply Qlt_le_trans; eassumption).
  pose proof (ilog2_mono q1 q2 Hq Hle) as He.
  destruct (ilog2_spec q1 Hq) as [_ Hu1].
  destruct (ilog2_spec q2 Hq2) as [Hl2 _].
  unfold rval, ulp_exp.
  destruct (Z.eq_dec (Z.max (ilog2 q1 - 52) (-1074)) (Z.max (ilog2 q2 - 52) (-1074)))
    as [Heq|Hne].
  - rewrite Heq. apply grid_mono. assumption.
  - set (f1 := Z.max (ilog2 q1 - 52) (-1074)) in *.
    set (f2 := Z.max (ilog2 q2 - 52) (-1074)) in *.
    assert (Hf2 : f2 = (ilog2 q2 - 52)%Z) by lia.
    assert (He12 : (ilog2 q1 + 1 <= ilog2 q2)%Z) by lia.
    assert (Hk1 : (f1 + (ilog2 q2 - f1))%Z = ilog2 q2) by lia.
    assert (Hk2 : (f2 + 52)%Z = ilog2 q2) by lia.
    pose proof (grid_le q1 f1 (ilog2 q2 - f1)) as G1.
    pose proof (grid_ge q2 f2 52) as G2.
    rewrite Hk1 in G1. rewrite Hk2 in G2.
    apply Qle_trans with (pow2 (ilog2 q2)).
    + apply G1; [lia|].
      apply Qle_trans with (pow2 (ilog2 q1 + 1)).
      * apply Qlt_le_weak. assumption.
      * apply pow2_le. assumption.
    + apply G2; [lia|assumption].
Qed.

(** A value already on the grid of its own binade is left unchanged. *)
Lemma rval_exact q n :
  0 < q -> q == inject_Z n * pow2 (ulp_exp q) -> rval q == q.
Proof.
  intros Hq Hn. unfold rval.
  assert (Hd : q / pow2 (ulp_exp q) == inject_Z n).
  { pose proof (pow2_pos (ulp_exp q)) as Hp.
    rewrite Hn at 1. generalize dependent (pow2 (ulp_exp q)).
    intros p _ Hp. field. lra. }
  rewrite (rhe_proper _ _ Hd), rhe_Z. symmetry. assumption.
Qed.

(** ** [RN]: compatibility with equality of rationals, monotonicity *)

Lemma Qnum_0 q : Qnum q = 0%Z -> q == 0.
Proof. destruct q as [a b]. simpl. intros ->. reflexivity. Qed.

Lemma Qnum_pos q p : Qnum q = Zpos p -> 0 < q.
Proof. destruct q as [a b]. simpl. intros ->. reflexivity. Qed.

Lemma Qnum_neg q p : Qnum q = Zneg p -> q < 0.
Proof. destruct q as [a b]. simpl. intros ->. reflexivity. Qed.

Lemma Qle_bool_proper a b c d : a == c -> b == d -> Qle_bool a b = Qle_bool c d.
Proof.
  intros H1 H2. destruct (Qle_bool c d) eqn:E.
  - apply Qle_bool_iff. apply Qle_bool_iff in E. rewrite H1, H2. assumption.
  - destruct (Qle_bool a b) eqn:E'; [|reflexivity].
    apply Qle_bool_iff in E'. rewrite H1, H2 in E'.
    apply Qle_bool_iff in E'. congruence.
Qed.

Lemma round_pos_proper q1 q2 : 0 < q1 -> q1 == q2 -> round_pos q1 = round_pos q2.
Proof.
  intros Hq Heq. unfold round_pos.
  pose proof (rval_proper q1 q2 Hq Heq) as Hr.
  rewrite (Qle_bool_proper (pow2 1024) (rval q1) (pow2 1024) (rval q2));
    [|reflexivity|assumption].
  rewrite (Qred_complete _ _ Hr). reflexivity.
Qed.

Lemma RN_proper q1 q2 : q1 == q2 -> RN q1 = RN q2.
Proof.
  intros Heq. unfold RN.
  destruct (Qnum q1) eqn:E1; destruct (Qnum q2) eqn:E2;
    try reflexivity;
    try (apply Qnum_0 in E1); try (apply Qnum_0 in E2);
    try (apply Qnum_pos in E1); try (apply Qnum_pos in E2);
    try (apply Qnum_neg in E1); try (apply Qnum_neg in E2);
    try (exfalso; lra).
  - apply round_pos_proper; assumption.
  - f_equal. apply round_pos_proper; lra.
Qed.

Lemma RN_0 q : q == 0 -> RN q = Fin 0.
Proof. intros H. rewrite (RN_proper q 0 H). reflexivity. Qed.

Lemma RN_pos q : 0 < q -> RN q = round_pos q.
Proof.
  intros H. unfold RN. destruct (Qnum q) eqn:E; try reflexivity.
  - apply Qnum_0 in E. exfalso; lra.
  - apply Qnum_neg in E. exfalso; lra.
Qed.

Lemma RN_neg q : q < 0 -> RN q = neg (round_pos (- q)).
Proof.
  intros H. unfold RN. destruct (Qnum q) eqn:E; try reflexivity.
  - apply Qnum_0 in E. exfalso; lra.
  - apply Qnum_pos in E. exfalso; lra.
Qed.

(** The shape of a rounded positive value. *)
Lemma round_pos_cases q :
  0 < q ->
  round_pos q = PInf \/ exists r, round_pos q = Fin r /\ r == rval q /\ 0 <= r.
Proof.
  intros Hq. unfold round_pos. destruct (Qle_bool _ _); [left; reflexivity|].
  right. exists (Qred (rval q)). split; [reflexivity|].
  split; [apply Qred_correct|]. rewrite Qred_correct. apply rval_nonneg. assumption.
Qed.

Lemma round_pos_mono q1 q2 :
  0 < q1 -> q1 <= q2 -> le (round_pos q1) (round_pos q2).
Proof.
  intros Hq Hle. pose proof (rval_mono q1 q2 Hq Hle) as Hr.
  unfold round_pos, le.
  destruct (Qle_bool (pow2 1024) (rval q1)) eqn:E1;
    destruct (Qle_bool (pow2 1024) (rval q2)) eqn:E2; simpl; try reflexivity.
  - apply Qle_bool_iff in E1.
    assert (H : pow2 1024 <= rval q2) by (eapply Qle_trans; eassumption).
    apply Qle_bool_iff in H. congruence.
  - apply Qle_bool_iff. rewrite !Qred_correct. assumption.
Qed.

Lemma RN_mono q1 q2 : q1 <= q2 -> le (RN q1) (RN q2).
Proof.
  intros Hle.
  destruct (Qlt_le_dec 0 q1) as [H1|H1].
  - rewrite (RN_pos q1), (RN_pos q2) by lra. apply round_pos_mono; assumption.
  - destruct (Qlt_le_dec 0 q2) as [H2|H2].
    + rewrite (RN_pos q2) by assumption.
      assert (Hz : le (Fin 0) (round_pos q2)).
      { destruct (round_pos_cases q2 H2) as [->|(r & -> & _ & Hr)].
        - reflexivity.
        - apply Qle_bool_iff. assumption. }
      destruct (Qlt_le_dec q1 0) as [H3|H3].
      * rewrite (RN_neg q1) by assumption.
        assert (H4 : 0 < - q1) by lra.
        destruct (round_pos_cases _ H4) as [->|(r & -> & _ & Hr)];
          destruct (round_pos_cases q2 H2) as [->|(r' & -> & _ & Hr')];
          unfold le; simpl; try reflexivity.
        apply Qle_bool_iff. rewrite Qred_correct. lra.
      * rewrite (RN_0 q1) by lra. assumption.
    + destruct (Qlt_le_dec q2 0) as [H3|H3].
      * rewrite (RN_neg q1), (RN_neg q2) by lra.
        assert (H4 : 0 < - q2) by lra.
        assert (H5 : - q2 <= - q1) by lra.
        pose proof (round_pos_mono _ _ H4 H5) as Hm.
        assert (H6 : 0 < - q1) by lra.
        destruct (round_pos_cases _ H4) as [Ha|(r & Ha & _ & Hr)];
          destruct (round_pos_cases _ H6) as [Hb|(r' & Hb & _ & Hr')];
          rewrite Ha, Hb in *; unfold le in *; simpl in *;
          try reflexivity; try discriminate.
        apply Qle_bool_iff. apply Qle_bool_iff in Hm.
        rewrite !Qred_correct. lra.
      * rewrite (RN_0 q2) by lra.
        destruct (Qlt_le_dec q1 0) as [H4|H4].
        -- rewrite (RN_neg q1) by assumption.
           assert (H5 : 0 < - q1) by lra.
           destruct (round_pos_cases _ H5) as [->|(r & -> & _ & Hr)];
             unfold le; simpl; try reflexivity.
           apply Qle_bool_iff. rewrite Qred_correct. lra.
        -- rewrite (RN_0 q1) by lra. reflexivity.
Qed.

(** ** Rounding is idempotent *)

Lemma rhe_pos_of_grid_pos s f :
  0 < inject_Z (round_half_even s) * pow2 f -> (1 <= round_half_even s)%Z.
Proof.
  intros H. pose proof (pow2_pos f) as Hf.
  destruct (Z_lt_le_dec 0 (round_half_even s)) as [Hn|Hn]; [lia|].
  exfalso. rewrite Zle_Qle in Hn. change (inject_Z 0) with 0 in Hn.
  generalize dependent (pow2 f). generalize dependent (inject_Z (round_half_even s)).
  intros a Ha p Hp Hf. nra.
Qed.

Lemma ilog2_ge q e : 0 < q -> pow2 e <= q -> (e <= ilog2 q)%Z.
Proof.
  intros Hq Hl. destruct (ilog2_spec q Hq) as [_ Hu].
  assert (H : (e < ilog2 q + 1)%Z).
  { apply pow2_lt_inv. eapply Qle_lt_trans; eassumption. }
  lia.
Qed.

Lemma ilog2_le q e : 0 < q -> q <= pow2 e -> (ilog2 q <= e)%Z.
Proof.
  intros Hq Hl. destruct (ilog2_spec q Hq) as [Hl' _].
  destruct (Z_le_gt_dec (ilog2 q) e) as [H|H]; [assumption|].
  exfalso.
  destruct (Qle_lt_or_eq _ _ Hl) as [Hlt|Heq].
  - assert (H' : (ilog2 q < e)%Z); [|lia].
    apply pow2_lt_inv. eapply Qle_lt_trans; eassumption.
  - assert (He : ilog2 q = e); [|lia].
    apply ilog2_unique.
    + rewrite Heq. apply Qle_refl.
    + rewrite Heq. apply Qnot_le_lt. intros Hc.
      apply pow2_lt_inv_le in Hc. lia.
Qed.

Lemma rval_idem q : 0 < q -> 0 < rval q -> rval (rval q) == rval q.
Proof.
  intros Hq Hr.
  destruct (ilog2_spec q Hq) as [Hql Hqu].
  destruct (ilog2_spec (rval q) Hr) as [Hrl Hru].
  pose proof (rhe_pos_of_grid_pos _ _ Hr) as Hn.
  assert (Hf : ulp_exp q = Z.max (ilog2 q - 52) (-1074)) by reflexivity.
  assert (Hfr : ulp_exp (rval q) = Z.max (ilog2 (rval q) - 52) (-1074)) by reflexivity.
  assert (Hle : (ulp_exp q <= ulp_exp (rval q))%Z).
  { destruct (Z.eq_dec (ulp_exp q) (-1074)%Z) as [E|E]; [lia|].
    assert (Hk : (ulp_exp q + 52)%Z = ilog2 q) by lia.
    pose proof (grid_ge q (ulp_exp q) 52) as G. rewrite Hk in G.
    assert (Hge : pow2 (ilog2 q) <= rval q) by (apply G; [lia|assumption]).
    pose proof (ilog2_ge (rval q) (ilog2 q) Hr Hge). lia. }
  destruct (Z.eq_dec (ulp_exp (rval q)) (ulp_exp q)) as [E|E].
  - apply rval_exact with (round_half_even (q / pow2 (ulp_exp q))); [assumption|].
    rewrite E. reflexivity.
  - assert (Hfr' : ulp_exp (rval q) = (ilog2 (rval q) - 52)%Z) by lia.
    assert (He : (ulp_exp q <= ilog2 q + 1)%Z).
    { destruct (Z_le_gt_dec (ulp_exp q) (ilog2 q + 1)) as [H|H]; [assumption|].
      exfalso.
      assert (Hq' : q <= pow2 (ulp_exp q + 0)).
      { apply Qlt_le_weak. eapply Qlt_le_trans; [exact Hqu|].
        apply pow2_le. lia. }
      pose proof (grid_le q (ulp_exp q) 0 (Z.le_refl 0) Hq') as G.
      replace (ulp_exp q + 0)%Z with (ulp_exp q) in G by lia.
      pose proof (ilog2_le (rval q) (ulp_exp q) Hr G). lia. }
    assert (Hk : (ulp_exp q + (ilog2 q + 1 - ulp_exp q))%Z = (ilog2 q + 1)%Z) by lia.
    pose proof (grid_le q (ulp_exp q) (ilog2 q + 1 - ulp_exp q)) as G.
    rewrite Hk in G.
    assert (Hub : rval q <= pow2 (ilog2 q + 1)).
    { apply G; [lia|]. apply Qlt_le_weak. assumption. }
    assert (Hpow : rval q == pow2 (ilog2 (rval q))).
    { apply Qle_antisym; [|assumption].
      eapply Qle_trans; [exact Hub|]. apply pow2_le. lia. }
    apply rval_exact with (2 ^ 52)%Z; [assumption|].
    rewrite <- pow2_nonneg_Z by lia. rewrite <- pow2_add.
    replace (52 + ulp_exp (rval q))%Z with (ilog2 (rval q)) by lia.
    assumption.
Qed.

Lemma Qred_eq_of_Qeq_canonical a b : a == b -> Qred a = a -> Qred b = b -> a = b.
Proof. intros H Ha Hb. rewrite <- Ha, <- Hb. apply Qred_complete. assumption. Qed.

Lemma round_pos_idem q r : 0 < q -> round_pos q = Fin r -> RN r = Fin r.
Proof.
  intros Hq H. unfold round_pos in H.
  destruct (Qle_bool (pow2 1024) (rval q)) eqn:Eo; [discriminate|].
  injection H as <-.
  pose proof (rval_nonneg q Hq) as Hnn.
  destruct (Qle_lt_or_eq _ _ Hnn) as [Hpos|Hz].
  - assert (Hpos' : 0 < Qred (rval q)) by (rewrite Qred_correct; assumption).
    rewrite RN_pos by assumption.
    rewrite (round_pos_proper (Qred (rval q)) (rval q) Hpos' (Qred_correct _)).
    unfold round_pos.
    pose proof (rval_idem q Hq Hpos) as Hid.
    rewrite (Qle_bool_proper (pow2 1024) (rval (rval q)) (pow2 1024) (rval q));
      [|reflexivity|assumption].
    rewrite Eo. f_equal. apply Qred_complete. assumption.
  - assert (Hr0 : Qred (rval q) = 0).
    { change 0 with (Qred 0). apply Qred_complete. symmetry. assumption. }
    rewrite Hr0. reflexivity.
Qed.

Lemma RN_idem q r : RN q = Fin r -> RN r = Fin r.
Proof.
  intros H. destruct (Qlt_le_dec 0 q) as [Hq|Hq].
  - rewrite RN_pos in H by assumption. eapply round_pos_idem; eassumption.
  - destruct (Qlt_le_dec q 0) as [Hq'|Hq'].
    + rewrite RN_neg in H by assumption.
      assert (Hq2 : 0 < - q) by lra.
      destruct (round_pos (- q)) as [| | |p] eqn:E; try discriminate.
      simpl in H. injection H as <-.
      pose proof (round_pos_idem _ _ Hq2 E) as Hp.
      destruct (round_pos_cases _ Hq2) as [Hc|(p' & Hc & _ & Hp')];
        rewrite E in Hc; [discriminate|]. injection Hc as <-.
      destruct (Qle_lt_or_eq _ _ Hp') as [Hpos|Hz].
      * assert (Hneg : Qred (- p) < 0) by (rewrite Qred_correct; lra).
        rewrite RN_neg by assumption.
        assert (Heq : - Qred (- p) == p) by (rewrite Qred_correct; lra).
        assert (Hpp : 0 < - Qred (- p)) by lra.
        rewrite (round_pos_proper _ p Hpp Heq).
        rewrite <- (RN_pos p Hpos), Hp. reflexivity.
      * assert (Hr0 : Qred (- p) = 0).
        { change 0 with (Qred 0). apply Qred_complete. lra. }
        rewrite Hr0. reflexivity.
    + rewrite RN_0 in H by lra. injection H as <-. reflexivity.
Qed.

(** ** The order on numbers *)

Lemma le_Fin a b : le (Fin a) (Fin b) <-> a <= b.
Proof. unfold le. simpl. apply Qle_bool_iff. Qed.

Lemma le_PInf x : x <> NaN -> le x PInf.
Proof. destruct x; intros H; try reflexivity. congruence. Qed.

Lemma le_refl x : x <> NaN -> le x x.
Proof.
  destruct x; intros H; try reflexivity; [congruence|].
  apply le_Fin. apply Qle_refl.
Qed.

Lemma le_trans x y z : le x y -> le y z -> le x z.
Proof.
  destruct x, y, z; unfold le; simpl; intros H1 H2;
    try reflexivity; try discriminate.
  apply Qle_bool_iff. apply Qle_bool_iff in H1, H2.
  eapply Qle_trans; eassumption.
Qed.

Lemma le_not_NaN_l x y : le x y -> x <> NaN.
Proof. destruct x; intros H; try discriminate. Qed.

Lemma le_not_NaN_r x y : le x y -> y <> NaN.
Proof. destruct x, y; intros H; try discriminate. Qed.

Lemma nonneg_cases x : nonneg x -> x = PInf \/ exists q, x = Fin q /\ 0 <= q.
Proof.
  destruct x; unfold nonneg, le; simpl; intros H; try discriminate.
  - left; reflexivity.
  - right. exists q. split; [reflexivity|]. apply Qle_bool_iff. assumption.
Qed.

Lemma nonneg_Fin q : 0 <= q -> nonneg (Fin q).
Proof. intros H. apply le_Fin. assumption. Qed.

Lemma RN_not_NaN q : RN q <> NaN.
Proof.
  unfold RN, round_pos.
  destruct (Qnum q); try discriminate.
  - destruct (Qle_bool _ _); discriminate.
  - destruct (Qle_bool _ _); discriminate.
Qed.

Lemma RN_nonneg q : 0 <= q -> nonneg (RN q).
Proof. intros H. apply (RN_mono 0 q H). Qed.

Lemma RN_binary64 q : binary64 (RN q).
Proof.
  destruct (RN q) eqn:E; simpl; try exact I.
  eapply RN_idem. eassumption.
Qed.

Lemma add_not_NaN a b : nonneg a -> nonneg b -> add a b <> NaN.
Proof.
  intros Ha Hb.
  destruct (nonneg_cases a Ha) as [->|(p & -> & _)];
    destruct (nonneg_cases b Hb) as [->|(q & -> & _)]; simpl; try discriminate.
  apply RN_not_NaN.
Qed.

Lemma add_nonneg a b : nonneg a -> nonneg b -> nonneg (add a b).
Proof.
  intros Ha Hb.
  destruct (nonneg_cases a Ha) as [->|(p & -> & Hp)];
    destruct (nonneg_cases b Hb) as [->|(q & -> & Hq)]; simpl; try reflexivity.
  apply RN_nonneg. lra.
Qed.

Lemma add_binary64 a b : binary64 (add a b).
Proof. destruct a, b; simpl; try exact I. apply RN_binary64. Qed.

Lemma le_nonneg a b : nonneg a -> le a b -> nonneg b.
Proof. intros Ha H. exact (le_trans _ _ _ Ha H). Qed.

Lemma add_mono a a' b b' :
  nonneg a -> nonneg b -> le a a' -> le b b' -> le (add a b) (add a' b').
Proof.
  intros Ha Hb Haa Hbb.
  pose proof (le_nonneg _ _ Ha Haa) as Ha'.
  pose proof (le_nonneg _ _ Hb Hbb) as Hb'.
  destruct (nonneg_cases a Ha) as [->|(p & -> & Hp)];
    destruct (nonneg_cases b Hb) as [->|(q & -> & Hq)];
    destruct (nonneg_cases a' Ha') as [->|(p' & -> & Hp')];
    destruct (nonneg_cases b' Hb') as [->|(q' & -> & Hq')];
    simpl; try reflexivity; try discriminate;
    try (apply le_PInf, RN_not_NaN).
  apply le_Fin in Haa, Hbb. apply RN_mono. lra.
Qed.

Lemma add_ge_l a b : nonneg a -> binary64 a -> nonneg b -> le a (add a b).
Proof.
  intros Ha Hd Hb.
  destruct (nonneg_cases a Ha) as [->|(p & -> & Hp)];
    destruct (nonneg_cases b Hb) as [->|(q & -> & Hq)]; simpl; try reflexivity.
  simpl in Hd. rewrite <- Hd at 1. apply RN_mono. lra.
Qed.

Lemma mul_Fin a r : mul (Fin a) (Fin r) = RN (a * r).
Proof. reflexivity. Qed.

Lemma sub_Fin a b : sub (Fin a) (Fin b) = RN (a - b).
Proof.
  unfold sub. simpl. apply RN_proper. rewrite Qred_correct. lra.
Qed.

Lemma round_mono x y : le x y -> le (round x) (round y).
Proof.
  destruct x, y; unfold le; cbn [leb round]; intros H;
    try reflexivity; try discriminate.
  apply Qle_bool_iff. apply Qle_bool_iff in H.
  rewrite <- Zle_Qle. apply Qfloor_resp_le. lra.
Qed.

(** ** Values that are represented exactly *)

(** Halves of integers below 2^53 are binary64 values. *)
Lemma RN_half k : (0 <= k < 2 ^ 53)%Z -> RN (k # 2) = Fin (Qred (k # 2)).
Proof.
  intros [Hk0 Hk].
  destruct (Z.eq_dec k 0%Z) as [->|Hne]; [reflexivity|].
  assert (Hq : 0 < k # 2) by (unfold Qlt; simpl; lia).
  rewrite RN_pos by assumption.
  destruct (ilog2_spec _ Hq) as [Hl Hu].
  assert (Hlt : k # 2 < pow2 52).
  { rewrite (pow2_nonneg_Z 52) by lia. unfold Qlt, inject_Z. simpl.
    change (2 ^ 53)%Z with (2 ^ 52 * 2)%Z in Hk. lia. }
  assert (He : (ilog2 (k # 2) < 52)%Z).
  { apply pow2_lt_inv. eapply Qle_lt_trans; eassumption. }
  assert (Hf : (-1074 <= ulp_exp (k # 2) <= -1)%Z) by (unfold ulp_exp; lia).
  assert (Hex : rval (k # 2) == k # 2).
  { apply rval_exact with (k * 2 ^ (-1 - ulp_exp (k # 2)))%Z; [assumption|].
    rewrite inject_Z_mult, <- pow2_nonneg_Z by lia.
    rewrite <- Qmult_assoc, <- pow2_add.
    replace (-1 - ulp_exp (k # 2) + ulp_exp (k # 2))%Z with (-1)%Z by lia.
    unfold Qeq; simpl. lia. }
  unfold round_pos.
  assert (Ho : Qle_bool (pow2 1024) (rval (k # 2)) = false).
  { destruct (Qle_bool _ _) eqn:E; [|reflexivity].
    apply Qle_bool_iff in E. exfalso.
    assert (H52 : pow2 52 <= pow2 1024) by (apply pow2_le; lia).
    rewrite Hex in E.
    apply (Qlt_not_le _ _ Hlt). eapply Qle_trans; eassumption. }
  rewrite Ho. f_equal. apply Qred_complete. assumption.
Qed.

End JsNumberFacts.

(* ================================================================== *)
(** * Agreement with the Standard Library's binary64 operations         *)
(* ================================================================== *)

(** The operations of [JsNumber] are defined as the exact result rounded
    to nearest-even.  On the literals and on the computations the
    theorems below evaluate, they return the same values as the bit-level
    binary64 operations [SFadd], [SFmul] and [SFdiv] of the Standard
    Library's [SpecFloat]. *)
Module Binary64Agreement.

Example literals_agree :
  List.map SF2number
    [SFlit 10 100; SFlit 12 100; SFlit 22 100; SFlit 24 100; SFlit 32 100;
     SFlit 35 100; SFlit 37 100; SFlit 9235 10000; SFlit 153 1000; SFlit 5 10;
     SFlit 93 1000; SFlit 585 10000; SFlit 70 100; SFlit 115 10]
  = [js 0.10; js 0.12; js 0.22; js 0.24; js 0.32; js 0.35; js 0.37; js 0.9235;
     js 0.153; js 0.5; js 0.093; js 0.0585; js 0.70; js 11.5].
Proof. vm_compute. reflexivity. Qed.

(** [(11.5 / 20) * 100] and [100 * 11.5 / 20]. *)
Example score_agrees :
  SF2number (SFmul64 (SFdiv64 (SFlit 115 10) (SFofZ 20)) (SFofZ 100))
  = mul (div (js 11.5) (js 20)) (js 100)
  /\ SF2number (SFdiv64 (SFmul64 (SFofZ 100) (SFlit 115 10)) (SFofZ 20))
     = div (mul (js 100) (js 11.5)) (js 20)
  /\ round (mul (div (js 11.5) (js 20)) (js 100)) = js 57
  /\ round (div (mul (js 100) (js 11.5)) (js 20)) = js 58.
Proof. vm_compute. repeat split; reflexivity. Qed.

(** [11925 * 0.10 + 36550 * 0.12 + 16525 * 0.22], accumulated as the
    bracket loop does. *)
Example bracket_sum_agrees :
  SF2number
    (SFadd64
       (SFadd64 (SFadd64 (SFofZ 0) (SFmul64 (SFofZ 11925) (SFlit 10 100)))
                (SFmul64 (SFofZ 36550) (SFlit 12 100)))
       (SFmul64 (SFofZ 16525) (SFlit 22 100)))
  = add (add (add (js 0) (mul (js 11925) (js 0.10))) (mul (js 36550) (js 0.12)))
        (mul (js 16525) (js 0.22))
  /\ add (add (add (js 0) (mul (js 11925) (js 0.10))) (mul (js 36550) (js 0.12)))
         (mul (js 16525) (js 0.22))
     = js 9214.
Proof. vm_compute. split; reflexivity. Qed.

(** [100000 * 0.9235 * 0.153]. *)
Example se_tax_agrees :
  SF2number (SFmul64 (SFmul64 (SFofZ 100000) (SFlit 9235 10000)) (SFlit 153 1000))
  = mul (mul (js 100000) (js 0.9235)) (js 0.153)
  /\ round (mul (mul (js 100000) (js 0.9235)) (js 0.153)) = js 14130.
Proof. vm_compute. split; reflexivity. Qed.

End Binary64Agreement.

(* ================================================================== *)
(** * The bracket calculator                                            *)
(* ================================================================== *)

Module BracketFacts.
Import TaxData Notions Scenarios JsNumberFacts.

Local Open Scope Q_scope.

Lemma wellFormedBracket_inv w r :
  wellFormedBracket (w, r) = true ->
  (w = PInf \/ exists w', w = Fin w' /\ 0 < w') /\ exists p, r = Fin p /\ 0 <= p.
Proof.
  unfold wellFormedBracket. simpl. intros H.
  apply andb_prop in H as [H H3]. apply andb_prop in H as [H1 H2].
  split.
  - destruct w; simpl in H1; try discriminate; [left; reflexivity|].
    right. exists q. split; [reflexivity|].
    change (js 0) with (Fin 0) in H1. simpl in H1.
    destruct (Qcompare_spec 0 q); try discriminate. assumption.
  - destruct r; simpl in H3; try discriminate.
    exists q. split; [reflexivity|].
    change (js 0) with (Fin 0) in H2. simpl in H2.
    apply Qle_bool_iff. assumption.
Qed.

Lemma min_amtQ q w :
  (w = PInf \/ exists w', w = Fin w' /\ 0 < w') -> min (Fin q) w = Fin (amtQ q w).
Proof.
  intros [->|(w' & -> & Hw)]; [reflexivity|].
  unfold min, amtQ. simpl. destruct (Qle_bool q w'); reflexivity.
Qed.

Lemma amtQ_bounds q w :
  (w = PInf \/ exists w', w = Fin w' /\ 0 < w') -> 0 < q -> 0 < amtQ q w <= q.
Proof.
  intros [->|(w' & -> & Hw)] Hq; simpl; [lra|].
  destruct (Qle_bool q w') eqn:E; [lra|].
  split; [assumption|].
  destruct (Qlt_le_dec w' q) as [H|H]; [lra|].
  apply Qle_bool_iff in H. congruence.
Qed.

Lemma amtQ_mono q1 q2 w :
  q1 <= q2 -> amtQ q1 w <= amtQ q2 w /\ q1 - amtQ q1 w <= q2 - amtQ q2 w.
Proof.
  intros H. destruct w; simpl; try lra.
  destruct (Qle_bool q1 q) eqn:E1; destruct (Qle_bool q2 q) eqn:E2;
    try (apply Qle_bool_iff in E1); try (apply Qle_bool_iff in E2);
    try lra.
  - destruct (Qlt_le_dec q q2) as [H'|H'];
      [lra | apply Qle_bool_iff in H'; congruence].
  - destruct (Qlt_le_dec q q1) as [H'|H'];
      [lra | apply Qle_bool_iff in H'; congruence].
Qed.

(** The remainder stays a finite binary64 value. *)
Lemma remaining_finite q a :
  RN q = Fin q -> 0 <= a <= q ->
  exists q', sub (Fin q) (Fin a) = Fin q' /\ RN q' = Fin q' /\ 0 <= q'.
Proof.
  intros Hq Ha. rewrite sub_Fin.
  assert (H1 : nonneg (RN (q - a))) by (apply RN_nonneg; lra).
  assert (H2 : le (RN (q - a)) (RN q)) by (apply RN_mono; lra).
  rewrite Hq in H2.
  destruct (nonneg_cases _ H1) as [E|(q' & E & Hq')].
  - rewrite E in H2. discriminate.
  - exists q'. split; [assumption|]. split; [|assumption].
    eapply RN_idem. eassumption.
Qed.

Lemma taxok_add t b : taxok t -> nonneg b -> taxok (add t b).
Proof.
  intros [H1 H2] Hb. split; [apply add_nonneg; assumption | apply add_binary64].
Qed.

Lemma leb_zero_false q : leb (Fin q) (js 0) = false -> 0 < q.
Proof.
  change (js 0) with (Fin 0). simpl. intros H.
  destruct (Qlt_le_dec 0 q) as [H'|H']; [assumption|].
  apply Qle_bool_iff in H'. congruence.
Qed.

Lemma leb_zero_true q : leb (Fin q) (js 0) = true -> q <= 0.
Proof. change (js 0) with (Fin 0). simpl. apply Qle_bool_iff. Qed.

Lemma bracketLoop_inv brackets :
  wellFormedBrackets brackets = true ->
  forall t q, taxok t -> RN q = Fin q ->
    taxok (bracketLoop t (Fin q) brackets) /\ le t (bracketLoop t (Fin q) brackets).
Proof.
  induction brackets as [|[w r] rest IH]; intros Hwf t q Ht Hq.
  - simpl. split; [assumption|]. apply le_refl. apply (le_not_NaN_r _ _ (proj1 Ht)).
  - simpl in Hwf. apply andb_prop in Hwf as [Hb Hrest].
    apply wellFormedBracket_inv in Hb as [Hw (p & -> & Hp)].
    cbn [bracketLoop].
    destruct (leb (Fin q) (js 0)) eqn:E.
    + split; [assumption|]. apply le_refl. apply (le_not_NaN_r _ _ (proj1 Ht)).
    + apply leb_zero_false in E.
      rewrite (min_amtQ q w Hw).
      pose proof (amtQ_bounds q w Hw E) as Ha.
      destruct (remaining_finite q (amtQ q w) Hq) as (q' & -> & Hq' & _); [lra|].
      assert (Hm : nonneg (mul (Fin (amtQ q w)) (Fin p))).
      { rewrite mul_Fin. apply RN_nonneg. nra. }
      destruct (IH Hrest _ q' (taxok_add _ _ Ht Hm) Hq') as [H1 H2].
      split; [assumption|].
      eapply le_trans; [|exact H2].
      apply add_ge_l; [apply Ht | apply Ht | assumption].
Qed.

Lemma bracketLoop_mono brackets :
  wellFormedBrackets brackets = true ->
  forall t1 t2 q1 q2,
    taxok t1 -> taxok t2 -> le t1 t2 ->
    RN q1 = Fin q1 -> RN q2 = Fin q2 -> q1 <= q2 ->
    le (bracketLoop t1 (Fin q1) brackets) (bracketLoop t2 (Fin q2) brackets).
Proof.
  induction brackets as [|[w r] rest IH]; intros Hwf t1 t2 q1 q2 Ht1 Ht2 Ht Hq1 Hq2 Hq.
  - simpl. assumption.
  - pose proof (bracketLoop_inv _ Hwf t2 q2 Ht2 Hq2) as [_ Hge].
    simpl in Hwf. apply andb_prop in Hwf as [Hb Hrest].
    apply wellFormedBracket_inv in Hb as [Hw (p & -> & Hp)].
    cbn [bracketLoop] in *.
    destruct (leb (Fin q1) (js 0)) eqn:E1.
    + eapply le_trans; eassumption.
    + apply leb_zero_false in E1.
      assert (E2 : leb (Fin q2) (js 0) = false).
      { destruct (leb (Fin q2) (js 0)) eqn:E; [|reflexivity].
        apply leb_zero_true in E. exfalso. lra. }
      rewrite E2. clear Hge.
      rewrite (min_amtQ q1 w Hw), (min_amtQ q2 w Hw).
      pose proof (amtQ_bounds q1 w Hw E1) as Ha1.
      assert (E2' : 0 < q2) by lra.
      pose proof (amtQ_bounds q2 w Hw E2') as Ha2.
      pose proof (amtQ_mono q1 q2 w Hq) as [Hm1 Hm2].
      destruct (remaining_finite q1 (amtQ q1 w) Hq1) as (q1' & Hs1 & Hq1' & _); [lra|].
      destruct (remaining_finite q2 (amtQ q2 w) Hq2) as (q2' & Hs2 & Hq2' & _); [lra|].
      assert (Hrem : q1' <= q2').
      { apply le_Fin. rewrite <- Hs1, <- Hs2, !sub_Fin. apply RN_mono. assumption. }
      rewrite Hs1, Hs2.
      assert (Hn1 : nonneg (mul (Fin (amtQ q1 w)) (Fin p))).
      { rewrite mul_Fin. apply RN_nonneg. nra. }
      assert (Hn2 : nonneg (mul (Fin (amtQ q2 w)) (Fin p))).
      { rewrite mul_Fin. apply RN_nonneg. nra. }
      apply IH; try assumption.
      * apply taxok_add; assumption.
      * apply taxok_add; assumption.
      * apply add_mono; [apply Ht1 | assumption | assumption |].
        rewrite !mul_Fin. apply RN_mono. nra.
Qed.

(** The loop over [pre ++ post] continues from the state reached on
    [pre]. *)
Lemma bracketLoop_app pre post :
  forall tax remaining,
    bracketLoop tax remaining (pre ++ post)
    = bracketLoop (fst (loopState tax remaining pre))
                  (snd (loopState tax remaining pre)) post.
Proof.
  induction pre as [|[w r] pre IH]; intros tax remaining.
  - reflexivity.
  - cbn [app bracketLoop loopState].
    destruct (leb remaining (js 0)) eqn:E.
    + cbn [fst snd]. destruct post as [|[w' r'] post]; [reflexivity|].
      cbn [bracketLoop]. rewrite E. reflexivity.
    + apply IH.
Qed.

(** A remainder that fits in the current bracket is taxed at its rate
    and ends the loop. *)
Lemma bracketLoop_last tax q w r post :
  leb (Fin q) (js 0) = false -> leb (Fin q) w = true ->
  bracketLoop tax (Fin q) ((w, r) :: post) = add tax (mul (Fin q) r).
Proof.
  intros H0 Hw. cbn [bracketLoop]. rewrite H0.
  assert (Hmin : min (Fin q) w = Fin q).
  { unfold min. destruct w; try discriminate; try reflexivity.
    rewrite Hw. reflexivity. }
  rewrite Hmin, sub_Fin.
  rewrite (RN_0 (q - q)) by lra.
  destruct post as [|[w' r'] post]; reflexivity.
Qed.

Lemma computeTaxFromBrackets_mono brackets x y :
  wellFormedBrackets brackets = true ->
  isFinite x = true -> isFinite y = true -> binary64 x -> binary64 y ->
  le x y ->
  le (computeTaxFromBrackets x brackets) (computeTaxFromBrackets y brackets).
Proof.
  intros Hwf Hx Hy Hbx Hby Hle.
  destruct x as [| | |q1]; try discriminate.
  destruct y as [| | |q2]; try discriminate.
  unfold computeTaxFromBrackets. apply round_mono.
  assert (Hz : taxok (js 0)) by (split; reflexivity).
  apply bracketLoop_mono; try assumption; try reflexivity.
  apply le_Fin. assumption.
Qed.

Lemma computeTaxFromBrackets_within pre post w r x :
  isFinite (snd (loopState (js 0) x pre)) = true ->
  leb (snd (loopState (js 0) x pre)) (js 0) = false ->
  leb (snd (loopState (js 0) x pre)) w = true ->
  computeTaxFromBrackets x (pre ++ (w, r) :: post)
  = round (add (fst (loopState (js 0) x pre))
               (mul (snd (loopState (js 0) x pre)) r)).
Proof.
  intros Hfin H0 Hw.
  unfold computeTaxFromBrackets. rewrite bracketLoop_app.
  destruct (snd (loopState (js 0) x pre)) as [| | |q]; try discriminate.
  rewrite bracketLoop_last by assumption. reflexivity.
Qed.

(** Every bracket table of the source has positive widths and finite
    non-negative rates, so the tax it yields is non-decreasing in the
    taxable income. *)
Lemma source_tables_wellFormed :
  forallb wellFormedBrackets allBracketTables = true
  /\ length allBracketTables = 27%nat.
Proof. vm_compute. split; reflexivity. Qed.

Corollary source_tables_monotone :
  forall brackets x y,
    In brackets allBracketTables ->
    isFinite x = true -> isFinite y = true -> binary64 x -> binary64 y ->
    le x y ->
    le (computeTaxFromBrackets x brackets) (computeTaxFromBrackets y brackets).
Proof.
  intros brackets x y Hin. apply computeTaxFromBrackets_mono.
  pose proof (proj1 source_tables_wellFormed) as H.
  rewrite forallb_forall in H. apply H. assumption.
Qed.

(** C5 (amended) — monotonicity and the marginal rate.  For every
    table of brackets with positive widths and finite non-negative rates:
    the tax is non-decreasing in the taxable income (over finite binary64
    incomes); and when the income left after the brackets [pre] is
    positive and fits in the next bracket [(w, r)], the tax is
    [Math.round(base + left * r)], where [base] is the tax accumulated on
    [pre]: inside a bracket the income is taxed at that bracket's rate
    before the single final rounding to a whole unit. *)
Theorem C5_bracket_monotonicity :
  forall brackets : list bracket,
    wellFormedBrackets brackets = true ->
    (forall x y : number,
       isFinite x = true -> isFinite y = true -> binary64 x -> binary64 y ->
       le x y ->
       le (computeTaxFromBrackets x brackets) (computeTaxFromBrackets y brackets))
    /\ (forall (pre post : list bracket) (w r x : number),
          brackets = pre ++ (w, r) :: post ->
          let base := fst (loopState (js 0) x pre) in
          let left := snd (loopState (js 0) x pre) in
          isFinite left = true -> leb left (js 0) = false -> leb left w = true ->
          computeTaxFromBrackets x brackets = round (add base (mul left r))).
Proof.
  intros brackets Hwf. split.
  - intros x y. apply computeTaxFromBrackets_mono. assumption.
  - intros pre post w r x -> base left Hfin H0 Hw.
    apply computeTaxFromBrackets_within; assumption.
Qed.

(** The 2025 single brackets: the tax at 50000 is at most the tax at
    65000, and 65000 leaves 16525 for the third bracket, taxed at 0.22 on
    top of the 5578.5 of the first two. *)
Lemma C5_bracket_monotonicity_witness :
  wellFormedBrackets fedSingle2025 = true
  /\ le (computeTaxFromBrackets (js 50000) fedSingle2025)
        (computeTaxFromBrackets (js 65000) fedSingle2025)
  /\ loopState (js 0) (js 65000) (firstn 2 fedSingle2025) = (js 5578.5, js 16525)
  /\ computeTaxFromBrackets (js 65000) fedSingle2025
     = round (add (js 5578.5) (mul (js 16525) (js 0.22))).
Proof.
  pose proof (C5_bracket_monotonicity fedSingle2025 eq_refl) as [Hmono Hrate].
  split; [reflexivity|]. split; [|split].
  - apply Hmono; vm_compute; reflexivity.
  - vm_compute. reflexivity.
  - apply (Hrate (firstn 2 fedSingle2025) (skipn 3 fedSingle2025)
                 (sub (js 103350) (js 48475)) (js 0.22) (js 65000));
      vm_compute; reflexivity.
Defined.

(** C5 (as stated) fails: 1000 and 1004 lie in the first 2025 single
    bracket (width 11925, rate 0.10), yet the tax is 100 for both: it does
    not increase by 4 * 0.10. *)
Lemma C5_counterexample :
  hd_error fedSingle2025 = Some (js 11925, js 0.10)
  /\ leb (js 1004) (js 11925) = true
  /\ computeTaxFromBrackets (js 1000) fedSingle2025 = js 100
  /\ computeTaxFromBrackets (js 1004) fedSingle2025 = js 100
  /\ sub (computeTaxFromBrackets (js 1004) fedSingle2025)
         (computeTaxFromBrackets (js 1000) fedSingle2025)
     <> mul (js 4) (js 0.10).
Proof.
  repeat split; try (vm_compute; reflexivity).
  vm_compute. discriminate.
Qed.

End BracketFacts.

(* ================================================================== *)
(** * The rules engine                                                  *)
(* ================================================================== *)

Module EngineFacts.
Import TaxData Wizard Rules Notions Scenarios JsNumberFacts.

Section Generic.

Context {State : Type}.
Implicit Types (RULES P Q : list (Rule State)) (state : State)
  (scenarioFilter : option string).

Lemma applicableRules_filter RULES scenarioFilter :
  applicableRules RULES scenarioFilter
  = List.filter (isApplicable scenarioFilter) RULES.
Proof.
  unfold applicableRules, isApplicable.
  destruct scenarioFilter as [f|].
  - destruct (String.eqb f ""); [|reflexivity].
    induction RULES as [|r l IH]; [reflexivity|]. simpl. f_equal. exact IH.
  - induction RULES as [|r l IH]; [reflexivity|]. simpl. f_equal. exact IH.
Qed.

Lemma applicableRules_app P Q scenarioFilter :
  applicableRules (P ++ Q) scenarioFilter
  = applicableRules P scenarioFilter ++ applicableRules Q scenarioFilter.
Proof. rewrite !applicableRules_filter. apply List.filter_app. Qed.

Lemma results_app P Q state scenarioFilter :
  results (runRulesEngine (P ++ Q) state scenarioFilter)
  = results (runRulesEngine P state scenarioFilter)
    ++ results (runRulesEngine Q state scenarioFilter).
Proof.
  unfold runRulesEngine. cbn [results].
  rewrite applicableRules_app. apply List.map_app.
Qed.

Lemma results_single r state scenarioFilter :
  isApplicable scenarioFilter r = true ->
  results (runRulesEngine [r] state scenarioFilter) = [runRule state r].
Proof.
  intros H. unfold runRulesEngine. cbn [results].
  rewrite applicableRules_filter. simpl. rewrite H. reflexivity.
Qed.

Lemma runRule_id state r : r_id (runRule state r) = Rules.id r.
Proof. reflexivity. Qed.

Lemma runRule_throw state r message :
  check r state = Throw message ->
  status (r_verdict (runRule state r)) = skip
  /\ detail (r_verdict (runRule state r)) = "Error running check: " +:+ message.
Proof. intros H. unfold runRule. rewrite H. split; reflexivity. Qed.

End Generic.

(** ** Scoring *)

Local Open Scope Q_scope.

Lemma js_1 : js 1 = Fin 1.
Proof. vm_compute. reflexivity. Qed.

Lemma js_half : js 0.5 = Fin (1 # 2).
Proof. vm_compute. reflexivity. Qed.

Lemma add_half_Fin k a j :
  (0 <= j < 2 ^ 53)%Z -> (k # 2) + a == (j # 2) -> add (half k) (Fin a) = half j.
Proof.
  intros Hj Heq. unfold half. cbn [add].
  rewrite <- (RN_half j Hj). apply RN_proper.
  rewrite Qred_correct. assumption.
Qed.

Lemma pointsOf_cases r :
  (status (r_verdict r) = pass /\ pointsOf r = Fin 1)
  \/ (status (r_verdict r) = warn /\ pointsOf r = Fin (1 # 2))
  \/ ((status (r_verdict r) = fail \/ status (r_verdict r) = skip)
      /\ pointsOf r = Fin 0).
Proof.
  unfold pointsOf. destruct (status (r_verdict r)).
  - left. split; [reflexivity | apply js_1].
  - right; right. split; [left; reflexivity | reflexivity].
  - right; left. split; [reflexivity | apply js_half].
  - right; right. split; [right; reflexivity | reflexivity].
Qed.

Lemma count_cons p (r : Result) l :
  count p (r :: l) = ((if p r then 1 else 0) + count p l)%nat.
Proof. unfold count. simpl. destruct (p r); reflexivity. Qed.

Lemma count_le_length p (l : list Result) : (count p l <= length l)%nat.
Proof. unfold count. apply List.filter_length_le. Qed.

(** The running sum of the points is exact: it is the half-integer
    [(2 * passes + warnings) / 2]. *)
Lemma points_fold l :
  forall k,
    (0 <= k)%Z -> (k + 2 * Z.of_nat (length l) < 2 ^ 53)%Z ->
    fold_left (fun sum r => add sum (pointsOf r)) l (half k)
    = half (k + 2 * Z.of_nat (count (hasStatus pass) l)
              + Z.of_nat (count (hasStatus warn) l)).
Proof.
  induction l as [|r l IH]; intros k Hk Hlen.
  - cbn [fold_left]. f_equal. unfold count. cbn [List.filter length]. lia.
  - cbn [fold_left]. rewrite !count_cons.
    cbn [length] in Hlen.
    pose proof (count_le_length (hasStatus pass) l).
    pose proof (count_le_length (hasStatus warn) l).
    unfold hasStatus at 1 3.
    destruct (pointsOf_cases r) as [[Hs ->]|[[Hs ->]|[Hs ->]]].
    + rewrite Hs. cbn [Status_eqb].
      rewrite (add_half_Fin k 1 (k + 2)); [|lia|unfold Qeq, Qplus; simpl; lia].
      rewrite IH by lia. f_equal. lia.
    + rewrite Hs. cbn [Status_eqb].
      rewrite (add_half_Fin k (1 # 2) (k + 1)); [|lia|unfold Qeq, Qplus; simpl; lia].
      rewrite IH by lia. f_equal. lia.
    + rewrite (add_half_Fin k 0 k); [|lia|unfold Qeq, Qplus; simpl; lia].
      rewrite IH by lia.
      destruct Hs as [Hs|Hs]; rewrite Hs; cbn [Status_eqb]; f_equal; lia.
Qed.

Lemma filter_count_same (p q : Result -> bool) l :
  (forall r, p r = true -> q r = true) ->
  count p (List.filter q l) = count p l.
Proof.
  intros H. unfold count. induction l as [|r l IH]; [reflexivity|].
  simpl. destruct (q r) eqn:Eq; simpl.
  - destruct (p r); simpl; rewrite IH; reflexivity.
  - destruct (p r) eqn:Ep; [|exact IH].
    apply H in Ep. congruence.
Qed.

Lemma scored_partition l :
  count (fun r => negb (hasStatus skip r)) l
  = (count (hasStatus pass) l + count (hasStatus warn) l
     + count (hasStatus fail) l)%nat.
Proof.
  induction l as [|r l IH]; [reflexivity|].
  rewrite !count_cons, IH. unfold hasStatus.
  destruct (status (r_verdict r)); simpl; lia.
Qed.

(** The score of a list of results, by the counts of its statuses. *)
Lemma scoreOf_counts l :
  (Z.of_nat (length l) < 2 ^ 32)%Z ->
  scoreOf l = scoreByCounts l.
Proof.
  intros Hlen. unfold scoreByCounts, scoreFormula.
  set (P := count (hasStatus pass) l).
  set (W := count (hasStatus warn) l).
  set (F := count (hasStatus fail) l).
  unfold scoreOf.
  set (scored := List.filter (fun r => negb (hasStatus skip r)) l).
  assert (Hn : length scored = (P + W + F)%nat).
  { unfold P, W, F. rewrite <- scored_partition. reflexivity. }
  assert (Hsl : (length scored <= length l)%nat) by apply List.filter_length_le.
  rewrite Hn.
  destruct (P + W + F =? 0)%nat eqn:E.
  - apply Nat.eqb_eq in E. rewrite E. reflexivity.
  - apply Nat.eqb_neq in E.
    assert (Hpos : (0 <? P + W + F)%nat = true) by (apply Nat.ltb_lt; lia).
    rewrite Hpos.
    change (js 0) with (half 0).
    rewrite points_fold; [|lia|].
    2:{ change (2 ^ 53)%Z with (2 ^ 32 * 2 ^ 21)%Z. lia. }
    assert (HP : count (hasStatus pass) scored = P).
    { apply filter_count_same. intros r. unfold hasStatus.
      destruct (status (r_verdict r)); simpl; congruence. }
    assert (HW : count (hasStatus warn) scored = W).
    { apply filter_count_same. intros r. unfold hasStatus.
      destruct (status (r_verdict r)); simpl; congruence. }
    rewrite HP, HW.
    pose proof (count_le_length (hasStatus pass) l).
    pose proof (count_le_length (hasStatus warn) l).
    fold P in H. fold W in H0.
    assert (Hh : half (0 + 2 * Z.of_nat P + Z.of_nat W)
                 = js (inject_Z (Z.of_nat P) + inject_Z (Z.of_nat W) * 0.5)).
    { unfold half, js. rewrite <- RN_half.
      2:{ change (2 ^ 53)%Z with (2 ^ 32 * 2 ^ 21)%Z. lia. }
      apply RN_proper. unfold Qeq, Qplus, Qmult, inject_Z. simpl. lia. }
    rewrite Hh. reflexivity.
Qed.

(** C2 — rule isolation.  Whatever the table, the state and the
    scenario filter: the result list has exactly one verdict per
    applicable rule, in order; if the predicate of an applicable rule [r]
    throws, its verdict is a [skip] whose detail is the error
    explanation, and the verdicts of all other rules are exactly the
    results of the run on the table without [r]. *)
Theorem C2_rule_isolation :
  forall (State : Type) (P Q : list (Rule State)) (r : Rule State)
         (state : State) (scenarioFilter : option string) (message : string),
    isApplicable scenarioFilter r = true ->
    check r state = Throw message ->
    let withRule := results (runRulesEngine (P ++ r :: Q) state scenarioFilter) in
    let withoutRule := results (runRulesEngine (P ++ Q) state scenarioFilter) in
    List.map r_id withRule
    = List.map Rules.id (applicableRules (P ++ r :: Q) scenarioFilter)
    /\ exists before after verdictOfR,
         withoutRule = before ++ after
         /\ withRule = before ++ verdictOfR :: after
         /\ r_id verdictOfR = Rules.id r
         /\ status (r_verdict verdictOfR) = skip
         /\ detail (r_verdict verdictOfR) = "Error running check: " +:+ message.
Proof.
  intros State P Q r state scenarioFilter message Happ Hthrow withRule withoutRule.
  split.
  - unfold withRule, runRulesEngine. cbn [results].
    rewrite List.map_map. apply List.map_ext. intros a. reflexivity.
  - exists (results (runRulesEngine P state scenarioFilter)),
           (results (runRulesEngine Q state scenarioFilter)),
           (runRule state r).
    split; [apply results_app|].
    split.
    + unfold withRule. change (r :: Q) with ([r] ++ Q).
      rewrite !results_app, (results_single r state scenarioFilter Happ).
      reflexivity.
    + split; [reflexivity|]. apply runRule_throw. assumption.
Qed.

(** The excerpt of the table on a state without [incomes], scenario
    'fed-w2': rule dc-01 throws and is skipped, the other rules are
    evaluated as without it. *)
Lemma C2_rule_isolation_witness :
  isApplicable (Some "fed-w2") rule_dc_01 = true
  /\ check rule_dc_01 stateWithoutIncomes
     = Throw "Cannot read properties of undefined (reading 'filter')"
  /\ exists before after verdictOfR,
       results (runRulesEngine ([] ++ List.tl RULES_excerpt) stateWithoutIncomes
                               (Some "fed-w2"))
       = before ++ after
       /\ results (runRulesEngine ([] ++ rule_dc_01 :: List.tl RULES_excerpt)
                                  stateWithoutIncomes (Some "fed-w2"))
          = before ++ verdictOfR :: after
       /\ r_id verdictOfR = "dc-01"
       /\ status (r_verdict verdictOfR) = skip
       /\ detail (r_verdict verdictOfR)
          = "Error running check: Cannot read properties of undefined (reading 'filter')".
Proof.
  split; [reflexivity|]. split; [reflexivity|].
  exact (proj2 (C2_rule_isolation State [] (List.tl RULES_excerpt) rule_dc_01
                  stateWithoutIncomes (Some "fed-w2")
                  "Cannot read properties of undefined (reading 'filter')"
                  eq_refl eq_refl)).
Defined.

(** With at most 69 scored verdicts, the size of the table, the engine's
    score differs from the exactly rounded percentage in three cases only:
    20, 40 or 60 scored verdicts holding 57.5% of the points. *)
Lemma scoreDeviations_69 : scoreDeviations 69 = [(20, 23); (40, 46); (60, 69)]%nat.
Proof. vm_compute. reflexivity. Qed.

Lemma sameScore_outside N n k :
  (1 <= n <= N)%nat -> (k <= 2 * n)%nat -> ~ In (n, k) (scoreDeviations N) ->
  sameScore k n = true.
Proof.
  intros Hn Hk Hnot. destruct (sameScore k n) eqn:E; [reflexivity|].
  exfalso. apply Hnot. unfold scoreDeviations.
  apply in_flat_map. exists n. split; [apply in_seq; lia|].
  apply in_flat_map. exists k. split; [apply in_seq; lia|].
  rewrite E. left. reflexivity.
Qed.

Lemma sameScore_eq k n : sameScore k n = true -> engineScore k n = exactScore k n.
Proof.
  unfold sameScore, engineScore, exactScore.
  destruct (mul (div (js (Z.of_nat k # 2)) (js (inject_Z (Z.of_nat n)))) (js 100))
    as [| | |m]; cbn [round]; intros H; try discriminate.
  apply Qeq_bool_iff in H. f_equal. f_equal.
  exact (proj1 (inject_Z_injective _ _) H).
Qed.

Lemma scoreByCounts_engineScore l :
  let n := count (fun r => negb (hasStatus skip r)) l in
  let k := (2 * count (hasStatus pass) l + count (hasStatus warn) l)%nat in
  n <> 0%nat -> scoreByCounts l = engineScore k n.
Proof.
  intros n k Hn. unfold scoreByCounts, scoreFormula, engineScore.
  unfold n in Hn. rewrite scored_partition in Hn.
  destruct (Nat.eqb_spec
              (count (hasStatus pass) l + count (hasStatus warn) l
               + count (hasStatus fail) l) 0) as [E|_]; [contradiction|].
  unfold n. rewrite scored_partition.
  f_equal. f_equal. f_equal. unfold js. apply RN_proper.
  unfold k, Qeq, Qplus, Qmult, inject_Z. simpl. lia.
Qed.

Lemma specScore_exactScore l :
  let n := count (fun r => negb (hasStatus skip r)) l in
  let k := (2 * count (hasStatus pass) l + count (hasStatus warn) l)%nat in
  n <> 0%nat -> specScore l = exactScore k n.
Proof.
  intros n k Hn. unfold specScore, exactScore. fold n.
  destruct (Z.eqb_spec (Z.of_nat n) 0) as [E|_]; [lia|].
  f_equal. f_equal. apply Qfloor_comp.
  assert (Hk : inject_Z (Z.of_nat (count (hasStatus pass) l))
               + inject_Z (Z.of_nat (count (hasStatus warn) l)) * (1 # 2)
               == Z.of_nat k # 2).
  { unfold k, Qeq, Qplus, Qmult, inject_Z. simpl. lia. }
  rewrite Hk. reflexivity.
Qed.

(** C3 (amended) — scoring.  For every table (a JavaScript array, so
    shorter than 2^32), state and scenario filter, the summary counts
    the statuses of the results and its score is [0] when no verdict is
    scored (every verdict is a skip), and otherwise
    [Math.round((points / scored) * 100)] computed in binary64 arithmetic
    in that order, where [points = passes + warnings / 2] and
    [scored = passes + warnings + failures]; likewise for the compliance
    summary over the results of type 'compliance'.  For a table of at
    most 69 rules this is [round(100 * points / scored)], except when
    20, 40 or 60 verdicts are scored and hold 57.5% of the points: there
    the score is 57, not 58. *)
Theorem C3_score :
  forall (State : Type) (RULES : list (Rule State)) (state : State)
         (scenarioFilter : option string),
    (Z.of_nat (length RULES) < 2 ^ 32)%Z ->
    let out := runRulesEngine RULES state scenarioFilter in
    let compliance := List.filter (hasType "compliance") (results out) in
    let scored := count (fun r => negb (hasStatus skip r)) (results out) in
    let halfPoints :=
      (2 * count (hasStatus pass) (results out)
       + count (hasStatus warn) (results out))%nat in
    passed (summary out) = count (hasStatus pass) (results out)
    /\ warnings (summary out) = count (hasStatus warn) (results out)
    /\ failed (summary out) = count (hasStatus fail) (results out)
    /\ skipped (summary out) = count (hasStatus skip) (results out)
    /\ score (summary out) = scoreByCounts (results out)
    /\ score (complianceSummary out) = scoreByCounts compliance
    /\ (scored = 0%nat -> score (summary out) = js 0)
    /\ ((length RULES <= 69)%nat ->
        (~ In (scored, halfPoints) [(20, 23); (40, 46); (60, 69)]%nat ->
         score (summary out) = specScore (results out))
        /\ (In (scored, halfPoints) [(20, 23); (40, 46); (60, 69)]%nat ->
            score (summary out) = js 57 /\ specScore (results out) = js 58)).
Proof.
  intros State RULES state scenarioFilter Hlen out compliance scored halfPoints.
  assert (Hres : (length (results out) <= length RULES)%nat).
  { unfold out, runRulesEngine. cbn [results]. rewrite List.length_map.
    rewrite applicableRules_filter. apply List.filter_length_le. }
  assert (Hcomp : (length compliance <= length (results out))%nat)
    by apply List.filter_length_le.
  assert (Hscore : score (summary out) = scoreByCounts (results out)).
  { apply scoreOf_counts. lia. }
  repeat (split; [reflexivity|]).
  split; [exact Hscore|]. split; [apply scoreOf_counts; lia|]. split.
  - intros Hz. rewrite Hscore. unfold scoreByCounts, scoreFormula.
    unfold scored in Hz. rewrite scored_partition in Hz. rewrite Hz. reflexivity.
  - intros H69.
    assert (Hk : (halfPoints <= 2 * scored)%nat).
    { unfold halfPoints, scored. rewrite scored_partition. lia. }
    assert (Hn : (scored <= 69)%nat).
    { unfold scored. pose proof (count_le_length
        (fun r => negb (hasStatus skip r)) (results out)). lia. }
    split.
    + intros Hnot. rewrite Hscore.
      destruct (Nat.eq_dec scored 0%nat) as [E|E].
      * unfold scoreByCounts, scoreFormula, specScore. fold scored.
        unfold scored in E. rewrite scored_partition in E. rewrite E.
        rewrite <- scored_partition in E. fold scored in E. rewrite E. reflexivity.
      * rewrite (scoreByCounts_engineScore (results out) E).
        rewrite (specScore_exactScore (results out) E).
        apply sameScore_eq. apply (sameScore_outside 69); [lia|exact Hk|].
        rewrite scoreDeviations_69. exact Hnot.
    + intros Hin.
      assert (E : scored <> 0%nat).
      { intros E. rewrite E in Hin. simpl in Hin.
        destruct Hin as [H|[H|[H|[]]]]; discriminate. }
      rewrite Hscore, (scoreByCounts_engineScore (results out) E),
        (specScore_exactScore (results out) E).
      fold scored halfPoints.
      destruct Hin as [H|[H|[H|[]]]]; injection H as <- <-;
        vm_compute; split; reflexivity.
Qed.

(** Twenty scored rules, eleven passes and one warning: the engine's
    score is 57. *)
Lemma C3_score_witness :
  (Z.of_nat (length twentyRules) < 2 ^ 32)%Z
  /\ score (summary (runRulesEngine twentyRules tt None)) = scoreFormula 11 1 8
  /\ scoreFormula 11 1 8 = js 57.
Proof.
  split; [reflexivity|]. split.
  - exact (proj1 (proj2 (proj2 (proj2 (proj2
             (C3_score unit twentyRules tt None eq_refl)))))).
  - vm_compute. reflexivity.
Defined.

(** C3 (as stated) fails: with eleven passes, one warning and eight
    failures the specification's [round(100 * 11.5 / 20)] is 58, while
    the engine computes [(11.5 / 20) * 100] in binary64 arithmetic, which
    is 57.49999999999999, and returns 57. *)
Lemma C3_counterexample :
  let out := runRulesEngine twentyRules tt None in
  score (summary out) = js 57
  /\ specScore (results out) = js 58
  /\ score (summary out) <> specScore (results out).
Proof.
  assert (H1 : score (summary (runRulesEngine twentyRules tt None)) = js 57)
    by (vm_compute; reflexivity).
  assert (H2 : specScore (results (runRulesEngine twentyRules tt None)) = js 58)
    by (vm_compute; reflexivity).
  cbv zeta. split; [exact H1|]. split; [exact H2|].
  rewrite H1, H2. vm_compute. discriminate.
Qed.

(** C6 — scenario filtering.  With the filter 'fed-1099' the results
    are the verdicts of exactly the rules tagged 'fed-1099', in table
    order; every verdict in the list carries that tag, so a rule tagged
    only with other scenarios contributes none. *)
Theorem C6_scenario_filtering :
  forall (State : Type) (RULES : list (Rule State)) (state : State),
    let out := results (runRulesEngine RULES state (Some "fed-1099")) in
    let tagged := fun r : Rule State => includes (scenarios r) "fed-1099" in
    out = List.map (runRule state) (List.filter tagged RULES)
    /\ List.map r_id out = List.map Rules.id (List.filter tagged RULES)
    /\ (forall res, In res out -> includes (r_scenarios res) "fed-1099" = true)
    /\ (forall r, In r RULES -> tagged r = false ->
          forall res, In res out -> r_scenarios res <> scenarios r).
Proof.
  intros State RULES state out tagged.
  assert (Hout : out = List.map (runRule state) (List.filter tagged RULES))
    by reflexivity.
  assert (Htag : forall res, In res out -> includes (r_scenarios res) "fed-1099" = true).
  { intros res Hin. rewrite Hout in Hin. apply List.in_map_iff in Hin.
    destruct Hin as (r & <- & Hr). apply List.filter_In in Hr. apply Hr. }
  split; [exact Hout|]. split.
  - rewrite Hout, List.map_map. apply List.map_ext. intros a. reflexivity.
  - split; [exact Htag|].
    intros r _ Hr res Hin Heq. apply Htag in Hin. rewrite Heq in Hin.
    unfold tagged in Hr. congruence.
Qed.

(** On the excerpt of the table: with 'fed-1099' only dc-02 and dc-05
    are evaluated; wh-05, tagged 'ca-w2' only, is not. *)
Lemma C6_scenario_filtering_witness :
  List.map r_id (results (runRulesEngine RULES_excerpt stateWithW2 (Some "fed-1099")))
  = ["dc-02"; "dc-05"]
  /\ forall res,
       In res (results (runRulesEngine RULES_excerpt stateWithW2 (Some "fed-1099"))) ->
       r_scenarios res <> scenarios rule_wh_05.
Proof.
  split; [reflexivity|].
  intros res.
  apply (proj2 (proj2 (proj2 (C6_scenario_filtering State RULES_excerpt stateWithW2)))
           rule_wh_05).
  - simpl. tauto.
  - reflexivity.
Defined.

(** The identifiers of the results are those of the applicable rules. *)
Lemma results_ids {State : Type} (RULES : list (Rule State)) (state : State)
    (scenarioFilter : option string) :
  List.map r_id (results (runRulesEngine RULES state scenarioFilter))
  = List.map Rules.id (applicableRules RULES scenarioFilter).
Proof.
  unfold runRulesEngine. cbn [results].
  rewrite List.map_map. apply List.map_ext. intros a. reflexivity.
Qed.

(** The table of the source, whatever its predicates compute: with the
    filter 'fed-1099' the engine evaluates these 51 rules, in this order;
    the other 18 rules, among them wh-05 (tagged 'ca-w2' only), are not
    evaluated.  The identifiers of the table are pairwise distinct. *)
Example RULES_fed_1099 :
  forall (checkOf : string -> State -> Completion Verdict) (state : State),
    List.map r_id (results (runRulesEngine (RULES checkOf) state (Some "fed-1099")))
    = [
    "dc-02"; "dc-03"; "dc-04"; "dc-05"; "id-01"; "id-02"; "id-03"; "id-04";
    "inc-02"; "inc-03"; "inc-04"; "inc-05"; "inc-06"; "inc-07"; "inc-08";
    "wh-06"; "adj-01"; "sav-adj-01"; "sav-adj-02"; "sav-adj-04";
    "sav-adj-05"; "sav-adj-06"; "ded-01"; "ded-02"; "sav-ded-01";
    "sav-ded-02"; "sav-ded-03"; "sav-ded-04"; "sav-ded-05"; "cr-01";
    "cr-02"; "cr-03"; "cr-04"; "sav-cr-02"; "sav-cr-03"; "tc-01"; "tc-02";
    "tc-03"; "tc-04"; "tc-05"; "tc-06"; "sav-comp-01"; "ma-01"; "ma-02";
    "ma-03"; "ma-04"; "ma-05"; "ar-01"; "ar-02"; "ar-03"; "ar-05" ].
Proof. intros checkOf state. rewrite results_ids. vm_compute. reflexivity. Qed.

Example RULES_ids_distinct :
  forall checkOf : string -> State -> Completion Verdict,
    NoDup (List.map Rules.id (RULES checkOf)) /\ length (RULES checkOf) = 69%nat.
Proof.
  intros checkOf. split; [|reflexivity].
  apply (bool_decide_unpack _). vm_compute. reflexivity.
Qed.

(** The modelled rules are rules of the table. *)
Example RULES_excerpt_in_table :
  sublist (List.map (fun r => (Rules.id r, scenarios r, type r)) RULES_excerpt)
          (List.map (fun r => (Rules.id r, scenarios r, type r))
                    (RULES (fun _ _ => Throw ""))).
Proof.
  vm_compute.
  repeat first [ apply sublist_nil | apply sublist_skip | apply sublist_cons ].
Qed.

End EngineFacts.

(* ================================================================== *)
(** * Tax constants                                                     *)
(* ================================================================== *)

Module ConstantsFacts.
Import TaxData Notions.

(** The year resolved by the look-up is one of the three years of data. *)
Lemma californiaYear_cases year :
  californiaYear year = CALIFORNIA_2023 \/ californiaYear year = CALIFORNIA_2024
  \/ californiaYear year = CALIFORNIA_2025.
Proof.
  unfold californiaYear, CALIFORNIA_DATA.
  destruct (year =? 0); [right; right; reflexivity|].
  destruct (year =? 2023); [left; reflexivity|].
  destruct (year =? 2024); [right; left; reflexivity|].
  destruct (year =? 2025); right; right; reflexivity.
Qed.

Lemma newYorkYear_cases year :
  newYorkYear year = NEWYORK_2023 \/ newYorkYear year = NEWYORK_2024
  \/ newYorkYear year = NEWYORK_2025.
Proof.
  unfold newYorkYear, NEWYORK_DATA.
  destruct (year =? 0); [right; right; reflexivity|].
  destruct (year =? 2023); [left; reflexivity|].
  destruct (year =? 2024); [right; left; reflexivity|].
  destruct (year =? 2025); right; right; reflexivity.
Qed.

Lemma federalYear_cases year :
  federalYear year = FEDERAL_2023 \/ federalYear year = FEDERAL_2024
  \/ federalYear year = FEDERAL_2025.
Proof.
  unfold federalYear, FEDERAL_DATA.
  destruct (year =? 0); [right; right; reflexivity|].
  destruct (year =? 2023); [left; reflexivity|].
  destruct (year =? 2024); [right; left; reflexivity|].
  destruct (year =? 2025); right; right; reflexivity.
Qed.

Lemma stateBrackets_resolved year st fs :
  stateBrackets (getTaxConstants year (Some st) (Some fs))
  = Some (entry_or_single (stateBracketTable year st) (stateBracketKey fs)).
Proof. destruct st; reflexivity. Qed.

Lemma stateStdDeduction_resolved year st fs :
  stateStdDeduction (getTaxConstants year (Some st) (Some fs))
  = Some (amount_or_single (stateDeductionTable year st) fs).
Proof. destruct st; reflexivity. Qed.

(** C7 (amended) — state tables by filing status.  For every year and
    for California and New York, the state bracket table is the 'single'
    table for single, married-filing-separately and head-of-household,
    and the 'mfj' table for married-filing-jointly and
    qualifying-surviving-spouse.  The state standard deduction is not
    mapped that way: for single, mfj, mfs and hoh it is the state's own
    entry for that filing status (head-of-household has its own amount,
    larger than the single one). *)
Theorem C7_state_filing_status_tables :
  forall (year : Z) (st : StateId) (fs : FilingStatus),
    stateBrackets (getTaxConstants year (Some st) (Some fs))
    = stateBrackets (getTaxConstants year (Some st) (Some (claimedStatus fs)))
    /\ stateBrackets (getTaxConstants year (Some st) (Some fs))
       = match claimedStatus fs with
         | mfj => mfj_ (stateBracketTable year st)
         | _ => Some (single_ (stateBracketTable year st))
         end
    /\ match fs with
       | qss => True
       | _ =>
           stateStdDeduction (getTaxConstants year (Some st) (Some fs))
           = lookup_status (stateDeductionTable year st) fs
       end
    /\ stateStdDeduction (getTaxConstants year (Some st) (Some hoh))
       <> stateStdDeduction (getTaxConstants year (Some st) (Some single)).
Proof.
  intros year st fs.
  rewrite !stateBrackets_resolved, !stateStdDeduction_resolved.
  unfold stateBracketTable, stateDeductionTable.
  destruct st.
  - destruct (californiaYear_cases year) as [E|[E|E]]; rewrite E;
      (split; [destruct fs; reflexivity|]);
      (split; [destruct fs; reflexivity|]);
      (split; [destruct fs; vm_compute; auto|]);
      vm_compute; discriminate.
  - destruct (newYorkYear_cases year) as [E|[E|E]]; rewrite E;
      (split; [destruct fs; reflexivity|]);
      (split; [destruct fs; reflexivity|]);
      (split; [destruct fs; vm_compute; auto|]);
      vm_compute; discriminate.
Qed.

(** C7 (as stated) fails: in California for 2025 a head-of-household
    filer gets the standard deduction 11080, not the 5540 of the single
    table, so the state constants are not those of the mapped status. *)
Lemma C7_counterexample :
  stateStdDeduction (getTaxConstants 2025 (Some california) (Some hoh)) = Some (js 11080)
  /\ stateStdDeduction (getTaxConstants 2025 (Some california) (Some (claimedStatus hoh)))
     = Some (js 5540)
  /\ ~ (forall (year : Z) (st : StateId) (fs : FilingStatus),
          stateBrackets (getTaxConstants year (Some st) (Some fs))
          = stateBrackets (getTaxConstants year (Some st) (Some (claimedStatus fs)))
          /\ stateStdDeduction (getTaxConstants year (Some st) (Some fs))
             = stateStdDeduction
                 (getTaxConstants year (Some st) (Some (claimedStatus fs)))).
Proof.
  split; [vm_compute; reflexivity|]. split; [vm_compute; reflexivity|].
  intros H. destruct (H 2025 california hoh) as [_ Hd].
  vm_compute in Hd. discriminate.
Qed.

End ConstantsFacts.

(* ================================================================== *)
(** * The filing computation                                            *)
(* ================================================================== *)

Module FilingFacts.
Import TaxData Wizard Notions Scenarios JsNumberFacts ConstantsFacts.

Local Open Scope Q_scope.

Lemma mul_comm x y : mul x y = mul y x.
Proof.
  destruct x, y; try reflexivity.
  cbn [mul]. apply RN_proper. apply Qmult_comm.
Qed.

(** [Math.max(0, x)] is never negative. *)
Lemma max_zero_floor x : max (js 0) x = NaN \/ nonneg (max (js 0) x).
Proof.
  change (js 0) with (Fin 0). destruct x; cbn [max leb].
  - left; reflexivity.
  - right; reflexivity.
  - right; reflexivity.
  - right. unfold nonneg, le.
    destruct (Qle_bool 0 q) eqn:E; cbn [leb]; [assumption|reflexivity].
Qed.

(** The federal constants the computation uses are those of the year's
    table. *)
Lemma fedYear_resolved year stateId fs :
  fedYear (fed (getTaxConstants year stateId (Some fs))) = federalYear year.
Proof. reflexivity. Qed.

(** Every year of data has the self-employment tax rate 0.153. *)
Lemma seTaxRate_resolved year :
  or_else (Some (Fed.seTaxRate (federalYear year))) (js 0.153) = js 0.153.
Proof.
  destruct (federalYear_cases year) as [E|[E|E]]; rewrite E; vm_compute; reflexivity.
Qed.

(** C4 — identities of the filing record.  For every session: taxable
    income is [max(0, AGI - deduction - home office - mileage)], the
    federal income tax is the bracket tax on it, the tax after credits is
    [max(0, income tax - total credits)], hence never negative, the total
    credits are the child, education, vehicle and childcare credits, and
    the total federal tax is tax after credits plus SE tax. *)
Theorem C4_filing_identities :
  forall s : Session,
    let f := computeAndRenderTaxes s in
    let c := getTaxConstants (taxYear s) (getStateId s) (Some (filingStatus s)) in
    taxableIncome f
    = max (js 0)
          (sub (sub (sub (agi f) (deduction f)) (homeOfficeDeduction f))
               (mileageDeduction f))
    /\ fedIncomeTax f = computeTaxFromBrackets (taxableIncome f) (fed_brackets (fed c))
    /\ totalCredits f
       = add (add (add (or_else (credits s !! "ctc") (js 0))
                       (or_else (credits s !! "education") (js 0)))
                  (or_else (credits s !! "ev") (js 0)))
             (or_else (credits s !! "childcare") (js 0))
    /\ fedTaxAfterCredits f = max (js 0) (sub (fedIncomeTax f) (totalCredits f))
    /\ totalFedTax f = add (fedTaxAfterCredits f) (seTax f)
    /\ (taxableIncome f = NaN \/ nonneg (taxableIncome f))
    /\ (fedTaxAfterCredits f = NaN \/ nonneg (fedTaxAfterCredits f)).
Proof.
  intros s f c.
  repeat (split; [reflexivity|]).
  split; apply max_zero_floor.
Qed.

(** C1 (amended) — the end-to-end scenario.  A single filer of 2025
    with exactly one W-2 (wages 80000, federal withholding 9000), no
    manual entries, no credits, the standard deduction, and the educator
    question not answered with yes has AGI 80000, taxable income 65000,
    federal income tax 9214 (the bracket amounts 1192.5 + 4386 + 3635.5
    are summed and rounded once) and net federal result
    9000 - 9214 = -214. *)
Theorem C1_end_to_end :
  forall (s : Session) (w : Income),
    taxYear s = 2025%Z ->
    filingStatus s = single ->
    incomes s = [w] ->
    doc_type w = "W-2" ->
    wages w = Some (js 80000) ->
    fed_income_tax_withheld w = Some (js 9000) ->
    manualEntries s = ∅ ->
    credits s = ∅ ->
    deductionType s = "standard" ->
    answered_yes (gapAnswers s) "isEducator" = false ->
    let f := computeAndRenderTaxes s in
    agi f = js 80000
    /\ taxableIncome f = js 65000
    /\ fedIncomeTax f = js 9214
    /\ fedResult f = js (-214).
Proof.
  intros s w Hy Hfs Hi Hd Hw Hfw Hm Hc Hdt He f.
  destruct s as [ty fs st ch od inc ga me dt it cr].
  destruct w as [wdt ww wn wi wd wf ws1 ws2 wsw wb].
  cbn [taxYear filingStatus incomes manualEntries credits deductionType gapAnswers
       doc_type wages fed_income_tax_withheld] in *.
  subst.
  unfold f, computeAndRenderTaxes.
  cbn [taxYear filingStatus incomes manualEntries credits deductionType gapAnswers
       agi taxableIncome fedIncomeTax fedResult].
  rewrite He.
  repeat split; vm_compute; reflexivity.
Qed.

(** The session of the scenario with every other field at its initial
    value. *)
Lemma C1_end_to_end_witness :
  let f := computeAndRenderTaxes singleW2Session in
  agi f = js 80000
  /\ taxableIncome f = js 65000
  /\ fedIncomeTax f = js 9214
  /\ fedResult f = js (-214).
Proof.
  apply (C1_end_to_end singleW2Session (hd (blankIncome "") (incomes singleW2Session)));
    reflexivity.
Defined.

(** C1 (as stated) fails: the federal income tax of the scenario is
    9214, not 9215, and the net federal result is -214, not -215. *)
Lemma C1_counterexample :
  let f := computeAndRenderTaxes singleW2Session in
  ~ (agi f = js 80000
     /\ taxableIncome f = js 65000
     /\ fedIncomeTax f = js 9215
     /\ fedResult f = js (-215)).
Proof.
  cbv zeta. intros (_ & _ & H & _). vm_compute in H. discriminate.
Qed.

(** C9 (amended) — self-employment tax.  For every session whose
    total 1099-NEC compensation is positive, the SE tax is
    [round(0.9235 * compensation * rate)] with the year's rate 0.153;
    when the total is not positive the SE tax is 0.  The SE deduction,
    the adjustments of a session without manual entries and educator
    expense, is [floor(0.5 * SE tax)].  For compensation 100000 the SE tax
    is 14130 and the SE deduction 7065. *)
Theorem C9_self_employment_tax :
  forall s : Session,
    let f := computeAndRenderTaxes s in
    (gtb (totalNEC f) (js 0) = true ->
     seTax f = round (mul (mul (js 0.9235) (totalNEC f)) (js 0.153)))
    /\ (gtb (totalNEC f) (js 0) = false -> seTax f = js 0)
    /\ (manualEntries s = ∅ -> answered_yes (gapAnswers s) "isEducator" = false ->
        adjustments f = floor (mul (js 0.5) (seTax f)))
    /\ (let f0 := computeAndRenderTaxes freelancerSession in
        totalNEC f0 = js 100000 /\ seTax f0 = js 14130 /\ adjustments f0 = js 7065).
Proof.
  intros s f.
  assert (Hse : seTax f = selfEmploymentTax (federalYear (taxYear s)) (totalNEC f))
    by reflexivity.
  split; [|split; [|split]].
  - intros Hpos. rewrite Hse. unfold selfEmploymentTax.
    rewrite Hpos, seTaxRate_resolved, (mul_comm (js 0.9235)). reflexivity.
  - intros Hneg. rewrite Hse. unfold selfEmploymentTax. rewrite Hneg. reflexivity.
  - intros Hm He. rewrite (mul_comm (js 0.5)).
    change (floor (mul (seTax f) (js 0.5))) with (selfEmploymentDeduction (seTax f)).
    unfold f, computeAndRenderTaxes. cbn [adjustments seTax].
    rewrite Hm, He. rewrite !lookup_empty. reflexivity.
  - vm_compute. repeat split; reflexivity.
Qed.

(** The freelancer with compensation 100000. *)
Lemma C9_self_employment_tax_witness :
  let f := computeAndRenderTaxes freelancerSession in
  gtb (totalNEC f) (js 0) = true
  /\ seTax f = round (mul (mul (js 0.9235) (totalNEC f)) (js 0.153))
  /\ seTax f = js 14130
  /\ adjustments f = floor (mul (js 0.5) (seTax f))
  /\ adjustments f = js 7065.
Proof.
  cbv zeta.
  pose proof (C9_self_employment_tax freelancerSession) as (H1 & _ & H3 & _).
  split; [reflexivity|]. split; [apply H1; reflexivity|].
  split; [vm_compute; reflexivity|]. split; [apply H3; reflexivity|].
  vm_compute; reflexivity.
Defined.

(** C9 (as stated) fails: for a 1099-NEC reporting -1000 the guard
    [totalNEC > 0] makes the SE tax 0, where the formula gives
    [round(-141.2955) = -141]. *)
Lemma C9_counterexample :
  let f := computeAndRenderTaxes negativeNecSession in
  totalNEC f = js (-1000)
  /\ seTax f = js 0
  /\ round (mul (mul (js 0.9235) (totalNEC f)) (js 0.153)) = js (-141)
  /\ seTax f <> round (mul (mul (js 0.9235) (totalNEC f)) (js 0.153)).
Proof.
  cbv zeta. repeat split; try (vm_compute; reflexivity).
  vm_compute. discriminate.
Qed.

(** The California fields of the filing record. *)
Lemma ca_computeAndRenderTaxes s :
  ca (computeAndRenderTaxes s)
  = match getStateId s,
          state (getTaxConstants (taxYear s) (getStateId s) (Some (filingStatus s)))
    with
    | Some california, Some (CaState sc) =>
        Some (californiaPass s sc (agi (computeAndRenderTaxes s))
                             (totalStateWithheld (computeAndRenderTaxes s)))
    | _, _ => None
    end.
Proof. reflexivity. Qed.

(** C10 — the California tax is not floored.  Whenever the California
    pass runs, the state tax is base bracket tax plus Mental Health
    surtax minus the renter's credit, and the state result is the state
    withholding minus that tax, with no clamp; for the California renter
    with wages 5000 the state tax is -60 and the state result 160 exceeds
    the withholding 100.  The federal tax after credits is clamped at
    zero for every session. *)
Theorem C10_california_tax_not_floored :
  (forall (s : Session) (caf : CaFiling),
     ca (computeAndRenderTaxes s) = Some caf ->
     caTax caf = sub (add (caBaseTax caf) (caMHTax caf)) (caCredits caf)
     /\ caCredits caf = or_else (credits s !! "renter") (js 0)
     /\ caResult caf
        = sub (totalStateWithheld (computeAndRenderTaxes s)) (caTax caf))
  /\ (exists (s : Session) (caf : CaFiling),
        stateOfResidence s = Some "CA"
        /\ answered_yes (gapAnswers s) "isRenter" = true
        /\ credits s !! "renter" = Some (js 60)
        /\ ca (computeAndRenderTaxes s) = Some caf
        /\ caTaxableIncome caf = js 0
        /\ caTax caf = js (-60)
        /\ ltb (caTax caf) (js 0) = true
        /\ totalStateWithheld (computeAndRenderTaxes s) = js 100
        /\ caResult caf = js 160
        /\ gtb (caResult caf) (totalStateWithheld (computeAndRenderTaxes s)) = true)
  /\ (forall s : Session,
        fedTaxAfterCredits (computeAndRenderTaxes s) = NaN
        \/ nonneg (fedTaxAfterCredits (computeAndRenderTaxes s))).
Proof.
  split; [|split].
  - intros s caf H. rewrite ca_computeAndRenderTaxes in H.
    destruct (getStateId s) as [[|]|]; try discriminate.
    destruct (state (getTaxConstants (taxYear s) (Some california)
                       (Some (filingStatus s)))) as [[sc|sc]|]; try discriminate.
    injection H as <-. repeat split; reflexivity.
  - eexists californiaRenterSession, _.
    split; [reflexivity|]. split; [reflexivity|]. split; [vm_compute; reflexivity|].
    split; [vm_compute; reflexivity|].
    repeat split; vm_compute; reflexivity.
  - intros s. apply max_zero_floor.
Qed.

(** The California renter. *)
Lemma C10_california_tax_not_floored_witness :
  exists caf : CaFiling,
    ca (computeAndRenderTaxes californiaRenterSession) = Some caf
    /\ caTax caf = sub (add (caBaseTax caf) (caMHTax caf)) (caCredits caf)
    /\ caTax caf = js (-60).
Proof.
  destruct (ca (computeAndRenderTaxes californiaRenterSession)) as [caf|] eqn:E.
  - exists caf. split; [reflexivity|].
    split.
    + exact (proj1 (proj1 C10_california_tax_not_floored
                      californiaRenterSession caf E)).
    + vm_compute in E. injection E as <-. vm_compute. reflexivity.
  - vm_compute in E. discriminate.
Defined.

End FilingFacts.

(* ================================================================== *)
(** * The gap-question selector                                         *)
(* ================================================================== *)

Module GapFacts.
Import TaxData Wizard GapAnalysis Scenarios.

Lemma keepRule_iff session rule :
  keepRule session rule = true
  <-> gapAnswers session !! GapAnalysis.id rule = None
      /\ condition rule session = Normal true.
Proof.
  unfold keepRule.
  destruct (gapAnswers session !! GapAnalysis.id rule) as [b|].
  - split; [discriminate | intros [H _]; discriminate].
  - destruct (condition rule session) as [[|]|m].
    + split; auto.
    + split; [discriminate | intros [_ H]; discriminate].
    + split; [discriminate | intros [_ H]; discriminate].
Qed.

Lemma filter_sublist {A : Type} (p : A -> bool) (l : list A) :
  sublist (List.filter p l) l.
Proof.
  induction l as [|a l IH]; simpl.
  - constructor.
  - destruct (p a); [apply sublist_skip | apply sublist_cons]; assumption.
Qed.

Lemma getGapQuestions_table session :
  getGapQuestions session = getGapQuestionsFrom GAP_RULES session.
Proof. reflexivity. Qed.

(** C8 — gap-question selection.  For every table of gap rules and
    every session, the selected questions are, in table order, exactly
    the rules whose id is not a key of [gapAnswers] and whose condition
    returns true; a rule whose condition throws is excluded; and once
    [gapAnswers['has401k']] is set, to true or to false, [getGapQuestions]
    does not return the has401k rule. *)
Theorem C8_gap_question_selection :
  forall (rules : list GapRule) (session : Session),
    (forall rule,
       In rule (getGapQuestionsFrom rules session)
       <-> In rule rules
           /\ gapAnswers session !! GapAnalysis.id rule = None
           /\ condition rule session = Normal true)
    /\ sublist (getGapQuestionsFrom rules session) rules
    /\ (forall rule message,
          condition rule session = Throw message ->
          ~ In rule (getGapQuestionsFrom rules session))
    /\ getGapQuestions session = getGapQuestionsFrom GAP_RULES session
    /\ (forall b : bool,
          gapAnswers session !! "has401k" = Some b ->
          forall rule, In rule (getGapQuestions session) ->
                       GapAnalysis.id rule <> "has401k").
Proof.
  intros rules session.
  assert (Hin : forall rs rule,
             In rule (getGapQuestionsFrom rs session)
             <-> In rule rs
                 /\ gapAnswers session !! GapAnalysis.id rule = None
                 /\ condition rule session = Normal true).
  { intros rs rule. unfold getGapQuestionsFrom.
    rewrite List.filter_In, keepRule_iff. reflexivity. }
  split; [apply Hin|]. split; [apply filter_sublist|]. split; [|split].
  - intros rule message Hthrow H. apply Hin in H as (_ & _ & Hc).
    rewrite Hthrow in Hc. discriminate.
  - apply getGapQuestions_table.
  - intros b Hb rule H Hid. rewrite getGapQuestions_table in H.
    apply Hin in H as (_ & Hnone & _). rewrite Hid, Hb in Hnone. discriminate.
Qed.

(** A session that answered the 401(k) question with no, and a table
    with a rule whose condition throws. *)
Lemma C8_gap_question_selection_witness :
  let session := withAnswers initialSession (<["has401k" := false]> ∅) in
  List.map GapAnalysis.id (getGapQuestions initialSession)
  = ["has401k"; "hasIRA"; "hasHSA"; "hasMortgage"; "hasSALT"; "hasCharitable";
     "hasStudentLoan"; "hasTuition"; "isEducator"; "hasSoldStocks"; "hasEV";
     "hasEnergyImprovements"; "hasOtherIncome"]
  /\ List.map GapAnalysis.id (getGapQuestions session)
     = ["hasIRA"; "hasHSA"; "hasMortgage"; "hasSALT"; "hasCharitable";
        "hasStudentLoan"; "hasTuition"; "isEducator"; "hasSoldStocks"; "hasEV";
        "hasEnergyImprovements"; "hasOtherIncome"]
  /\ (forall rule, In rule (getGapQuestions session) ->
                   GapAnalysis.id rule <> "has401k")
  /\ ~ In throwingGapRule
         (getGapQuestionsFrom (throwingGapRule :: GAP_RULES) session).
Proof.
  cbv zeta. split; [vm_compute; reflexivity|]. split; [vm_compute; reflexivity|].
  split.
  - exact (proj2 (proj2 (proj2 (proj2
             (C8_gap_question_selection GAP_RULES
                (withAnswers initialSession (<["has401k" := false]> ∅)))))) false
             eq_refl).
  - exact (proj1 (proj2 (proj2
             (C8_gap_question_selection (throwingGapRule :: GAP_RULES)
                (withAnswers initialSession (<["has401k" := false]> ∅)))))
             throwingGapRule "boom" eq_refl).
Defined.

End GapFacts.

(* ================================================================== *)
(** * More facts about binary64 arithmetic                              *)
(* ================================================================== *)

Module ArithmeticFacts.
Import JsNumberFacts RulesChecks CheckNotions.

Local Open Scope Q_scope.

Lemma neg_neg_round_pos q : neg (neg (round_pos q)) = round_pos q.
Proof.
  unfold round_pos. destruct (Qle_bool _ _); [reflexivity|].
  cbn [neg]. f_equal.
  apply Qred_complete. rewrite !Qred_correct. lra.
Qed.

(** Rounding commutes with negation. *)
Lemma RN_opp q : RN (- q) = neg (RN q).
Proof.
  destruct (Qlt_le_dec 0 q) as [Hq|Hq].
  - rewrite (RN_neg (- q)) by lra. rewrite (RN_pos q) by assumption.
    f_equal. apply round_pos_proper; lra.
  - destruct (Qlt_le_dec q 0) as [Hq'|Hq'].
    + rewrite (RN_pos (- q)) by lra. rewrite (RN_neg q) by assumption.
      symmetry. apply neg_neg_round_pos.
    + rewrite (RN_0 q) by lra. rewrite (RN_0 (- q)) by lra. reflexivity.
Qed.

(** [a - b] is the negation of [b - a]. *)
Lemma sub_antisym a b : sub a b = neg (sub b a).
Proof.
  destruct a as [| | |a], b as [| | |b]; try reflexivity.
  rewrite !sub_Fin, <- RN_opp. apply RN_proper. lra.
Qed.

Lemma leb_abs_Fin q t : leb (abs (Fin q)) (Fin t) = true <-> - t <= q <= t.
Proof.
  unfold abs. destruct (Qle_bool 0 q) eqn:E; cbn [neg leb].
  - apply Qle_bool_iff in E. rewrite Qle_bool_iff. split; intros H; lra.
  - assert (Hq : q < 0).
    { destruct (Qlt_le_dec q 0) as [H|H]; [assumption|].
      apply Qle_bool_iff in H. congruence. }
    rewrite Qle_bool_iff, Qred_correct. split; intros H; lra.
Qed.

Lemma leb_abs_neg x t : leb (abs (neg x)) t = leb (abs x) t.
Proof.
  destruct x as [| | |q]; try reflexivity.
  destruct t as [| | |t]; try reflexivity.
  - cbn [neg]. unfold abs. destruct (Qle_bool 0 _), (Qle_bool 0 q); reflexivity.
  - cbn [neg]. unfold abs. destruct (Qle_bool 0 _), (Qle_bool 0 q); reflexivity.
  - cbn [neg]. unfold abs. destruct (Qle_bool 0 _), (Qle_bool 0 q); reflexivity.
  - apply eq_true_iff_eq. cbn [neg]. rewrite !leb_abs_Fin, Qred_correct.
    split; intros H; lra.
Qed.

Lemma sub_self q : sub (Fin q) (Fin q) = Fin 0.
Proof. rewrite sub_Fin. apply RN_0. lra. Qed.

(** A value is approximately equal to itself exactly when it is finite. *)
Lemma approxEqual_self x t :
  nonneg t -> approxEqual (Some x) (Some x) t = isFinite x.
Proof.
  intros Ht. destruct x as [| | |q]; try reflexivity.
  cbn [approxEqual isFinite]. rewrite sub_self.
  destruct (nonneg_cases t Ht) as [->|(p & -> & Hp)]; [reflexivity|].
  apply leb_abs_Fin. lra.
Qed.

(** Adding or subtracting zero leaves a binary64 value unchanged. *)
Lemma add_0_r x : binary64 x -> add x (Fin 0) = x.
Proof.
  destruct x as [| | |q]; try reflexivity.
  cbn [binary64 add]. intros H. rewrite <- H. apply RN_proper. lra.
Qed.

Lemma add_0_l x : binary64 x -> add (Fin 0) x = x.
Proof.
  destruct x as [| | |q]; try reflexivity.
  cbn [binary64 add]. intros H. rewrite <- H. apply RN_proper. lra.
Qed.

Lemma sub_0_r x : binary64 x -> sub x (Fin 0) = x.
Proof. intros H. unfold sub. change (neg (Fin 0)) with (Fin 0). apply add_0_r, H. Qed.

Lemma sub_binary64 a b : binary64 (sub a b).
Proof. apply add_binary64. Qed.

Lemma mul_binary64 a b : binary64 (mul a b).
Proof.
  destruct a as [| | |a], b as [| | |b]; cbn [mul]; try exact I;
    try (unfold inf_of; destruct (sgn _); exact I);
    try (unfold inf_of; destruct (CompOpp _); exact I).
  apply RN_binary64.
Qed.


(** ** [Math.round] of a binary64 value is a binary64 value *)

Lemma Qred_inject_Z z : Qred (inject_Z z) = inject_Z z.
Proof.
  unfold Qred, inject_Z.
  pose proof (Z.ggcd_gcd z 1) as Hg.
  pose proof (Z.ggcd_correct_divisors z 1) as Hd.
  destruct (Z.ggcd z 1) as [g [a b]]. cbn [fst snd] in *.
  rewrite Z.gcd_1_r in Hg. subst g. destruct Hd as [Ha Hb].
  replace a with z by lia. replace b with 1%Z by lia. reflexivity.
Qed.

Lemma RN_canonical q r : RN q = Fin r -> Qred r = r.
Proof.
  unfold RN, round_pos. destruct (Qnum q).
  - intros H. injection H as <-. reflexivity.
  - destruct (Qle_bool _ _); [discriminate|]. intros H. injection H as <-.
    apply Qred_complete, Qred_correct.
  - destruct (Qle_bool _ _); [discriminate|]. cbn [neg]. intros H.
    injection H as <-. apply Qred_complete, Qred_correct.
Qed.

Lemma binary64_pos_rval q : 0 < q -> RN q = Fin q -> q == rval q.
Proof.
  intros Hq H. rewrite RN_pos in H by assumption. unfold round_pos in H.
  destruct (Qle_bool _ _); [discriminate|]. injection H as H.
  transitivity (Qred (rval q)); [rewrite H; reflexivity | apply Qred_correct].
Qed.

(** A binary64 value of magnitude at least 2^52 is an integer. *)
Lemma binary64_large_int q :
  pow2 52 <= q -> RN q = Fin q -> exists k, q == inject_Z k.
Proof.
  intros Hq H.
  assert (Hpos : 0 < q) by (pose proof (pow2_pos 52); lra).
  pose proof (binary64_pos_rval q Hpos H) as Hr. unfold rval in Hr.
  assert (Hf : (0 <= ulp_exp q)%Z).
  { unfold ulp_exp. pose proof (ilog2_ge q 52 Hpos Hq). lia. }
  exists (round_half_even (q / pow2 (ulp_exp q)) * 2 ^ ulp_exp q)%Z.
  rewrite inject_Z_mult, <- (pow2_nonneg_Z _ Hf). exact Hr.
Qed.

(** Integers below 2^53 are binary64 values. *)
Lemma RN_int_pos z : (0 < z < 2 ^ 53)%Z -> RN (inject_Z z) = Fin (inject_Z z).
Proof.
  intros [Hz0 Hz].
  assert (Hq : 0 < inject_Z z) by (unfold Qlt, inject_Z; simpl; lia).
  rewrite RN_pos by assumption.
  destruct (ilog2_spec _ Hq) as [Hl Hu].
  assert (Hlt : inject_Z z < pow2 53).
  { rewrite (pow2_nonneg_Z 53) by lia. rewrite <- Zlt_Qlt. assumption. }
  assert (He : (ilog2 (inject_Z z) < 53)%Z).
  { apply pow2_lt_inv. eapply Qle_lt_trans; eassumption. }
  assert (Hf : (-1074 <= ulp_exp (inject_Z z) <= 0)%Z) by (unfold ulp_exp; lia).
  assert (Hex : rval (inject_Z z) == inject_Z z).
  { apply rval_exact with (z * 2 ^ (- ulp_exp (inject_Z z)))%Z; [assumption|].
    rewrite inject_Z_mult, <- pow2_nonneg_Z by lia.
    rewrite <- Qmult_assoc, <- pow2_add.
    replace (- ulp_exp (inject_Z z) + ulp_exp (inject_Z z))%Z with 0%Z by lia.
    change (pow2 0) with 1. lra. }
  unfold round_pos.
  assert (Ho : Qle_bool (pow2 1024) (rval (inject_Z z)) = false).
  { destruct (Qle_bool _ _) eqn:E; [|reflexivity].
    apply Qle_bool_iff in E. exfalso.
    assert (H53 : pow2 53 <= pow2 1024) by (apply pow2_le; lia).
    rewrite Hex in E.
    apply (Qlt_not_le _ _ Hlt). eapply Qle_trans; eassumption. }
  rewrite Ho. f_equal. rewrite <- (Qred_inject_Z z) at 2.
  apply Qred_complete. assumption.
Qed.

Lemma RN_int z : (- 2 ^ 53 < z < 2 ^ 53)%Z -> RN (inject_Z z) = Fin (inject_Z z).
Proof.
  intros Hz. destruct (Z.lt_trichotomy z 0) as [H|[->|H]].
  - rewrite (RN_proper (inject_Z z) (- inject_Z (- z))).
    2:{ rewrite inject_Z_opp. lra. }
    rewrite RN_opp, RN_int_pos by lia. cbn [neg]. f_equal.
    rewrite <- (Qred_inject_Z z). apply Qred_complete.
    rewrite inject_Z_opp. lra.
  - reflexivity.
  - apply RN_int_pos. lia.
Qed.

Lemma Qfloor_int_half k : Qfloor (inject_Z k + (1 # 2)) = k.
Proof.
  rewrite (Qfloor_comp _ ((2 * k + 1) # 2)).
  - cbn [Qfloor]. Z.to_euclidean_division_equations. lia.
  - unfold Qeq, Qplus, inject_Z. simpl. lia.
Qed.

Lemma round_int q k :
  q == inject_Z k -> RN q = Fin q -> RN (inject_Z k) = Fin (inject_Z k).
Proof.
  intros Hk H. rewrite <- (RN_proper _ _ Hk), H. f_equal.
  apply Qred_eq_of_Qeq_canonical;
    [assumption | eapply RN_canonical; eassumption | apply Qred_inject_Z].
Qed.

Lemma round_binary64 x : binary64 x -> binary64 (round x).
Proof.
  destruct x as [| | |q]; try (intros; exact I).
  cbn [binary64 round]. intros H.
  destruct (Qlt_le_dec q (pow2 52)) as [Hhi|Hhi].
  - destruct (Qlt_le_dec (- pow2 52) q) as [Hlo|Hlo].
    + apply RN_int.
      rewrite (pow2_nonneg_Z 52) in Hhi, Hlo by lia.
      pose proof (Qfloor_le (q + (1 # 2))) as H1.
      pose proof (Qlt_floor (q + (1 # 2))) as H2.
      set (z := Qfloor (q + (1 # 2))) in *.
      assert (Hz1 : inject_Z z < inject_Z (2 ^ 52 + 1)).
      { rewrite inject_Z_plus. change (inject_Z 1) with 1. lra. }
      assert (Hz2 : inject_Z (- 2 ^ 52 - 1) < inject_Z z).
      { rewrite inject_Z_plus in H2. unfold Zminus. rewrite inject_Z_plus, inject_Z_opp.
        change (inject_Z (- (1))) with (- (1)). change (inject_Z 1) with 1 in H2. lra. }
      rewrite <- Zlt_Qlt in Hz1, Hz2.
      change (2 ^ 53)%Z with (2 ^ 52 * 2)%Z. lia.
    + assert (Hn : RN (Qred (- q)) = Fin (Qred (- q))).
      { rewrite (RN_proper _ (- q) (Qred_correct _)), RN_opp, H. reflexivity. }
      destruct (binary64_large_int (Qred (- q))) as [k Hk];
        [rewrite Qred_correct; lra | assumption |].
      rewrite Qred_correct in Hk.
      assert (Hq : q == inject_Z (- k)) by (rewrite inject_Z_opp; lra).
      rewrite (Qfloor_comp _ (inject_Z (- k) + (1 # 2))) by (rewrite Hq; reflexivity).
      rewrite Qfloor_int_half. eapply round_int; eassumption.
  - destruct (binary64_large_int q Hhi H) as [k Hk].
    rewrite (Qfloor_comp _ (inject_Z k + (1 # 2))) by (rewrite Hk; reflexivity).
    rewrite Qfloor_int_half. eapply round_int; eassumption.
Qed.

Lemma round_nonneg x : nonneg x -> nonneg (round x).
Proof. intros H. apply (round_mono (Fin 0) x H). Qed.

(** ** Numbers with the same value *)

Lemma eqv_refl x : eqv x x.
Proof. destruct x; simpl; try exact I. reflexivity. Qed.

Lemma eqv_sym x y : eqv x y -> eqv y x.
Proof. destruct x, y; simpl; try tauto. intros H. symmetry. assumption. Qed.

Lemma eqv_binary64 x y : eqv x y -> binary64 x -> binary64 y -> x = y.
Proof.
  destruct x as [| | |a], y as [| | |b]; simpl; try tauto. intros H Ha Hb.
  f_equal. apply Qred_eq_of_Qeq_canonical; [assumption| |];
    eapply RN_canonical; eassumption.
Qed.

Lemma neg_eqv x y : eqv x y -> neg x = neg y.
Proof.
  destruct x as [| | |a], y as [| | |b]; simpl; try tauto. intros H.
  f_equal. apply Qred_complete. rewrite H. reflexivity.
Qed.

Lemma add_eqv a a' b b' : eqv a a' -> eqv b b' -> add a b = add a' b'.
Proof.
  destruct a as [| | |p], a' as [| | |p'], b as [| | |q], b' as [| | |q'];
    simpl; try tauto.
  intros H1 H2. apply RN_proper. rewrite H1, H2. reflexivity.
Qed.

Lemma sub_eqv a a' b b' : eqv a a' -> eqv b b' -> sub a b = sub a' b'.
Proof.
  intros H1 H2. unfold sub. rewrite (neg_eqv _ _ H2).
  apply add_eqv; [assumption | apply eqv_refl].
Qed.

Lemma isFinite_eqv x y : eqv x y -> isFinite x = isFinite y.
Proof. destruct x, y; simpl; tauto. Qed.

(** [x || 0] has the value of [x], unless [x] is [NaN]. *)
Lemma or_else_zero x : x <> NaN -> eqv (Wizard.or_else (Some x) (js 0)) x.
Proof.
  intros H. destruct x as [| | |q]; try congruence; try exact I.
  cbn [Wizard.or_else truthy]. destruct (Qeq_bool q 0) eqn:E; cbn [negb].
  - change (js 0) with (Fin 0). simpl. apply Qeq_bool_iff in E. symmetry. assumption.
  - simpl. reflexivity.
Qed.

Lemma approxEqual_eqv a a' b b' t :
  eqv a a' -> eqv b b' ->
  approxEqual (Some a) (Some b) t = approxEqual (Some a') (Some b') t.
Proof. intros H1 H2. cbn [approxEqual]. rewrite (sub_eqv _ _ _ _ H1 H2). reflexivity. Qed.

Lemma sub_finite_inv a b : isFinite (sub a b) = true -> isFinite a = true /\ isFinite b = true.
Proof. destruct a, b; simpl; try discriminate; auto. Qed.

Lemma add_finite_inv a b : isFinite (add a b) = true -> isFinite a = true /\ isFinite b = true.
Proof. destruct a, b; simpl; try discriminate; auto. Qed.

Lemma isFinite_not_NaN x : isFinite x = true -> x <> NaN.
Proof. destruct x; simpl; congruence. Qed.

Lemma max_binary64 a b : binary64 a -> binary64 b -> binary64 (max a b).
Proof.
  intros Ha Hb. unfold max.
  destruct a, b; try exact I; destruct (leb _ _); assumption.
Qed.

Lemma max_zero_nonneg x : nonneg x -> max (js 0) x = x.
Proof.
  change (js 0) with (Fin 0). intros H.
  destruct (nonneg_cases x H) as [->|(q & -> & Hq)]; [reflexivity|].
  unfold max. cbn [leb]. apply Qle_bool_iff in Hq. rewrite Hq. reflexivity.
Qed.

(** ** Multiplication by a positive constant *)

Lemma sgn_pos c : 0 < c -> sgn c = Gt.
Proof. intros H. unfold sgn. apply Qgt_alt. assumption. Qed.

Lemma mul_mono_r x y c : 0 < c -> le x y -> le (mul x (Fin c)) (mul y (Fin c)).
Proof.
  intros Hc H. pose proof (sgn_pos c Hc) as Hs.
  destruct x as [| | |p], y as [| | |q]; try discriminate;
    cbn [mul]; rewrite ?Hs; cbn [inf_of CompOpp]; try reflexivity;
    try (apply le_PInf, RN_not_NaN).
  apply RN_mono. apply le_Fin in H. nra.
Qed.

Lemma mul_nonneg_r x c : 0 < c -> nonneg x -> nonneg (mul x (Fin c)).
Proof.
  intros Hc H. pose proof (sgn_pos c Hc) as Hs.
  destruct (nonneg_cases x H) as [->|(q & -> & Hq)]; cbn [mul].
  - rewrite Hs. reflexivity.
  - apply RN_nonneg. nra.
Qed.

Lemma gtb_zero_nonneg x : gtb x (js 0) = true -> nonneg x.
Proof.
  change (js 0) with (Fin 0). destruct x as [| | |q]; cbn; try discriminate;
    try reflexivity.
  destruct (Qcompare_spec 0 q); try discriminate. intros _.
  apply Qle_bool_iff. lra.
Qed.

Lemma floor_nonneg x : nonneg x -> nonneg (floor x).
Proof.
  intros H. destruct (nonneg_cases x H) as [->|(q & -> & Hq)]; [reflexivity|].
  cbn [floor]. apply nonneg_Fin. change 0 with (inject_Z 0).
  rewrite <- Zle_Qle. rewrite <- (Qfloor_Z 0). apply Qfloor_resp_le. assumption.
Qed.

(** A value at or below -6 is not within 5 of zero. *)
Lemma approxEqual_zero_far e :
  le e (js (-6)) -> approxEqual (Some (js 0)) (Some e) (js 5) = false.
Proof.
  assert (E6 : js (-6) = Fin (-6)) by (vm_compute; reflexivity).
  assert (E5 : js 5 = Fin 5) by (vm_compute; reflexivity).
  rewrite E6, E5. change (js 0) with (Fin 0). intros H.
  destruct e as [| | |q]; try discriminate; try reflexivity.
  apply le_Fin in H. cbn [approxEqual]. rewrite sub_Fin.
  assert (Hd : le (RN 6) (RN (0 - q))) by (apply RN_mono; lra).
  assert (E : RN 6 = Fin 6) by (vm_compute; reflexivity). rewrite E in Hd.
  destruct (RN (0 - q)) as [| | |d]; try discriminate; try reflexivity.
  apply le_Fin in Hd. destruct (leb (abs (Fin d)) (Fin 5)) eqn:F; [|reflexivity].
  apply leb_abs_Fin in F. lra.
Qed.

Lemma pos_of_nonneg_nonzero x :
  le (js 0) x -> eqb x (js 0) = false -> gtb x (js 0) = true.
Proof.
  change (js 0) with (Fin 0). unfold le.
  destruct x as [| | |q]; cbn; try discriminate; try reflexivity.
  intros H1 H2. apply Qle_bool_iff in H1.
  destruct (Qcompare_spec 0 q) as [H|H|H]; try reflexivity; exfalso.
  - rewrite <- H in H2. discriminate.
  - apply (Qlt_not_le _ _ H H1).
Qed.

Lemma negative_not_pos x c :
  c < 0 -> le x (Fin c) -> gtb x (js 0) = false /\ eqb x (js 0) = false.
Proof.
  change (js 0) with (Fin 0). unfold le. intros Hc.
  destruct x as [| | |q]; cbn; try discriminate; try (split; reflexivity).
  intros H. apply Qle_bool_iff in H. split.
  - destruct (Qcompare_spec 0 q) as [H'|H'|H']; try reflexivity; exfalso; lra.
  - destruct (Qeq_bool q 0) eqn:F; [|reflexivity].
    apply Qeq_bool_iff in F. exfalso; lra.
Qed.

Lemma sub_NaN_r x : sub x NaN = NaN.
Proof. destruct x; reflexivity. Qed.

Lemma add_NaN_r x : add x NaN = NaN.
Proof. destruct x; reflexivity. Qed.

(** Two finite values 6 or more apart are not within 5 of each other. *)
Lemma approxEqual_far a b :
  a + 6 <= b -> approxEqual (Some (Fin a)) (Some (Fin b)) (js 5) = false.
Proof.
  assert (E5 : js 5 = Fin 5) by (vm_compute; reflexivity). rewrite E5.
  intros H. cbn [approxEqual]. rewrite sub_Fin.
  assert (Hd : le (RN (a - b)) (RN (-6))) by (apply RN_mono; lra).
  assert (E : RN (-6) = Fin (-6)) by (vm_compute; reflexivity). rewrite E in Hd.
  generalize dependent (RN (a - b)). intros d Hd.
  destruct d as [| | |d]; try discriminate; try reflexivity.
  apply le_Fin in Hd. destruct (leb (abs (Fin d)) (Fin 5)) eqn:F; [|reflexivity].
  apply leb_abs_Fin in F. lra.
Qed.

(** [Math.round] of a non-negative value is [Infinity] or a non-negative
    integer. *)
Lemma round_integral x :
  nonneg x -> round x = PInf \/ exists k, (0 <= k)%Z /\ round x = Fin (inject_Z k).
Proof.
  intros H. destruct (nonneg_cases x H) as [->|(q & -> & Hq)]; [left; reflexivity|].
  right. exists (Qfloor (q + (1 # 2))). split; [|reflexivity].
  rewrite <- (Qfloor_Z 0). apply Qfloor_resp_le. change (inject_Z 0) with 0. lra.
Qed.

Lemma max_zero_bound d B :
  d <> NaN -> le d (Fin B) -> 0 <= B ->
  exists a, max (js 0) d = Fin a /\ 0 <= a <= B.
Proof.
  change (js 0) with (Fin 0). intros Hn Hd HB.
  destruct d as [| | |d]; try congruence; try discriminate.
  - exists 0. split; [reflexivity | lra].
  - apply le_Fin in Hd. unfold max. cbn [leb].
    destruct (Qle_bool 0 d) eqn:E.
    + apply Qle_bool_iff in E. exists d. split; [reflexivity | lra].
    + exists 0. split; [reflexivity | lra].
Qed.

Lemma sub_not_NaN_Fin a c : c <> NaN -> nonneg c -> sub (Fin a) c <> NaN.
Proof.
  intros Hn Hc. destruct (nonneg_cases c Hc) as [->|(q & -> & _)]; [discriminate|].
  rewrite sub_Fin. apply RN_not_NaN.
Qed.

Lemma sumOf_binary64 {A : Type} (g : A -> number) (l : list A) :
  binary64 (Wizard.sumOf g l).
Proof.
  unfold Wizard.sumOf.
  assert (H : forall acc, binary64 acc ->
                binary64 (fold_left (fun sum i => add sum (g i)) l acc)).
  { induction l as [|a l IH]; intros acc Hacc; cbn [fold_left]; [assumption|].
    apply IH, add_binary64. }
  apply H. exact (RN_binary64 0).
Qed.

(** A value above 1 is not within 1 of zero. *)
Lemma approxEqual_zero_above w :
  binary64 w -> ltb (js 1) w = true ->
  approxEqual (Some (js 0)) (Some (sub w (js 0))) (js 1) = false.
Proof.
  assert (E1 : js 1 = Fin 1) by (vm_compute; reflexivity). rewrite E1.
  change (js 0) with (Fin 0). intros Hb Hw.
  rewrite (sub_0_r _ Hb). cbn [approxEqual].
  rewrite sub_antisym, leb_abs_neg, (sub_0_r _ Hb).
  destruct w as [| | |q]; try discriminate Hw; [reflexivity|].
  cbn in Hw. destruct (Qcompare_spec 1 q) as [H|H|H]; try discriminate Hw.
  destruct (leb (abs (Fin q)) (Fin 1)) eqn:F; [|reflexivity].
  apply leb_abs_Fin in F. lra.
Qed.

Lemma not_negative x : x = NaN \/ nonneg x -> ltb x (js 0) = false.
Proof.
  change (js 0) with (Fin 0). intros [->|H]; [reflexivity|].
  destruct (nonneg_cases x H) as [->|(q & -> & Hq)]; [reflexivity|].
  cbn. destruct (Qcompare_spec q 0) as [E|E|E]; try reflexivity. lra.
Qed.

Lemma add_NaN_or_nonneg a b :
  a = NaN \/ nonneg a -> nonneg b -> add a b = NaN \/ nonneg (add a b).
Proof.
  intros [->|Ha] Hb; [left; reflexivity|]. right. apply add_nonneg; assumption.
Qed.

Lemma min_nonneg a b : nonneg a -> nonneg b -> nonneg (min a b).
Proof.
  intros Ha Hb. unfold min.
  destruct (nonneg_cases a Ha) as [->|(p & -> & Hp)];
    destruct (nonneg_cases b Hb) as [->|(q & -> & Hq)];
    try (destruct (leb _ _)); assumption.
Qed.

Lemma or_else_nonneg x d :
  (forall v, x = Some v -> nonneg v) -> nonneg d -> nonneg (Wizard.or_else x d).
Proof.
  intros Hx Hd. destruct x as [v|]; cbn [Wizard.or_else]; [|assumption].
  destruct (truthy v); [apply Hx; reflexivity | assumption].
Qed.

(** Subtracting a non-negative amount from a finite binary64 value does
    not increase it. *)
Lemma sub_le_self t adj : RN t = Fin t -> nonneg adj -> le (sub (Fin t) adj) (Fin t).
Proof.
  intros Ht Hadj. destruct (nonneg_cases adj Hadj) as [->|(a & -> & Ha)]; [reflexivity|].
  rewrite sub_Fin. rewrite <- Ht. apply RN_mono. lra.
Qed.

End ArithmeticFacts.

(* ================================================================== *)
(** * The helpers of rules.js                                           *)
(* ================================================================== *)

Module RulesHelperFacts.
Import TaxData Wizard Rules RulesChecks Notions Scenarios.
Import JsNumberFacts ArithmeticFacts ConstantsFacts.

Lemma federalYear_spec year :
  federalYear year
  = if (year =? 2023)%Z then FEDERAL_2023
    else if (year =? 2024)%Z then FEDERAL_2024 else FEDERAL_2025.
Proof.
  unfold federalYear, FEDERAL_DATA.
  destruct (year =? 0)%Z eqn:E0.
  - apply Z.eqb_eq in E0. subst year. reflexivity.
  - destruct (year =? 2023)%Z; [reflexivity|].
    destruct (year =? 2024)%Z; [reflexivity|].
    destruct (year =? 2025)%Z; reflexivity.
Qed.

Lemma fed_brackets_resolved year stateId fs :
  fed_brackets (fed (getTaxConstants year stateId (Some fs)))
  = entry_or_single (Fed.brackets (federalYear year)) fs.
Proof. reflexivity. Qed.

(** [approxEqual] does not depend on the order of the two values; with a
    finite tolerance it holds only between two finite numbers, never for
    a missing value, [NaN] or an infinity; and a finite number is
    approximately equal to itself for every tolerance that is not
    negative. *)
Theorem approxEqual_symmetric_finite :
  forall (a b : option number) (tolerance : number),
    nonneg tolerance ->
    isFinite tolerance = true ->
    approxEqual a b tolerance = approxEqual b a tolerance
    /\ (approxEqual a b tolerance = true ->
        exists p q, a = Some (Fin p) /\ b = Some (Fin q))
    /\ (forall q, approxEqual (Some (Fin q)) (Some (Fin q)) tolerance = true).
Proof.
  intros a b t Ht Hfin. split; [|split].
  - destruct a as [a|], b as [b|]; try reflexivity.
    cbn [approxEqual]. rewrite (sub_antisym a b). apply leb_abs_neg.
  - destruct a as [a|], b as [b|]; cbn [approxEqual]; try discriminate.
    destruct t as [| | |t]; try discriminate.
    destruct a as [| | |p], b as [| | |q]; try discriminate.
    intros _. exists p, q. split; reflexivity.
  - intros q. apply (approxEqual_self (Fin q) t Ht).
Qed.

Lemma approxEqual_symmetric_finite_witness :
  approxEqual (Some (js 100)) (Some (js 104)) (js 5)
  = approxEqual (Some (js 104)) (Some (js 100)) (js 5)
  /\ approxEqual (Some (js 100)) (Some (js 104)) (js 5) = true
  /\ approxEqual (Some PInf) (Some PInf) (js 5) = false.
Proof.
  assert (H1 : nonneg (js 5)) by (vm_compute; reflexivity).
  assert (H2 : isFinite (js 5) = true) by (vm_compute; reflexivity).
  split; [|split; vm_compute; reflexivity].
  exact (proj1 (approxEqual_symmetric_finite
                  (Some (js 100)) (Some (js 104)) (js 5) H1 H2)).
Defined.

Lemma FED_BRACKETS_2025 fs :
  fs = single \/ fs = qss ->
  entry_or_single (Fed.brackets FEDERAL_2025) fs = FED_BRACKETS.
Proof. intros [-> | ->]; vm_compute; reflexivity. Qed.

Lemma FED_BRACKETS_2023 fs :
  computeFedTax (js 1000000)
  <> computeTaxFromBrackets (js 1000000) (entry_or_single (Fed.brackets FEDERAL_2023) fs).
Proof. destruct fs; vm_compute; discriminate. Qed.

Lemma FED_BRACKETS_2024 fs :
  computeFedTax (js 1000000)
  <> computeTaxFromBrackets (js 1000000) (entry_or_single (Fed.brackets FEDERAL_2024) fs).
Proof. destruct fs; vm_compute; discriminate. Qed.

Lemma FED_BRACKETS_2025_other fs :
  ~ (fs = single \/ fs = qss) ->
  computeFedTax (js 1000000)
  <> computeTaxFromBrackets (js 1000000) (entry_or_single (Fed.brackets FEDERAL_2025) fs).
Proof.
  intros H. destruct fs; try (exfalso; apply H; auto; fail);
    vm_compute; discriminate.
Qed.

(** [computeFedTax] of rules.js and the wizard's bracket calculator
    agree on every taxable income exactly when the constants are those of
    2025 (any year other than 2023 and 2024) and the filing status is
    single or qualifying surviving spouse: the rules hard-code that
    table. *)
Theorem computeFedTax_table :
  forall (year : Z) (stateId : option StateId) (fs : FilingStatus),
    (forall taxable,
       computeFedTax taxable
       = computeTaxFromBrackets taxable
           (fed_brackets (fed (getTaxConstants year stateId (Some fs)))))
    <-> (year <> 2023 /\ year <> 2024 /\ (fs = single \/ fs = qss))%Z.
Proof.
  intros year stateId fs. rewrite fed_brackets_resolved, federalYear_spec.
  split.
  - intros H. specialize (H (js 1000000)).
    destruct (Z.eqb_spec year 2023) as [E1|E1].
    { exfalso. revert H. apply FED_BRACKETS_2023. }
    destruct (Z.eqb_spec year 2024) as [E2|E2].
    { exfalso. revert H. apply FED_BRACKETS_2024. }
    split; [assumption|]. split; [assumption|].
    destruct fs; try (left; reflexivity); try (right; reflexivity);
      exfalso; revert H; apply FED_BRACKETS_2025_other; intros [E|E]; discriminate.
  - intros (H1 & H2 & H3) taxable.
    destruct (Z.eqb_spec year 2023) as [E1|_]; [contradiction|].
    destruct (Z.eqb_spec year 2024) as [E2|_]; [contradiction|].
    unfold computeFedTax, computeTaxFromBrackets.
    rewrite (FED_BRACKETS_2025 fs H3). reflexivity.
Qed.

End RulesHelperFacts.

(* ================================================================== *)
(** * The checks of the computation on the wizard's own filing          *)
(* ================================================================== *)

Module WizardRulesFacts.
Import TaxData Wizard Rules RulesChecks WizardSteps CheckNotions Notions Scenarios.
Import MoreScenarios.
Import JsNumberFacts ArithmeticFacts BracketFacts ConstantsFacts FilingFacts RulesHelperFacts.

(** The equations of the filing record used below. *)
Lemma filing_agi s :
  agi (computeAndRenderTaxes s)
  = sub (totalIncome (computeAndRenderTaxes s)) (adjustments (computeAndRenderTaxes s)).
Proof. reflexivity. Qed.

Lemma filing_fedResult s :
  fedResult (computeAndRenderTaxes s)
  = sub (totalFedWithheld (computeAndRenderTaxes s)) (totalFedTax (computeAndRenderTaxes s)).
Proof. reflexivity. Qed.

Lemma filing_totalFedWithheld s :
  totalFedWithheld (computeAndRenderTaxes s)
  = sumOf (fun i => or_else (fed_income_tax_withheld i) (js 0)) (incomes s).
Proof. reflexivity. Qed.

Lemma filing_totalFedTax s :
  totalFedTax (computeAndRenderTaxes s)
  = add (max (js 0) (sub (fedIncomeTax (computeAndRenderTaxes s))
                         (totalCredits (computeAndRenderTaxes s))))
        (seTax (computeAndRenderTaxes s)).
Proof. reflexivity. Qed.

Lemma filing_fedIncomeTax s :
  fedIncomeTax (computeAndRenderTaxes s)
  = computeTaxFromBrackets (taxableIncome (computeAndRenderTaxes s))
                           (fed_brackets (fed (constantsOf s))).
Proof. reflexivity. Qed.

Lemma filing_taxableIncome_binary64 s : binary64 (taxableIncome (computeAndRenderTaxes s)).
Proof.
  change (taxableIncome (computeAndRenderTaxes s))
    with (max (js 0)
            (sub (sub (sub (agi (computeAndRenderTaxes s))
                           (deduction (computeAndRenderTaxes s)))
                      (homeOfficeDeduction (computeAndRenderTaxes s)))
                 (mileageDeduction (computeAndRenderTaxes s)))).
  apply max_binary64; [reflexivity | apply sub_binary64].
Qed.

Lemma filing_seTax s :
  seTax (computeAndRenderTaxes s)
  = selfEmploymentTax (fedYear (fed (constantsOf s))) (totalNEC (computeAndRenderTaxes s)).
Proof. reflexivity. Qed.

Lemma filing_totalNEC s :
  totalNEC (computeAndRenderTaxes s)
  = sumOf (fun i => or_else (nonemployee_compensation i) (js 0))
          (List.filter (ofType "1099-NEC") (incomes s)).
Proof. reflexivity. Qed.

(** The federal bracket table resolved for a session is one of the
    tables of the data, so it is well formed. *)
Lemma fed_brackets_wellFormed year stateId fs :
  wellFormedBrackets (fed_brackets (fed (getTaxConstants year stateId (Some fs)))) = true.
Proof.
  rewrite fed_brackets_resolved.
  destruct (federalYear_cases year) as [E|[E|E]]; rewrite E;
    destruct fs; vm_compute; reflexivity.
Qed.

Lemma bracketLoop_binary64 brackets :
  forall t r, binary64 t -> binary64 (bracketLoop t r brackets).
Proof.
  induction brackets as [|[w rate] rest IH]; intros t r Ht; cbn [bracketLoop].
  - assumption.
  - destruct (leb r (js 0)); [assumption|]. apply IH. apply add_binary64.
Qed.

(** The bracket tax on a finite binary64 income is a non-negative
    binary64 value. *)
Lemma computeTaxFromBrackets_taxok brackets x :
  wellFormedBrackets brackets = true -> isFinite x = true -> binary64 x ->
  taxok (computeTaxFromBrackets x brackets).
Proof.
  intros Hwf Hfin Hx. destruct x as [| | |q]; try discriminate.
  assert (Hz : taxok (js 0)) by (split; reflexivity).
  destruct (bracketLoop_inv brackets Hwf (js 0) q Hz Hx) as [[H1 H2] _].
  unfold computeTaxFromBrackets. split;
    [apply round_nonneg | apply round_binary64]; assumption.
Qed.

Lemma filing_fedIncomeTax_taxok s :
  isFinite (taxableIncome (computeAndRenderTaxes s)) = true ->
  taxok (fedIncomeTax (computeAndRenderTaxes s)).
Proof.
  intros H. rewrite filing_fedIncomeTax.
  apply computeTaxFromBrackets_taxok;
    [apply fed_brackets_wellFormed | assumption | apply filing_taxableIncome_binary64].
Qed.

(** On the state the wizard hands to the engine, the checks that
    recompute the wizard's own arithmetic pass: when the taxable income,
    the AGI and the federal result are finite and no credit is applied,
    the rules tc-01 (AGI), tc-04 (total tax), tc-05 (refund or balance)
    and ma-04 (sum of the withholdings) all return 'pass'. *)
Theorem rules_accept_wizard_filing :
  forall (toLocaleString : number -> string) (documents : list Document) (s : Session),
    let f := computeAndRenderTaxes s in
    let state := rulesState documents s in
    isFinite (taxableIncome f) = true ->
    isFinite (agi f) = true ->
    isFinite (fedResult f) = true ->
    totalCredits f = js 0 ->
    statusOf (check (rule_tc_01 toLocaleString) state) = Some pass
    /\ statusOf (check (rule_tc_04 toLocaleString) state) = Some pass
    /\ statusOf (check (rule_tc_05 toLocaleString) state) = Some pass
    /\ statusOf (check (rule_ma_04 toLocaleString) state) = Some pass.
Proof.
  intros tl documents s f state Htax Hagi Hres Hcred.
  assert (H5 : nonneg (js 5)) by (vm_compute; reflexivity).
  assert (H1 : nonneg (js 1)) by (vm_compute; reflexivity).
  pose proof (filing_fedIncomeTax_taxok s Htax) as [Hfit1 Hfit2]. fold f in Hfit1, Hfit2.
  pose proof (filing_fedResult s) as Eres. fold f in Eres.
  pose proof (filing_totalFedTax s) as Etax. fold f in Etax.
  pose proof (filing_agi s) as Eagi. fold f in Eagi.
  pose proof Hres as Hres'.
  rewrite Eres in Hres'. apply sub_finite_inv in Hres' as [Hw Ht].
  rewrite Hcred in Etax. change (js 0) with (Fin 0) in Etax.
  rewrite (sub_0_r _ Hfit2) in Etax. change (Fin 0) with (js 0) in Etax.
  rewrite (max_zero_nonneg _ Hfit1) in Etax.
  assert (Hadj : adjustments f <> NaN).
  { intros E. rewrite Eagi, E, sub_NaN_r in Hagi. discriminate. }
  assert (Hse : seTax f <> NaN).
  { intros E. rewrite Etax, E, add_NaN_r in Ht. discriminate. }
  assert (Hfit : fedIncomeTax f <> NaN) by (apply (le_not_NaN_r _ _ Hfit1)).
  split; [|split; [|split]].
  - unfold state, rulesState. cbn [check rule_tc_01 filing statusOf status]. fold f.
    rewrite (sub_eqv _ (totalIncome f) _ (adjustments f) (eqv_refl _) (or_else_zero _ Hadj)).
    rewrite <- Eagi, (approxEqual_self _ _ H1), Hagi. reflexivity.
  - unfold state, rulesState. cbn [check rule_tc_04 filing statusOf status]. fold f.
    rewrite (approxEqual_eqv _ (totalFedTax f) _ (totalFedTax f) (js 5)).
    + rewrite (approxEqual_self _ _ H5), Ht. reflexivity.
    + apply or_else_zero, isFinite_not_NaN, Ht.
    + rewrite Etax.
      rewrite (add_eqv _ (fedIncomeTax f) _ (seTax f)
                 (or_else_zero _ Hfit) (or_else_zero _ Hse)).
      apply eqv_refl.
  - unfold state, rulesState. cbn [check rule_tc_05 filing statusOf status]. fold f.
    rewrite (approxEqual_eqv _ (fedResult f) _ (fedResult f) (js 1)).
    + rewrite (approxEqual_self _ _ H1), Hres. reflexivity.
    + apply or_else_zero, isFinite_not_NaN, Hres.
    + rewrite Eres.
      rewrite (sub_eqv _ (totalFedWithheld f) _ (totalFedTax f)
                 (or_else_zero _ (isFinite_not_NaN _ Hw))
                 (or_else_zero _ (isFinite_not_NaN _ Ht))).
      apply eqv_refl.
  - unfold state, rulesState.
    cbn [check rule_ma_04 filing st_incomes propertyOf statusOf status]. fold f.
    rewrite <- filing_totalFedWithheld. fold f.
    rewrite (approxEqual_self _ _ H1), Hw. reflexivity.
Qed.

Lemma rules_accept_wizard_filing_witness :
  statusOf (check (rule_tc_01 (fun _ => "")) (rulesState [] singleW2Session)) = Some pass
  /\ statusOf (check (rule_tc_04 (fun _ => "")) (rulesState [] singleW2Session)) = Some pass
  /\ statusOf (check (rule_tc_05 (fun _ => "")) (rulesState [] singleW2Session)) = Some pass
  /\ statusOf (check (rule_ma_04 (fun _ => "")) (rulesState [] singleW2Session)) = Some pass.
Proof.
  assert (H1 : isFinite (taxableIncome (computeAndRenderTaxes singleW2Session)) = true)
    by (vm_compute; reflexivity).
  assert (H2 : isFinite (agi (computeAndRenderTaxes singleW2Session)) = true)
    by (vm_compute; reflexivity).
  assert (H3 : isFinite (fedResult (computeAndRenderTaxes singleW2Session)) = true)
    by (vm_compute; reflexivity).
  assert (H4 : totalCredits (computeAndRenderTaxes singleW2Session) = js 0)
    by (vm_compute; reflexivity).
  exact (rules_accept_wizard_filing (fun _ => "") [] singleW2Session H1 H2 H3 H4).
Defined.

(** The self-employment tax of the wizard is never negative. *)
Lemma selfEmploymentTax_resolved year nec :
  selfEmploymentTax (federalYear year) nec
  = if gtb nec (js 0) then round (mul (mul nec (js 0.9235)) (js 0.153)) else js 0.
Proof. unfold selfEmploymentTax. rewrite seTaxRate_resolved. reflexivity. Qed.

Lemma js_09235 : exists c, js 0.9235 = Fin c /\ (0 < c)%Q.
Proof. eexists. split; [vm_compute; reflexivity | reflexivity]. Qed.

Lemma js_0153 : exists c, js 0.153 = Fin c /\ (0 < c)%Q.
Proof. eexists. split; [vm_compute; reflexivity | reflexivity]. Qed.

Lemma selfEmploymentTax_nonneg year nec :
  nonneg (selfEmploymentTax (federalYear year) nec).
Proof.
  rewrite selfEmploymentTax_resolved.
  destruct (gtb nec (js 0)) eqn:E; [|reflexivity].
  destruct js_09235 as (c1 & -> & H1). destruct js_0153 as (c2 & -> & H2).
  apply round_nonneg, mul_nonneg_r, mul_nonneg_r, gtb_zero_nonneg; assumption.
Qed.

Lemma filing_seTax_year s :
  seTax (computeAndRenderTaxes s)
  = selfEmploymentTax (federalYear (taxYear s)) (totalNEC (computeAndRenderTaxes s)).
Proof. reflexivity. Qed.

(** Rule tc-03 on the wizard's state.  The rule recomputes the
    self-employment tax without the wizard's guard [totalNEC > 0]: for a
    non-negative total of 1099-NEC compensation it is skipped (total 0)
    or passes (finite tax); for a total of -40 or less the wizard charges
    0, the rule expects a negative tax, and the check fails. *)
Theorem tc03_on_wizard_filing :
  forall (toLocaleString : number -> string) (documents : list Document) (s : Session),
    let f := computeAndRenderTaxes s in
    let verdict := statusOf (check (rule_tc_03 toLocaleString) (rulesState documents s)) in
    (le (js 0) (totalNEC f) -> isFinite (seTax f) = true ->
     verdict = Some (if eqb (totalNEC f) (js 0) then skip else pass))
    /\ (le (totalNEC f) (js (-40)) -> verdict = Some fail).
Proof.
  intros tl documents s f verdict.
  assert (H5 : nonneg (js 5)) by (vm_compute; reflexivity).
  pose proof (filing_seTax_year s) as Ese. fold f in Ese.
  rewrite selfEmploymentTax_resolved in Ese.
  unfold verdict, rulesState.
  cbn [check rule_tc_03 filing st_incomes propertyOf].
  rewrite <- filing_totalNEC. fold f.
  split.
  - intros Hnec Hfin.
    destruct (eqb (totalNEC f) (js 0)) eqn:E0; [reflexivity|].
    pose proof (pos_of_nonneg_nonzero _ Hnec E0) as Hgt.
    rewrite Hgt in Ese. cbn [statusOf status]. unfold SE_TAX_RATE. rewrite <- Ese.
    rewrite (approxEqual_eqv _ (seTax f) _ (seTax f) (js 5)
               (or_else_zero _ (isFinite_not_NaN _ Hfin)) (eqv_refl _)).
    rewrite (approxEqual_self _ _ H5), Hfin. reflexivity.
  - intros Hneg.
    assert (E40 : js (-40) = Fin (-40)) by (vm_compute; reflexivity).
    rewrite E40 in Hneg.
    destruct (negative_not_pos (totalNEC f) (-40) eq_refl Hneg) as [Hgt E0].
    rewrite Hgt in Ese. rewrite E0, Ese. cbn [statusOf status].
    change (or_else (Some (js 0)) (js 0)) with (js 0).
    rewrite approxEqual_zero_far; [reflexivity|].
    destruct js_09235 as (c1 & E1 & H1). destruct js_0153 as (c2 & E2 & H2).
    assert (Hb : round (mul (mul (Fin (-40)) (js 0.9235)) SE_TAX_RATE) = js (-6))
      by (vm_compute; reflexivity).
    rewrite <- Hb. unfold SE_TAX_RATE. rewrite E1, E2.
    apply round_mono, mul_mono_r, mul_mono_r; assumption.
Qed.

Lemma tc03_on_wizard_filing_witness :
  statusOf (check (rule_tc_03 (fun _ => "")) (rulesState [] freelancerSession)) = Some pass
  /\ statusOf (check (rule_tc_03 (fun _ => "")) (rulesState [] negativeNecSession))
     = Some fail.
Proof.
  split.
  - assert (H1 : le (js 0) (totalNEC (computeAndRenderTaxes freelancerSession)))
      by (vm_compute; reflexivity).
    assert (H2 : isFinite (seTax (computeAndRenderTaxes freelancerSession)) = true)
      by (vm_compute; reflexivity).
    exact (proj1 (tc03_on_wizard_filing (fun _ => "") [] freelancerSession) H1 H2).
  - assert (H1 : le (totalNEC (computeAndRenderTaxes negativeNecSession)) (js (-40)))
      by (vm_compute; reflexivity).
    exact (proj2 (tc03_on_wizard_filing (fun _ => "") [] negativeNecSession) H1).
Defined.

(** Rule tc-04 ignores the credits.  It expects the total tax to be
    income tax plus self-employment tax, while the wizard subtracts the
    credits first: whenever the credits and the income tax are both at
    least 6 (and the amounts are below 10^15), the check fails on the
    wizard's own filing. *)
Theorem tc04_rejects_credits :
  forall (toLocaleString : number -> string) (documents : list Document) (s : Session),
    let f := computeAndRenderTaxes s in
    isFinite (taxableIncome f) = true ->
    le (js 6) (totalCredits f) ->
    le (js 6) (fedIncomeTax f) ->
    le (fedIncomeTax f) (js 1000000000000000) ->
    le (seTax f) (js 1000000000000000) ->
    statusOf (check (rule_tc_04 toLocaleString) (rulesState documents s)) = Some fail.
Proof.
  intros tl documents s f Htax Hc Hf Hfb Hsb.
  assert (E6 : js 6 = Fin 6) by (vm_compute; reflexivity).
  assert (EB : js 1000000000000000 = Fin (inject_Z (10 ^ 15))) by (vm_compute; reflexivity).
  rewrite E6 in Hc, Hf. rewrite EB in Hfb, Hsb. clear E6 EB.
  unfold rulesState. cbn [check rule_tc_04 filing statusOf status]. fold f.
  pose proof (filing_totalFedTax s) as Etax. fold f in Etax.
  pose proof (filing_fedIncomeTax s) as Efit. fold f in Efit.
  pose proof (filing_seTax_year s) as Ese. fold f in Ese.
  pose proof (filing_taxableIncome_binary64 s) as Hb. fold f in Hb.
  pose proof (fed_brackets_wellFormed (taxYear s) (getStateId s) (filingStatus s)) as Hwf.
  fold (constantsOf s) in Hwf.
  rewrite selfEmploymentTax_resolved in Ese.
  generalize dependent (fed_brackets (fed (constantsOf s))). intros brackets Efit Hwf.
  clearbody f.
  destruct f as [f1 f2 nec f4 f5 f6 f7 f8 f9 f10 f11 f12 f13 taxable fit se credits
                 f18 total f20 f21 f22 f23 f24 f25 f26].
  cbn [taxableIncome totalCredits fedIncomeTax seTax totalFedTax totalNEC] in *.
  clear f1 f2 f4 f5 f6 f7 f8 f9 f10 f11 f12 f13 f18 f20 f21 f22 f23 f24 f25 f26.
  (* the income tax is an integer n with 6 <= n <= 10^15 *)
  assert (Hn : exists n, fit = Fin (inject_Z n) /\ (6 <= n <= 10 ^ 15)%Z).
  { unfold computeTaxFromBrackets in Efit.
    assert (Hx : nonneg (bracketLoop (js 0) taxable brackets)).
    { destruct taxable as [| | |q]; try discriminate.
      assert (Hz : taxok (js 0)) by (split; reflexivity).
      apply (bracketLoop_inv _ Hwf (js 0) q Hz Hb). }
    destruct (round_integral _ Hx) as [Ei|(n & Hn0 & En)]; rewrite <- Efit in *.
    - rewrite Ei in Hfb. discriminate Hfb.
    - exists n. split; [assumption|]. rewrite En in Hf, Hfb.
      apply le_Fin in Hf, Hfb. change 6%Q with (inject_Z 6) in Hf.
      rewrite <- Zle_Qle in Hf, Hfb. lia. }
  (* the self-employment tax is an integer m with 0 <= m <= 10^15 *)
  assert (Hm : exists m, se = Fin (inject_Z m) /\ (0 <= m <= 10 ^ 15)%Z).
  { destruct (gtb nec (js 0)) eqn:G.
    - destruct js_09235 as (c1 & E1 & H1). destruct js_0153 as (c2 & E2 & H2).
      rewrite E1, E2 in Ese.
      assert (Hx : nonneg (mul (mul nec (Fin c1)) (Fin c2)))
        by (apply mul_nonneg_r, mul_nonneg_r, gtb_zero_nonneg; assumption).
      destruct (round_integral _ Hx) as [Ei|(m & Hm0 & Em)]; rewrite <- Ese in *.
      + rewrite Ei in Hsb. discriminate Hsb.
      + exists m. split; [assumption|]. rewrite Em in Hsb.
        apply le_Fin in Hsb. rewrite <- Zle_Qle in Hsb. lia.
    - exists 0%Z. split; [exact Ese | lia]. }
  clear Efit Ese Hb Hwf Htax.
  destruct Hn as (n & -> & Hn). destruct Hm as (m & -> & Hm).
  change (10 ^ 15)%Z with 1000000000000000%Z in Hn, Hm.
  assert (H53 : (2 ^ 53 = 9007199254740992)%Z) by reflexivity.
  assert (Hcn : nonneg credits).
  { apply (le_trans (Fin 0) (Fin 6)); [reflexivity | assumption]. }
  (* the tax after credits is at most n - 6 *)
  assert (Ha : exists a, max (js 0) (sub (Fin (inject_Z n)) credits) = Fin a
                         /\ (0 <= a <= inject_Z (n - 6))%Q).
  { apply max_zero_bound.
    - apply sub_not_NaN_Fin; [apply (le_not_NaN_r _ _ Hc) | assumption].
    - assert (Hs : le (sub (Fin (inject_Z n)) credits) (sub (Fin (inject_Z n)) (Fin 6))).
      { destruct credits as [| | |c]; try discriminate Hc.
        - rewrite sub_Fin. change (sub (Fin (inject_Z n)) PInf) with NInf.
          destruct (RN (inject_Z n - 6)) eqn:E; try reflexivity.
          exfalso. apply (RN_not_NaN _ E).
        - rewrite !sub_Fin. apply RN_mono. apply le_Fin in Hc. lra. }
      rewrite sub_Fin in Hs.
      rewrite (RN_proper _ (inject_Z (n - 6))) in Hs.
      2:{ unfold Zminus. rewrite inject_Z_plus, inject_Z_opp. reflexivity. }
      rewrite RN_int in Hs; [exact Hs | lia].
    - change 0%Q with (inject_Z 0). rewrite <- Zle_Qle. lia. }
  destruct Ha as (a & Ea & Ha).
  rewrite Ea in Etax. cbn [add] in Etax.
  (* the total tax is at most n + m - 6 *)
  assert (Ht : exists T, total = Fin T /\ (T <= inject_Z (n + m - 6))%Q).
  { assert (Hs : le (RN (a + inject_Z m)) (RN (inject_Z (n + m - 6)))).
    { apply RN_mono. unfold Zminus in *. rewrite !inject_Z_plus, inject_Z_opp in *. lra. }
    rewrite RN_int in Hs by lia.
    assert (Hp : nonneg (RN (a + inject_Z m))).
    { apply RN_nonneg. assert (0 <= inject_Z m)%Q
        by (change 0%Q with (inject_Z 0); rewrite <- Zle_Qle; lia). lra. }
    rewrite <- Etax in Hs, Hp.
    destruct (nonneg_cases _ Hp) as [E|(T & E & _)]; rewrite E in Hs;
      [discriminate Hs|].
    exists T. split; [assumption | apply le_Fin; assumption]. }
  destruct Ht as (T & -> & HT).
  rewrite (approxEqual_eqv _ (Fin T) _ (Fin (inject_Z (n + m))) (js 5)).
  - rewrite approxEqual_far; [reflexivity|].
    unfold Zminus in HT. rewrite !inject_Z_plus, inject_Z_opp in *.
    change (inject_Z 6) with 6%Q in HT. lra.
  - apply or_else_zero. discriminate.
  - rewrite (add_eqv _ (Fin (inject_Z n)) _ (Fin (inject_Z m))).
    + cbn [add]. rewrite <- inject_Z_plus, RN_int by lia. apply eqv_refl.
    + apply or_else_zero. discriminate.
    + apply or_else_zero. discriminate.
Qed.

Lemma tc04_rejects_credits_witness :
  totalCredits (computeAndRenderTaxes parentSession) = js 2000
  /\ statusOf (check (rule_tc_04 (fun _ => "")) (rulesState [] parentSession)) = Some fail.
Proof.
  split; [vm_compute; reflexivity|].
  assert (H1 : isFinite (taxableIncome (computeAndRenderTaxes parentSession)) = true)
    by (vm_compute; reflexivity).
  assert (H2 : le (js 6) (totalCredits (computeAndRenderTaxes parentSession)))
    by (vm_compute; reflexivity).
  assert (H3 : le (js 6) (fedIncomeTax (computeAndRenderTaxes parentSession)))
    by (vm_compute; reflexivity).
  assert (H4 : le (fedIncomeTax (computeAndRenderTaxes parentSession))
                  (js 1000000000000000))
    by (vm_compute; reflexivity).
  assert (H5 : le (seTax (computeAndRenderTaxes parentSession)) (js 1000000000000000))
    by (vm_compute; reflexivity).
  exact (tc04_rejects_credits (fun _ => "") [] parentSession H1 H2 H3 H4 H5).
Defined.

Lemma filing_totalStateWithheld s :
  totalStateWithheld (computeAndRenderTaxes s) = stateWithheldOf (incomes s).
Proof. reflexivity. Qed.

Lemma filing_ca_none s :
  getStateId s <> Some california -> ca (computeAndRenderTaxes s) = None.
Proof.
  intros H. rewrite ca_computeAndRenderTaxes.
  destruct (getStateId s) as [[|]|]; [congruence | reflexivity | reflexivity].
Qed.

Lemma filing_ca_result s caf :
  ca (computeAndRenderTaxes s) = Some caf ->
  caResult caf = sub (totalStateWithheld (computeAndRenderTaxes s)) (caTax caf).
Proof.
  intros H. rewrite ca_computeAndRenderTaxes in H.
  destruct (getStateId s) as [[|]|]; try discriminate H.
  destruct (state (getTaxConstants (taxYear s) (Some california)
                     (Some (filingStatus s)))) as [[sc|sc]|]; try discriminate H.
  injection H as <-. reflexivity.
Qed.

(** Rule ca-05 on the wizard's state.  The engine of the wizard runs
    every rule, whatever the state of residence.  When the California
    pass ran and its result is finite the check passes; when it did not
    run (any other state) the rule compares the state withholding with a
    result of 0, so it fails as soon as more than 1 of state tax was
    withheld. *)
Theorem ca05_on_wizard_filing :
  forall (toLocaleString : number -> string) (documents : list Document) (s : Session),
    let f := computeAndRenderTaxes s in
    let verdict := statusOf (check (rule_ca_05 toLocaleString) (rulesState documents s)) in
    (forall caf, ca f = Some caf -> isFinite (caResult caf) = true -> verdict = Some pass)
    /\ (getStateId s <> Some california ->
        ltb (js 1) (totalStateWithheld f) = true -> verdict = Some fail).
Proof.
  intros tl documents s f verdict.
  assert (H1 : nonneg (js 1)) by (vm_compute; reflexivity).
  unfold verdict, rulesState.
  cbn [check rule_ca_05 filing st_incomes propertyOf statusOf status].
  rewrite <- filing_totalStateWithheld. fold f.
  split.
  - intros caf Hca Hfin. rewrite Hca. cbn [option_map].
    pose proof (filing_ca_result s caf Hca) as E. fold f in E.
    pose proof Hfin as Hfin'. rewrite E in Hfin'.
    apply sub_finite_inv in Hfin' as [_ Ht].
    rewrite (approxEqual_eqv _ (caResult caf) _ (caResult caf) (js 1)).
    + rewrite (approxEqual_self _ _ H1), Hfin. reflexivity.
    + apply or_else_zero, isFinite_not_NaN, Hfin.
    + rewrite E.
      rewrite (sub_eqv _ (totalStateWithheld f) _ (caTax caf) (eqv_refl _)
                 (or_else_zero _ (isFinite_not_NaN _ Ht))).
      apply eqv_refl.
  - intros Hst Hw. pose proof (filing_ca_none s Hst) as Hn. fold f in Hn.
    rewrite Hn. cbn [option_map or_else].
    rewrite approxEqual_zero_above; [reflexivity | | assumption].
    unfold f. rewrite filing_totalStateWithheld. apply sumOf_binary64.
Qed.

Lemma ca05_on_wizard_filing_witness :
  statusOf (check (rule_ca_05 (fun _ => "")) (rulesState [] californiaW2Session))
  = Some pass
  /\ statusOf (check (rule_ca_05 (fun _ => "")) (rulesState [] newYorkW2Session))
     = Some fail.
Proof.
  split.
  - destruct (ca (computeAndRenderTaxes californiaW2Session)) as [caf|] eqn:E.
    + assert (H : isFinite (caResult caf) = true).
      { vm_compute in E. injection E as <-. reflexivity. }
      exact (proj1 (ca05_on_wizard_filing (fun _ => "") [] californiaW2Session)
                   caf E H).
    + vm_compute in E. discriminate E.
  - assert (H1 : getStateId newYorkW2Session <> Some california)
      by (vm_compute; discriminate).
    assert (H2 : ltb (js 1) (totalStateWithheld (computeAndRenderTaxes newYorkW2Session))
                 = true) by (vm_compute; reflexivity).
    exact (proj2 (ca05_on_wizard_filing (fun _ => "") [] newYorkW2Session) H1 H2).
Defined.

Lemma filing_taxableIncome_floor s :
  taxableIncome (computeAndRenderTaxes s) = NaN
  \/ nonneg (taxableIncome (computeAndRenderTaxes s)).
Proof.
  change (taxableIncome (computeAndRenderTaxes s))
    with (max (js 0)
            (sub (sub (sub (agi (computeAndRenderTaxes s))
                           (deduction (computeAndRenderTaxes s)))
                      (homeOfficeDeduction (computeAndRenderTaxes s)))
                 (mileageDeduction (computeAndRenderTaxes s)))).
  apply max_zero_floor.
Qed.

Lemma filing_totalFedTax_floor s :
  totalFedTax (computeAndRenderTaxes s) = NaN
  \/ nonneg (totalFedTax (computeAndRenderTaxes s)).
Proof.
  rewrite filing_totalFedTax. apply add_NaN_or_nonneg; [apply max_zero_floor|].
  rewrite filing_seTax_year. apply selfEmploymentTax_nonneg.
Qed.

(** Rule ma-02 on the wizard's state: the taxable income and the total
    federal tax of the wizard are never negative, so the check fails
    exactly when the total income, the AGI or the total withholding is
    negative. *)
Theorem ma02_on_wizard_filing :
  forall (documents : list Document) (s : Session),
    let f := computeAndRenderTaxes s in
    statusOf (check rule_ma_02 (rulesState documents s))
    = Some (if ltb (totalIncome f) (js 0) || ltb (agi f) (js 0)
               || ltb (totalFedWithheld f) (js 0)
            then fail else pass).
Proof.
  intros documents s f.
  pose proof (not_negative _ (filing_taxableIncome_floor s)) as H1.
  pose proof (not_negative _ (filing_totalFedTax_floor s)) as H2.
  fold f in H1, H2.
  unfold rulesState. cbn [check rule_ma_02 filing statusOf status List.filter]. fold f.
  rewrite H1, H2.
  destruct (ltb (totalIncome f) (js 0)), (ltb (agi f) (js 0)),
    (ltb (totalFedWithheld f) (js 0)); reflexivity.
Qed.

Lemma cond_add_nonneg (b : bool) adj x :
  nonneg adj -> nonneg x -> nonneg (if b then add adj x else adj).
Proof. intros Ha Hx. destruct b; [apply add_nonneg|]; assumption. Qed.

Lemma limits_nonneg year :
  let fy := federalYear year in
  nonneg (or_else (Some (Fed.contrib401kLimit fy)) (js 23500))
  /\ nonneg (or_else (Some (Fed.contribIRALimit fy)) (js 7000))
  /\ nonneg (or_else (Some (Fed.contribHSASelf fy)) (js 4300))
  /\ nonneg (or_else (Some (Fed.studentLoanMax fy)) (js 2500))
  /\ nonneg (or_else (Some (Fed.educatorExpense fy)) (js 300)).
Proof.
  cbv zeta. destruct (federalYear_cases year) as [E|[E|E]]; rewrite E;
    vm_compute; repeat split; reflexivity.
Qed.

Lemma js_05 : exists c, js 0.5 = Fin c /\ (0 < c)%Q.
Proof. eexists. split; [vm_compute; reflexivity | reflexivity]. Qed.

(** With no negative manual entry the adjustments are not negative. *)
Lemma filing_adjustments_nonneg s :
  (forall key v, manualEntries s !! key = Some v -> nonneg v) ->
  nonneg (adjustments (computeAndRenderTaxes s)).
Proof.
  intros Hm.
  assert (Hz : nonneg (js 0)) by reflexivity.
  destruct (limits_nonneg (taxYear s)) as (L1 & L2 & L3 & L4 & L5).
  unfold computeAndRenderTaxes. cbn [adjustments].
  change (fedYear (fed (getTaxConstants (taxYear s) (getStateId s)
                          (Some (filingStatus s)))))
    with (federalYear (taxYear s)).
  repeat apply cond_add_nonneg;
    try (apply min_nonneg; [apply or_else_nonneg; [apply Hm | exact Hz] | assumption]);
    try (apply or_else_nonneg; [apply Hm | exact Hz]);
    try assumption.
  unfold selfEmploymentDeduction. destruct js_05 as (c & -> & Hc).
  apply floor_nonneg, mul_nonneg_r; [assumption|].
  apply selfEmploymentTax_nonneg.
Qed.

Lemma filing_totalIncome_binary64 s : binary64 (totalIncome (computeAndRenderTaxes s)).
Proof.
  unfold computeAndRenderTaxes. cbn [totalIncome]. apply add_binary64.
Qed.

(** Rule ma-05 on the wizard's state: when no manual entry is negative
    and the total income is finite, the AGI does not exceed the total
    income and the check passes. *)
Theorem ma05_on_wizard_filing :
  forall (toLocaleString : number -> string) (documents : list Document) (s : Session),
    let f := computeAndRenderTaxes s in
    (forall key v, manualEntries s !! key = Some v -> nonneg v) ->
    isFinite (totalIncome f) = true ->
    le (agi f) (totalIncome f)
    /\ statusOf (check (rule_ma_05 toLocaleString) (rulesState documents s)) = Some pass.
Proof.
  intros tl documents s f Hm Hfin.
  pose proof (filing_adjustments_nonneg s Hm) as Hadj. fold f in Hadj.
  pose proof (filing_totalIncome_binary64 s) as Hb. fold f in Hb.
  pose proof (filing_agi s) as Eagi. fold f in Eagi.
  assert (Hle : le (agi f) (totalIncome f)).
  { rewrite Eagi. generalize dependent (totalIncome f). intros t Hfin Hb _.
    destruct t as [| | |t]; try discriminate Hfin.
    apply sub_le_self; assumption. }
  split; [assumption|].
  unfold rulesState. cbn [check rule_ma_05 filing statusOf status]. fold f.
  unfold le in Hle. rewrite Hle. reflexivity.
Qed.

Lemma ma05_on_wizard_filing_witness :
  le (agi (computeAndRenderTaxes homeOwnerSession))
     (totalIncome (computeAndRenderTaxes homeOwnerSession))
  /\ statusOf (check (rule_ma_05 (fun _ => "")) (rulesState [] homeOwnerSession))
     = Some pass.
Proof.
  assert (H1 : forall key v,
             manualEntries homeOwnerSession !! key = Some v -> nonneg v).
  { intros key v. unfold homeOwnerSession, withManualEntries. cbn [manualEntries].
    intros H. apply lookup_insert_Some in H as [[_ <-]|[_ H]];
      [vm_compute; reflexivity|].
    apply lookup_insert_Some in H as [[_ <-]|[_ H]]; [vm_compute; reflexivity|].
    rewrite lookup_empty in H. discriminate H. }
  assert (H2 : isFinite (totalIncome (computeAndRenderTaxes homeOwnerSession)) = true)
    by (vm_compute; reflexivity).
  exact (ma05_on_wizard_filing (fun _ => "") [] homeOwnerSession H1 H2).
Defined.

Lemma fed_table_2025 s :
  taxYear s <> 2023%Z -> taxYear s <> 2024%Z ->
  filingStatus s = single \/ filingStatus s = qss ->
  fed_brackets (fed (constantsOf s)) = FED_BRACKETS.
Proof.
  intros Hy1 Hy2 Hfs. unfold constantsOf.
  rewrite fed_brackets_resolved, federalYear_spec.
  destruct (Z.eqb_spec (taxYear s) 2023) as [E|_]; [contradiction|].
  destruct (Z.eqb_spec (taxYear s) 2024) as [E|_]; [contradiction|].
  apply FED_BRACKETS_2025. assumption.
Qed.

(** Rule tc-02 on any filing whose income tax is the bracket tax of the
    table [FED_BRACKETS]. *)
Lemma tc02_status tl (state : State) (f : Filing) :
  filing state = Some f ->
  fedIncomeTax f = computeTaxFromBrackets (taxableIncome f) FED_BRACKETS ->
  isFinite (fedIncomeTax f) = true ->
  statusOf (check (rule_tc_02 tl) state)
  = Some (if truthy (taxableIncome f) then pass else skip).
Proof.
  intros Hf Efit Hfin.
  assert (H5 : nonneg (js 5)) by (vm_compute; reflexivity).
  cbn [check rule_tc_02]. rewrite Hf.
  destruct (truthy (taxableIncome f)); cbn [negb statusOf status skipped]; [|reflexivity].
  unfold computeFedTax. unfold computeTaxFromBrackets in Efit. rewrite <- Efit.
  rewrite (approxEqual_eqv _ (fedIncomeTax f) _ (fedIncomeTax f) (js 5)
             (or_else_zero _ (isFinite_not_NaN _ Hfin)) (eqv_refl _)).
  rewrite (approxEqual_self _ _ H5), Hfin. reflexivity.
Qed.

(** Rule tc-02 on the wizard's state.  The rule recomputes the federal
    tax with the 2025 table of a single filer.  For a session that uses
    that table (a year other than 2023 and 2024, filing status single or
    qualifying surviving spouse) and has a finite income tax, the check
    is skipped when the taxable income is 0 or [NaN] and passes
    otherwise. *)
Theorem tc02_on_wizard_filing :
  forall (toLocaleString : number -> string) (documents : list Document) (s : Session),
    let f := computeAndRenderTaxes s in
    taxYear s <> 2023%Z -> taxYear s <> 2024%Z ->
    filingStatus s = single \/ filingStatus s = qss ->
    isFinite (fedIncomeTax f) = true ->
    statusOf (check (rule_tc_02 toLocaleString) (rulesState documents s))
    = Some (if truthy (taxableIncome f) then pass else skip).
Proof.
  intros tl documents s f Hy1 Hy2 Hfs Hfin.
  pose proof (filing_fedIncomeTax s) as Efit.
  rewrite (fed_table_2025 s Hy1 Hy2 Hfs) in Efit.
  exact (tc02_status tl (rulesState documents s) f eq_refl Efit Hfin).
Qed.

Lemma tc02_on_wizard_filing_witness :
  statusOf (check (rule_tc_02 (fun _ => "")) (rulesState [] singleW2Session)) = Some pass.
Proof.
  assert (H1 : taxYear singleW2Session <> 2023%Z) by (vm_compute; discriminate).
  assert (H2 : taxYear singleW2Session <> 2024%Z) by (vm_compute; discriminate).
  assert (H3 : filingStatus singleW2Session = single \/ filingStatus singleW2Session = qss)
    by (left; reflexivity).
  assert (H4 : isFinite (fedIncomeTax (computeAndRenderTaxes singleW2Session)) = true)
    by (vm_compute; reflexivity).
  exact (tc02_on_wizard_filing (fun _ => "") [] singleW2Session H1 H2 H3 H4).
Defined.

End WizardRulesFacts.

(* ================================================================== *)
(** * The summaries of the rules engine and the rules panel             *)
(* ================================================================== *)

Module SummaryFacts.
Import TaxData Wizard Rules WizardSteps CheckNotions Notions Scenarios.
Import JsNumberFacts ArithmeticFacts EngineFacts.

Lemma status_partition l :
  length l
  = (count (hasStatus pass) l + count (hasStatus fail) l
     + count (hasStatus warn) l + count (hasStatus skip) l)%nat.
Proof.
  induction l as [|r l IH]; [reflexivity|].
  rewrite !count_cons. cbn [length]. rewrite IH. unfold hasStatus.
  destruct (status (r_verdict r)); simpl; lia.
Qed.

Lemma skip_partition l :
  length l
  = (count (fun r => negb (hasStatus skip r)) l + count (hasStatus skip) l)%nat.
Proof.
  induction l as [|r l IH]; [reflexivity|].
  rewrite !count_cons. cbn [length]. rewrite IH.
  destruct (hasStatus skip r); simpl; lia.
Qed.

Lemma warn_evaluated l :
  (count (hasStatus warn) l <= count (fun r => negb (hasStatus skip r)) l)%nat.
Proof.
  induction l as [|r l IH]; [reflexivity|].
  rewrite !count_cons. unfold hasStatus at 1 3.
  destruct (status (r_verdict r)); simpl; lia.
Qed.

(** Results of two different types are counted apart. *)
Lemma types_disjoint (l : list Result) :
  (length (List.filter (hasType "compliance") l)
   + length (List.filter (hasType "savings") l) <= length l)%nat.
Proof.
  induction l as [|r l IH]; [reflexivity|].
  cbn [List.filter].
  destruct (hasType "compliance" r) eqn:E1, (hasType "savings" r) eqn:E2;
    cbn [length]; try lia.
  unfold hasType in E1, E2. apply String.eqb_eq in E1. rewrite E1 in E2.
  discriminate E2.
Qed.

Lemma types_cover (l : list Result) :
  forallb (fun r => hasType "compliance" r || hasType "savings" r) l = true ->
  length l
  = (length (List.filter (hasType "compliance") l)
     + length (List.filter (hasType "savings") l))%nat.
Proof.
  induction l as [|r l IH]; [reflexivity|].
  cbn [forallb List.filter]. intros H. apply andb_prop in H as [Hr Hl].
  specialize (IH Hl).
  destruct (hasType "compliance" r) eqn:E1, (hasType "savings" r) eqn:E2;
    cbn [length]; try lia; try discriminate Hr.
  unfold hasType in E1, E2. apply String.eqb_eq in E1. rewrite E1 in E2.
  discriminate E2.
Qed.

(** The invariants of the three summaries.  For every table, state and
    filter: each summary's total is the sum of its four status counts;
    the combined total is the number of applicable rules; the savings
    total is evaluated plus skipped, and the opportunities (warnings)
    are among the evaluated; and the compliance and savings totals
    together never exceed the combined total. *)
Theorem summary_invariants :
  forall (State : Type) (RULES : list (Rule State)) (state : State)
         (scenarioFilter : option string),
    let out := runRulesEngine RULES state scenarioFilter in
    let sums (x : Summary) := (passed x + failed x + warnings x + skipped x)%nat in
    total (summary out) = length (applicableRules RULES scenarioFilter)
    /\ total (summary out) = sums (summary out)
    /\ total (complianceSummary out) = sums (complianceSummary out)
    /\ sav_total (savingsSummary out)
       = (evaluated (savingsSummary out) + sav_skipped (savingsSummary out))%nat
    /\ (opportunities (savingsSummary out) <= evaluated (savingsSummary out))%nat
    /\ (total (complianceSummary out) + sav_total (savingsSummary out)
        <= total (summary out))%nat.
Proof.
  intros State RULES state scenarioFilter out sums.
  unfold out, runRulesEngine, sums, summarize.
  cbn [summary complianceSummary savingsSummary total passed failed warnings skipped
       sav_total evaluated opportunities sav_skipped].
  split; [apply List.length_map|].
  split; [apply status_partition|].
  split; [apply status_partition|].
  split; [apply skip_partition|].
  split; [apply warn_evaluated | apply types_disjoint].
Qed.

Lemma RULES_types checkOf :
  forallb (fun r : Rule State =>
             String.eqb (type r) "compliance" || String.eqb (type r) "savings")
          (RULES checkOf) = true.
Proof. vm_compute. reflexivity. Qed.

Lemma results_types {State : Type} (RULES : list (Rule State)) state scenarioFilter :
  forallb (fun r : Rule State =>
             String.eqb (type r) "compliance" || String.eqb (type r) "savings")
          RULES = true ->
  forallb (fun r => hasType "compliance" r || hasType "savings" r)
          (results (runRulesEngine RULES state scenarioFilter)) = true.
Proof.
  intros H. unfold runRulesEngine. cbn [results].
  rewrite forallb_forall in *. intros r Hr.
  apply List.in_map_iff in Hr as (rule & <- & Hin).
  rewrite applicableRules_filter in Hin. apply List.filter_In in Hin as [Hin _].
  apply (H rule Hin).
Qed.

(** The rules panel of the wizard.  Every rule of the table [RULES] is
    of type 'compliance' or 'savings', so the combined total is the
    compliance total plus the savings total; and the number the panel
    shows as skipped, [results.length - passed - failed - warnings] with
    the counts of the compliance summary, is the number of skipped
    compliance rules plus the number of all savings rules, whatever
    their status. *)
Theorem panel_skipped_counts_savings :
  forall (checkOf : string -> State -> Completion Verdict) (state : State)
         (scenarioFilter : option string),
    let out := runRulesEngine (RULES checkOf) state scenarioFilter in
    total (summary out)
    = (total (complianceSummary out) + sav_total (savingsSummary out))%nat
    /\ rp_skipped (panelCounts out)
       = (Z.of_nat (skipped (complianceSummary out))
          + Z.of_nat (sav_total (savingsSummary out)))%Z.
Proof.
  intros checkOf state scenarioFilter out.
  pose proof (types_cover _ (results_types (RULES checkOf) state scenarioFilter
                               (RULES_types checkOf))) as Hcover.
  fold out in Hcover.
  assert (Hc : total (complianceSummary out)
               = length (List.filter (hasType "compliance") (results out)))
    by reflexivity.
  assert (Hs : sav_total (savingsSummary out)
               = length (List.filter (hasType "savings") (results out)))
    by reflexivity.
  assert (Ht : total (summary out) = length (results out)) by reflexivity.
  assert (Hp : total (complianceSummary out)
               = (passed (complianceSummary out) + failed (complianceSummary out)
                  + warnings (complianceSummary out)
                  + skipped (complianceSummary out))%nat)
    by apply status_partition.
  split; [lia|].
  unfold panelCounts. cbn [rp_skipped]. lia.
Qed.

Local Open Scope Q_scope.

(** The score formula yields an integer between 0 and 100. *)
Lemma scoreFormula_range P W F :
  (Z.of_nat (P + W + F) < 2 ^ 32)%Z ->
  exists k, (0 <= k <= 100)%Z /\ scoreFormula P W F = Fin (inject_Z k).
Proof.
  intros Hlen. unfold scoreFormula.
  destruct (P + W + F =? 0)%nat eqn:E0.
  { exists 0%Z. split; [lia | reflexivity]. }
  apply Nat.eqb_neq in E0.
  set (n := Z.of_nat (P + W + F)) in *.
  assert (Hn : (1 <= n)%Z) by (unfold n; lia).
  assert (En : js (inject_Z n) = Fin (inject_Z n)).
  { apply RN_int. change (2 ^ 53)%Z with (2 ^ 32 * 2 ^ 21)%Z. lia. }
  rewrite En.
  set (p := inject_Z (Z.of_nat P) + inject_Z (Z.of_nat W) * 0.5).
  assert (Hp : 0 <= p <= inject_Z n).
  { unfold p, n. rewrite !Nat2Z.inj_add, !inject_Z_plus.
    assert (0 <= inject_Z (Z.of_nat P))
      by (change 0 with (inject_Z 0); rewrite <- Zle_Qle; lia).
    assert (0 <= inject_Z (Z.of_nat W))
      by (change 0 with (inject_Z 0); rewrite <- Zle_Qle; lia).
    assert (0 <= inject_Z (Z.of_nat F))
      by (change 0 with (inject_Z 0); rewrite <- Zle_Qle; lia).
    lra. }
  assert (Hx : exists x, js p = Fin x /\ 0 <= x <= inject_Z n).
  { assert (H1 : nonneg (js p)) by (apply RN_nonneg; lra).
    assert (H2 : le (js p) (js (inject_Z n))) by (apply RN_mono; lra).
    rewrite En in H2.
    destruct (nonneg_cases _ H1) as [E|(x & E & Hx0)]; rewrite E in H2;
      [discriminate H2|].
    exists x. split; [assumption|]. apply le_Fin in H2. lra. }
  destruct Hx as (x & -> & Hx).
  assert (Hnq : 0 < inject_Z n)
    by (change 0 with (inject_Z 0); rewrite <- Zlt_Qlt; lia).
  cbn [div]. rewrite (sgn_pos _ Hnq).
  assert (Hq : 0 <= x / inject_Z n <= 1).
  { split.
    - apply Qle_shift_div_l; [assumption | lra].
    - apply Qle_shift_div_r; [assumption | lra]. }
  assert (Hd : exists d, RN (x / inject_Z n) = Fin d /\ 0 <= d <= 1).
  { assert (H1 : nonneg (RN (x / inject_Z n))) by (apply RN_nonneg; lra).
    assert (H2 : le (RN (x / inject_Z n)) (RN 1)) by (apply RN_mono; lra).
    change (RN 1) with (Fin 1) in H2.
    destruct (nonneg_cases _ H1) as [E|(d & E & Hd0)]; rewrite E in H2;
      [discriminate H2|].
    exists d. split; [assumption|]. apply le_Fin in H2. lra. }
  destruct Hd as (d & -> & Hd).
  assert (E100 : js 100 = Fin 100) by (vm_compute; reflexivity).
  rewrite E100. cbn [mul].
  assert (Hm : exists m, RN (d * 100) = Fin m /\ 0 <= m <= 100).
  { assert (H1 : nonneg (RN (d * 100))) by (apply RN_nonneg; lra).
    assert (H2 : le (RN (d * 100)) (RN 100)) by (apply RN_mono; lra).
    change (RN 100) with (js 100) in H2. rewrite E100 in H2.
    destruct (nonneg_cases _ H1) as [E|(m & E & Hm0)]; rewrite E in H2;
      [discriminate H2|].
    exists m. split; [assumption|]. apply le_Fin in H2. lra. }
  destruct Hm as (m & -> & Hm).
  cbn [round]. exists (Qfloor (m + (1 # 2))). split; [|reflexivity].
  split.
  - rewrite <- (Qfloor_Z 0). apply Qfloor_resp_le. change (inject_Z 0) with 0. lra.
  - rewrite <- (Qfloor_int_half 100).
    apply Qfloor_resp_le. change (inject_Z 100) with 100. lra.
Qed.

Lemma scoreOf_range (l : list Result) :
  (Z.of_nat (length l) < 2 ^ 32)%Z ->
  exists k, (0 <= k <= 100)%Z /\ scoreOf l = Fin (inject_Z k).
Proof.
  intros Hlen. rewrite (scoreOf_counts l Hlen). unfold scoreByCounts.
  apply scoreFormula_range.
  pose proof (status_partition l). lia.
Qed.

(** The scores are whole percentages.  For every table (a JavaScript
    array, so shorter than 2^32), state and filter, the score of the
    combined summary and the score of the compliance summary are
    integers between 0 and 100. *)
Theorem score_range :
  forall (State : Type) (RULES : list (Rule State)) (state : State)
         (scenarioFilter : option string),
    (Z.of_nat (length RULES) < 2 ^ 32)%Z ->
    let out := runRulesEngine RULES state scenarioFilter in
    (exists k, (0 <= k <= 100)%Z /\ score (summary out) = Fin (inject_Z k))
    /\ (exists k, (0 <= k <= 100)%Z
                  /\ score (complianceSummary out) = Fin (inject_Z k)).
Proof.
  intros State RULES state scenarioFilter Hlen out.
  assert (Hres : (length (results out) <= length RULES)%nat).
  { unfold out, runRulesEngine. cbn [results]. rewrite List.length_map.
    rewrite applicableRules_filter. apply List.filter_length_le. }
  split.
  - apply (scoreOf_range (results out)). lia.
  - apply (scoreOf_range (List.filter (hasType "compliance") (results out))).
    pose proof (List.filter_length_le (hasType "compliance") (results out)). lia.
Qed.

Lemma score_range_witness :
  exists k, (0 <= k <= 100)%Z
            /\ score (summary (runRulesEngine twentyRules tt None)) = Fin (inject_Z k).
Proof.
  assert (H : (Z.of_nat (length twentyRules) < 2 ^ 32)%Z) by (vm_compute; reflexivity).
  exact (proj1 (score_range unit twentyRules tt None H)).
Defined.

End SummaryFacts.

(* ================================================================== *)
(** * The steps of the wizard                                           *)
(* ================================================================== *)

Module WizardStepFacts.
Import TaxData Wizard Rules GapAnalysis WizardSteps CheckNotions Notions Scenarios.
Import MoreScenarios.
Import JsNumberFacts ArithmeticFacts ConstantsFacts FilingFacts GapFacts.

Lemma updateCreditsView_fields s :
  taxYear (updateCreditsView s) = taxYear s
  /\ filingStatus (updateCreditsView s) = filingStatus s
  /\ stateOfResidence (updateCreditsView s) = stateOfResidence s
  /\ deductionType (updateCreditsView s) = deductionType s
  /\ itemized (updateCreditsView s) = itemized s
  /\ incomes (updateCreditsView s) = incomes s
  /\ manualEntries (updateCreditsView s) = manualEntries s.
Proof. repeat split; reflexivity. Qed.

(** Every year of data caps the SALT deduction at 10000, the cap
    [updateDeductionsView] hard-codes. *)
Lemma saltCap_resolved year :
  or_else (Some (Fed.saltCap (federalYear year))) (js 10000) = js 10000.
Proof.
  destruct (federalYear_cases year) as [E|[E|E]]; rewrite E; vm_compute; reflexivity.
Qed.

(** The resolved standard deduction is a finite amount. *)
Lemma fed_stdDeduction_finite year stateId fs :
  isFinite (fed_stdDeduction (fed (getTaxConstants year stateId (Some fs)))) = true.
Proof.
  change (fed_stdDeduction (fed (getTaxConstants year stateId (Some fs))))
    with (amount_or_single (Fed.standardDeduction (federalYear year)) fs).
  destruct (federalYear_cases year) as [E|[E|E]]; rewrite E; destruct fs;
    vm_compute; reflexivity.
Qed.

(** The deduction of a filing, by the session's deduction type. *)
Lemma filing_deduction s :
  deduction (computeAndRenderTaxes s)
  = if String.eqb (deductionType s) "itemized"
    then add (add (add (mortgage (itemized s))
                       (min (salt (itemized s))
                            (or_else (Some (Fed.saltCap (federalYear (taxYear s))))
                                     (js 10000))))
                  (charitable (itemized s)))
             (medical (itemized s))
    else standardDeduction (computeAndRenderTaxes s).
Proof.
  unfold computeAndRenderTaxes. cbn [deduction standardDeduction].
  destruct (String.eqb (deductionType s) "itemized"); reflexivity.
Qed.

Lemma filing_standardDeduction s :
  standardDeduction (computeAndRenderTaxes s)
  = fed_stdDeduction (fed (constantsOf s)).
Proof. reflexivity. Qed.

Lemma gtb_le x y : gtb x y = true -> le y x.
Proof.
  unfold gtb, le. destruct y as [| | |a], x as [| | |b]; cbn; try discriminate;
    try reflexivity.
  destruct (Qcompare_spec a b) as [H|H|H]; try discriminate. intros _.
  apply Qle_bool_iff. apply Qlt_le_weak. assumption.
Qed.

(** Step 5 followed by step 6.  After [updateDeductionsView] the filing
    computed by [computeAndRenderTaxes] deducts the itemized total when
    it is strictly greater than the standard deduction and the standard
    deduction otherwise, whatever deduction type the user had selected
    before; the amount deducted is therefore never below the standard
    deduction. *)
Theorem automatic_deduction :
  forall (mortgage_interest : Income -> option number) (s : Session),
    let s' := updateDeductionsView mortgage_interest s in
    let f := computeAndRenderTaxes s' in
    let itemTotal := itemizedTotal (prepopulated mortgage_interest s) in
    standardDeduction f = standardDeduction (computeAndRenderTaxes s)
    /\ deduction f
       = (if gtb itemTotal (standardDeduction f) then itemTotal
          else standardDeduction f)
    /\ le (standardDeduction f) (deduction f).
Proof.
  intros mi s s' f itemTotal.
  assert (Estd : standardDeduction f = standardDeduction (computeAndRenderTaxes s))
    by reflexivity.
  assert (Ety : deductionType s'
                = if gtb itemTotal (standardDeduction (computeAndRenderTaxes s))
                  then "itemized" else "standard") by reflexivity.
  assert (Eit : itemized s' = prepopulated mi s) by reflexivity.
  assert (Eyr : taxYear s' = taxYear s) by reflexivity.
  pose proof (filing_deduction s') as Ed. fold f in Ed.
  rewrite Ety, Eit, Eyr, saltCap_resolved in Ed.
  fold (itemizedTotal (prepopulated mi s)) in Ed. fold itemTotal in Ed.
  rewrite <- Estd in Ed.
  assert (Hfin : isFinite (standardDeduction f) = true).
  { rewrite Estd, filing_standardDeduction. apply fed_stdDeduction_finite. }
  clearbody f s' itemTotal.
  split; [assumption|].
  destruct (gtb itemTotal (standardDeduction f)) eqn:G.
  - change (String.eqb "itemized" "itemized") with true in Ed. cbn iota in Ed.
    split; [assumption|]. rewrite Ed. apply gtb_le. assumption.
  - change (String.eqb "standard" "itemized") with false in Ed. cbn iota in Ed.
    split; [assumption|]. rewrite Ed. apply le_refl. apply isFinite_not_NaN, Hfin.
Qed.

(** No condition of [GAP_RULES] reads the answers. *)
Lemma GAP_RULES_conditions s ident value :
  Forall (fun rule => condition rule (answerGap s ident value) = condition rule s)
         GAP_RULES.
Proof. unfold GAP_RULES. repeat constructor. Qed.

Lemma filter_filter_and {A : Type} (p q : A -> bool) (l : list A) :
  List.filter p (List.filter q l) = List.filter (fun x => q x && p x) l.
Proof.
  induction l as [|a l IH]; [reflexivity|].
  cbn [List.filter]. destruct (q a); cbn [List.filter andb]; rewrite IH; reflexivity.
Qed.

Lemma filter_ext_Forall {A : Type} (p q : A -> bool) (l : list A) :
  Forall (fun x => p x = q x) l -> List.filter p l = List.filter q l.
Proof.
  induction 1 as [|a l Ha Hl IH]; [reflexivity|].
  cbn [List.filter]. rewrite Ha, IH. reflexivity.
Qed.

(** Answering a gap question, with yes or with no, removes exactly that
    question from the questions of the session and leaves the others and
    their order unchanged. *)
Theorem answerGap_removes_question :
  forall (s : Session) (ident : string) (value : bool),
    getGapQuestions (answerGap s ident value)
    = List.filter (fun rule => negb (String.eqb (GapAnalysis.id rule) ident))
                  (getGapQuestions s).
Proof.
  intros s ident value.
  rewrite (getGapQuestions_table (answerGap s ident value)).
  rewrite (getGapQuestions_table s). unfold getGapQuestionsFrom.
  rewrite filter_filter_and. apply filter_ext_Forall.
  eapply List.Forall_impl; [|apply (GAP_RULES_conditions s ident value)].
  intros rule Hc. cbv beta in Hc. unfold keepRule. rewrite Hc.
  cbn [gapAnswers answerGap].
  destruct (String.eqb_spec (GapAnalysis.id rule) ident) as [->|Hne].
  - rewrite lookup_insert_eq. cbn [negb]. rewrite andb_false_r. reflexivity.
  - rewrite lookup_insert_ne by congruence. cbn [negb]. rewrite andb_true_r.
    reflexivity.
Qed.

Lemma goToStep_range mi n w :
  (1 <= currentStep w <= 8)%Z -> (1 <= currentStep (goToStep mi n w) <= 8)%Z.
Proof.
  intros H. unfold goToStep, TOTAL_STEPS.
  destruct (Z.ltb_spec n 1); [exact H|].
  destruct (Z.gtb_spec n 8); [exact H|]. cbn [orb].
  destruct (n =? 5)%Z; [cbn [currentStep]; lia|].
  destruct (n =? 6)%Z; cbn [currentStep]; lia.
Qed.

Lemma clicks_range mi clicks :
  forall w, (1 <= currentStep w <= 8)%Z ->
            (1 <= currentStep (fold_left (click mi) clicks w) <= 8)%Z.
Proof.
  induction clicks as [|c clicks IH]; intros w Hw; [exact Hw|].
  cbn [fold_left]. apply IH. destruct c as [n| |]; cbn [click].
  - apply goToStep_range, Hw.
  - apply goToStep_range, Hw.
  - apply goToStep_range, Hw.
Qed.

(** Navigation.  Whatever is clicked, in whatever order, the step shown
    stays between 1 and 8; a target out of range, Next on the last step
    and Previous on the first step change nothing at all; the session is
    modified only on entering step 5 and the filing only on entering
    step 6. *)
Theorem navigation_stays_in_range :
  forall (mortgage_interest : Income -> option number) (w : WizardState)
         (clicks : list Click),
    (1 <= currentStep w <= 8)%Z ->
    (1 <= currentStep (fold_left (click mortgage_interest) clicks w) <= 8)%Z
    /\ (forall n, (n < 1 \/ 8 < n)%Z -> goToStep mortgage_interest n w = w)
    /\ (currentStep w = 8%Z -> nextStep mortgage_interest w = w)
    /\ (currentStep w = 1%Z -> prevStep mortgage_interest w = w)
    /\ (forall n, n <> 5%Z -> session (goToStep mortgage_interest n w) = session w)
    /\ (forall n, n <> 6%Z -> ws_filing (goToStep mortgage_interest n w) = ws_filing w).
Proof.
  intros mi w clicks Hw.
  assert (Hout : forall n, (n < 1 \/ 8 < n)%Z -> goToStep mi n w = w).
  { intros n Hn. unfold goToStep, TOTAL_STEPS.
    destruct (Z.ltb_spec n 1); [reflexivity|].
    destruct (Z.gtb_spec n 8); [reflexivity | lia]. }
  split; [|split; [exact Hout|split; [|split; [|split]]]].
  - apply clicks_range, Hw.
  - intros E. unfold nextStep. apply Hout. lia.
  - intros E. unfold prevStep. apply Hout. lia.
  - intros n Hn. unfold goToStep.
    destruct ((n <? 1)%Z || (n >? TOTAL_STEPS)%Z); [reflexivity|].
    destruct (Z.eqb_spec n 5); [contradiction|].
    destruct (n =? 6)%Z; reflexivity.
  - intros n Hn. unfold goToStep.
    destruct ((n <? 1)%Z || (n >? TOTAL_STEPS)%Z); [reflexivity|].
    destruct (n =? 5)%Z; [reflexivity|].
    destruct (Z.eqb_spec n 6); [contradiction | reflexivity].
Qed.

Lemma navigation_stays_in_range_witness :
  (1 <= currentStep (fold_left (click (fun _ => None))
                               [next; next; goTo 9; previous; goTo 6; goTo 0]
                               initialWizard) <= 8)%Z.
Proof.
  assert (H : (1 <= currentStep initialWizard <= 8)%Z) by (cbn; lia).
  exact (proj1 (navigation_stays_in_range (fun _ => None) initialWizard
                  [next; next; goTo 9; previous; goTo 6; goTo 0] H)).
Defined.

(** The credits [updateCreditsView] stores are capped: the education
    credit is at most 2500, the childcare credit at most 1200 (20% of at
    most 6000 of expenses), and the vehicle credit is 0 or 7500. *)
Theorem stored_credits_capped :
  forall s : Session,
    exists education childcare ev,
      credits (updateCreditsView s) !! "education" = Some education
      /\ credits (updateCreditsView s) !! "childcare" = Some childcare
      /\ credits (updateCreditsView s) !! "ev" = Some ev
      /\ le education (js 2500)
      /\ le childcare (js 1200)
      /\ (ev = js 0 \/ ev = js 7500).
Proof.
  intros s. unfold updateCreditsView. cbn [credits].
  set (renter := if _ : bool then _ else Some (js 0)).
  assert (Hlook : forall (m : gmap string number) key,
             key <> "renter" ->
             match renter with Some r => <["renter" := r]> m | None => m end !! key
             = m !! key).
  { intros m key Hk. destruct renter; [|reflexivity].
    apply lookup_insert_ne. congruence. }
  eexists _, _, _.
  split; [rewrite Hlook by discriminate;
          rewrite lookup_insert_ne by discriminate; apply lookup_insert_eq|].
  split; [rewrite Hlook by discriminate;
          rewrite !lookup_insert_ne by discriminate; apply lookup_insert_eq|].
  split; [rewrite Hlook by discriminate;
          rewrite !lookup_insert_ne by discriminate; apply lookup_insert_eq|].
  assert (E2500 : js 2500 = Fin 2500) by (vm_compute; reflexivity).
  split; [|split].
  - destruct (answered_yes (gapAnswers s) "hasTuition"
              && truthy_opt (manualEntries s !! "tuitionPaid")) eqn:E;
      [|vm_compute; reflexivity].
    apply andb_prop in E as [_ E].
    destruct (manualEntries s !! "tuitionPaid") as [v|]; [|discriminate E].
    cbn [truthy_opt] in E. cbn [or_else]. rewrite E, E2500.
    destruct v as [| | |q]; try discriminate E; try reflexivity.
    unfold min. destruct (leb (Fin q) (Fin 2500)) eqn:L; [exact L | reflexivity].
  - destruct (truthy_opt (manualEntries s !! "childcareExpenses")) eqn:E;
      [|vm_compute; reflexivity].
    destruct (manualEntries s !! "childcareExpenses") as [v|]; [|discriminate E].
    cbn [truthy_opt] in E. cbn [or_else]. rewrite E.
    assert (E1200 : round (mul (js 6000) (js 0.20)) = js 1200) by (vm_compute; reflexivity).
    rewrite <- E1200.
    assert (E02 : exists c, js 0.20 = Fin c /\ (0 < c)%Q).
    { eexists. split; [vm_compute; reflexivity | reflexivity]. }
    destruct E02 as (c & -> & Hc).
    apply round_mono, mul_mono_r; [assumption|].
    assert (E6000 : js 6000 = Fin 6000) by (vm_compute; reflexivity).
    assert (E3000 : js 3000 = Fin 3000) by (vm_compute; reflexivity).
    rewrite E6000, E3000.
    destruct v as [| | |q]; try discriminate E;
      destruct (geb (childrenUnder17 s) (js 2)); try reflexivity;
      unfold min, le; cbn [leb];
      destruct (Qle_bool q _) eqn:L; try reflexivity;
      apply Qle_bool_iff in L; apply Qle_bool_iff; lra.
  - destruct (answered_yes (gapAnswers s) "hasEV"); [right | left]; reflexivity.
Qed.

End WizardStepFacts.

(* ================================================================== *)
(** * The interview                                                     *)
(* ================================================================== *)

Module InterviewFacts.
Import TaxData CheckNotions Notions Scenarios MoreScenarios.
Import JsNumberFacts ArithmeticFacts BracketFacts ConstantsFacts FilingFacts.
Import RulesHelperFacts WizardRulesFacts.
Import Interview.

(** ** The 1099-NEC cards *)

Lemma splice1_in_range {A : Type} (index : nat) (l : list A) :
  (index < length l)%nat ->
  splice1 (Z.of_nat index) l = take index l ++ drop (S index) l.
Proof.
  intros H. unfold splice1.
  destruct (Z.ltb_spec (Z.of_nat index) 0); [lia|].
  rewrite Z.min_l by lia. rewrite Nat2Z.id. reflexivity.
Qed.

Lemma splice1_length {A : Type} (index : Z) (l : list A) :
  length (splice1 index l)
  = if (Z.of_nat (length l) <=? index)%Z then length l else pred (length l).
Proof.
  unfold splice1. rewrite length_app, length_take, length_drop.
  destruct (Z.leb_spec (Z.of_nat (length l)) index) as [H|H].
  - destruct (Z.ltb_spec index 0); [lia|]. rewrite Z.min_r by lia. lia.
  - destruct (Z.ltb_spec index 0); [|rewrite Z.min_l by lia]; lia.
Qed.

(** The 1099-NEC cards.  Removing the card that was just added gives
    back the cards there were; removing a card shortens the list by one
    whenever the index is below the length, a negative index included
    (it counts from the end, as [splice] does), and changes nothing
    otherwise; updating a card that does not exist changes nothing, and
    updating an existing card keeps the number of cards. *)
Theorem nec_cards :
  forall (s : InterviewState) (data : option NecEntry) (index : Z) (u : NecUpdate),
    necEntries (removeNECCard (Z.of_nat (length (necEntries s))) (addNECCard data s))
    = necEntries s
    /\ length (necEntries (addNECCard data s)) = S (length (necEntries s))
    /\ length (necEntries (removeNECCard index s))
       = (if (Z.of_nat (length (necEntries s)) <=? index)%Z
          then length (necEntries s) else pred (length (necEntries s)))
    /\ ((Z.of_nat (length (necEntries s)) <= index)%Z -> removeNECCard index s = s)
    /\ ((index < 0 \/ Z.of_nat (length (necEntries s)) <= index)%Z ->
        updateNECEntry index u s = s)
    /\ length (necEntries (updateNECEntry index u s)) = length (necEntries s).
Proof.
  intros s data index u.
  split; [|split; [|split; [|split; [|split]]]].
  - unfold removeNECCard, addNECCard, withNecEntries. cbn [necEntries].
    rewrite splice1_in_range by (rewrite length_app; cbn [length]; lia).
    rewrite take_app_length.
    rewrite drop_ge by (rewrite length_app; cbn [length]; lia).
    apply app_nil_r.
  - unfold addNECCard, withNecEntries. cbn [necEntries].
    rewrite length_app. cbn [length]. lia.
  - unfold removeNECCard, withNecEntries. cbn [necEntries]. apply splice1_length.
  - intros H. unfold removeNECCard, withNecEntries, splice1.
    destruct (Z.ltb_spec index 0); [lia|]. rewrite Z.min_r by lia.
    rewrite Nat2Z.id, firstn_all, drop_ge by lia. rewrite app_nil_r.
    destruct s; reflexivity.
  - intros H. unfold updateNECEntry.
    destruct (Z.ltb_spec index 0); [reflexivity|].
    rewrite lookup_ge_None_2 by lia. reflexivity.
  - unfold updateNECEntry. destruct (index <? 0)%Z; [reflexivity|].
    destruct (necEntries s !! Z.to_nat index); [|reflexivity].
    unfold withNecEntries. cbn [necEntries]. apply length_insert.
Qed.

(** ** The incomes and the filing of [buildRulesState] *)

Lemma buildIncomes_reported s :
  Forall (fun i => exists amount,
            reportedAmount i = Some amount /\ gtb amount (js 0) = true)
         (buildIncomes s).
Proof.
  unfold buildIncomes. apply Forall_app_2; [|apply Forall_app_2].
  - destruct (has1099NEC s); [|constructor].
    apply List.Forall_forall. intros i Hi.
    apply List.in_map_iff in Hi as (entry & <- & Hin).
    apply List.filter_In in Hin as [_ Hpos].
    exists (compensation entry). split; [reflexivity | assumption].
  - destruct (has1099INT s && gtb (interestIncome s) (js 0)) eqn:E; [|constructor].
    apply andb_prop in E as [_ E].
    constructor; [|constructor]. exists (interestIncome s). split; [reflexivity | assumption].
  - destruct (has1099DIV s && gtb (dividendIncome s) (js 0)) eqn:E; [|constructor].
    apply andb_prop in E as [_ E].
    constructor; [|constructor]. exists (dividendIncome s). split; [reflexivity | assumption].
Qed.

Lemma buildIncomes_types s :
  Forall (fun i => In (doc_type i) ["1099-NEC"; "1099-INT"; "1099-DIV"])
         (buildIncomes s).
Proof.
  unfold buildIncomes. apply Forall_app_2; [|apply Forall_app_2].
  - destruct (has1099NEC s); [|constructor].
    apply List.Forall_forall. intros i Hi.
    apply List.in_map_iff in Hi as (entry & <- & Hin). left; reflexivity.
  - destruct (has1099INT s && gtb (interestIncome s) (js 0)); constructor;
      [right; left; reflexivity | constructor].
  - destruct (has1099DIV s && gtb (dividendIncome s) (js 0)); constructor;
      [right; right; left; reflexivity | constructor].
Qed.

(** The state the interview hands over.  It holds no document and only
    records of the types 1099-NEC, 1099-INT and 1099-DIV, each reporting
    an amount greater than 0: a card with no compensation, a negative
    amount or [NaN] produces no record, and neither does anything when
    the matching question was answered with no.  There is at most one
    record per card plus one for interest and one for dividends, and the
    W-2 wages are 0. *)
Theorem interview_incomes :
  forall (taxDataLoaded : bool) (s : InterviewState),
    let state := buildRulesState taxDataLoaded s in
    documents state = []
    /\ totalW2Wages (filing state) = js 0
    /\ Forall (fun i =>
                 In (doc_type i) ["1099-NEC"; "1099-INT"; "1099-DIV"]
                 /\ exists amount,
                      reportedAmount i = Some amount /\ gtb amount (js 0) = true)
              (incomes state)
    /\ (length (incomes state) <= length (necEntries s) + 2)%nat
    /\ (has1099NEC s = false -> has1099INT s = false -> has1099DIV s = false ->
        incomes state = []).
Proof.
  intros loaded s state.
  assert (Hinc : incomes state = buildIncomes s) by reflexivity.
  split; [reflexivity|]. split; [reflexivity|]. rewrite Hinc.
  split; [|split].
  - apply Forall_and. split; [apply buildIncomes_types | apply buildIncomes_reported].
  - unfold buildIncomes. rewrite !length_app.
    assert (H1 : (length (if has1099NEC s
                          then List.map (necRecord s)
                                 (List.filter (fun entry => gtb (compensation entry) (js 0))
                                              (necEntries s))
                          else []) <= length (necEntries s))%nat).
    { destruct (has1099NEC s); [|cbn [length]; lia].
      rewrite List.length_map. apply List.filter_length_le. }
    destruct (has1099INT s && gtb (interestIncome s) (js 0)),
      (has1099DIV s && gtb (dividendIncome s) (js 0)); cbn [length]; lia.
  - intros H1 H2 H3. unfold buildIncomes. rewrite H1, H2, H3. reflexivity.
Qed.

(** Sums of amounts that are not negative. *)
Lemma sumOf_nonneg {A : Type} (g : A -> number) (l : list A) :
  Forall (fun a => nonneg (g a)) l -> nonneg (Wizard.sumOf g l).
Proof.
  unfold Wizard.sumOf.
  assert (H : forall acc, nonneg acc -> Forall (fun a => nonneg (g a)) l ->
                nonneg (fold_left (fun sum i => add sum (g i)) l acc)).
  { induction l as [|a l IH]; intros acc Hacc Hl; cbn [fold_left]; [assumption|].
    apply Forall_cons in Hl as [Ha Hl]. apply IH; [|assumption].
    apply add_nonneg; assumption. }
  apply H. reflexivity.
Qed.

Lemma positive_or_else v : gtb v (js 0) = true -> Wizard.or_else (Some v) (js 0) = v.
Proof.
  change (js 0) with (Fin 0). destruct v as [| | |q]; cbn; try discriminate;
    try reflexivity.
  destruct (Qcompare_spec 0 q) as [H|H|H]; try discriminate. intros _.
  destruct (Qeq_bool q 0) eqn:E; [|reflexivity].
  apply Qeq_bool_iff in E. exfalso. revert H. rewrite E. apply Qlt_irrefl.
Qed.

(** The total of the 1099-NEC records of the interview is not negative. *)
Lemma interview_totalNEC_nonneg s :
  nonneg (Wizard.sumOf (fun i => Wizard.or_else (nonemployee_compensation i) (js 0))
            (List.filter (fun i => String.eqb (doc_type i) "1099-NEC") (buildIncomes s))).
Proof.
  apply sumOf_nonneg. apply List.Forall_forall. intros i Hi.
  apply List.filter_In in Hi as [Hin Hty].
  pose proof (buildIncomes_reported s) as H.
  rewrite List.Forall_forall in H. destruct (H i Hin) as (amount & Ha & Hpos).
  unfold reportedAmount in Ha. rewrite Hty in Ha. rewrite Ha.
  rewrite (positive_or_else _ Hpos). apply gtb_zero_nonneg. assumption.
Qed.

Lemma seTaxRate_year year : Fed.seTaxRate (federalYear year) = js 0.153.
Proof.
  destruct (federalYear_cases year) as [E|[E|E]]; rewrite E; vm_compute; reflexivity.
Qed.

(** Without the guard [totalNEC > 0] of the wizard, the tax on a total
    that is not negative is the same. *)
Lemma unguarded_seTax year nec :
  nonneg nec ->
  round (mul (mul nec (js 0.9235)) (js 0.153))
  = Wizard.selfEmploymentTax (federalYear year) nec.
Proof.
  intros H. rewrite selfEmploymentTax_resolved.
  destruct (gtb nec (js 0)) eqn:G; [reflexivity|].
  destruct (nonneg_cases nec H) as [->|(q & -> & Hq)]; [discriminate G|].
  assert (Hz : (q == 0)%Q).
  { revert G. change (js 0) with (Fin 0). cbn.
    destruct (Qcompare_spec 0 q) as [E|E|E]; try discriminate; intros _.
    - symmetry. assumption.
    - exfalso. apply (Qlt_not_le _ _ E Hq). }
  destruct js_09235 as (c1 & -> & _). destruct js_0153 as (c2 & -> & _).
  cbn [mul]. rewrite (RN_0 (q * c1)) by (rewrite Hz; apply Qmult_0_l).
  cbn [mul]. rewrite (RN_0 (0 * c2)) by apply Qmult_0_l. reflexivity.
Qed.

(** The self-employment tax of the interview.  [buildRulesState] computes
    it without the wizard's guard [totalNEC > 0]; because only cards with
    a positive compensation are counted, the total is never negative and
    the tax is the one the wizard computes for the same total. *)
Theorem interview_seTax_agrees :
  forall s : InterviewState,
    let state := buildRulesState true s in
    let totalNEC :=
      Wizard.sumOf (fun i => Wizard.or_else (nonemployee_compensation i) (js 0))
        (List.filter (fun i => String.eqb (doc_type i) "1099-NEC") (incomes state)) in
    nonneg totalNEC
    /\ seTax (filing state) = Wizard.selfEmploymentTax (federalYear (taxYear s)) totalNEC
    /\ adjustments (filing state)
       = Wizard.selfEmploymentDeduction (seTax (filing state)).
Proof.
  intros s state totalNEC.
  pose proof (interview_totalNEC_nonneg s) as Hnn.
  split; [exact Hnn|]. split; [|reflexivity].
  assert (E : seTax (filing state)
              = round (mul (mul totalNEC (js 0.9235))
                           (Fed.seTaxRate (federalYear (taxYear s))))) by reflexivity.
  rewrite E, seTaxRate_year. apply unguarded_seTax. exact Hnn.
Qed.

(** ** The interview and the wizard compute the same filing *)

Lemma sumOf_map {A B : Type} (g : B -> number) (h : A -> B) (l : list A) :
  Wizard.sumOf g (List.map h l) = Wizard.sumOf (fun a => g (h a)) l.
Proof.
  unfold Wizard.sumOf. generalize (js 0).
  induction l as [|a l IH]; intros acc; cbn [List.map fold_left]; [reflexivity|].
  apply IH.
Qed.

Lemma filter_map_comm {A B : Type} (p : B -> bool) (h : A -> B) (l : list A) :
  List.filter p (List.map h l) = List.map h (List.filter (fun a => p (h a)) l).
Proof.
  induction l as [|a l IH]; [reflexivity|].
  cbn [List.map List.filter]. destruct (p (h a)); cbn [List.map]; rewrite IH; reflexivity.
Qed.

Lemma filter_none {A : Type} (p : A -> bool) (l : list A) :
  Forall (fun a => p a = false) l -> List.filter p l = [].
Proof.
  induction 1 as [|a l Ha Hl IH]; [reflexivity|].
  cbn [List.filter]. rewrite Ha. exact IH.
Qed.

Lemma sumOf_zero {A : Type} (g : A -> number) (l : list A) :
  Forall (fun a => g a = js 0) l -> Wizard.sumOf g l = js 0.
Proof.
  unfold Wizard.sumOf. induction 1 as [|a l Ha Hl IH]; [reflexivity|].
  cbn [fold_left]. rewrite Ha. exact IH.
Qed.

(** The records of a type other than 1099-NEC in the incomes of the
    interview. *)
Lemma buildIncomes_filter s (t : string) :
  t <> "1099-NEC" ->
  List.filter (fun i => String.eqb (doc_type i) t) (buildIncomes s)
  = List.filter (fun i => String.eqb (doc_type i) t)
      (List.filter (fun i => negb (String.eqb (doc_type i) "1099-NEC")) (buildIncomes s)).
Proof.
  intros Ht. rewrite WizardStepFacts.filter_filter_and.
  apply WizardStepFacts.filter_ext_Forall. apply List.Forall_forall. intros i _.
  destruct (String.eqb_spec (doc_type i) "1099-NEC") as [E|E]; [|reflexivity].
  rewrite E. cbn [negb andb]. apply String.eqb_neq. congruence.
Qed.

Lemma buildIncomes_others s :
  List.filter (fun i => negb (String.eqb (doc_type i) "1099-NEC")) (buildIncomes s)
  = (if has1099INT s && gtb (interestIncome s) (js 0)
     then [ {| doc_type := "1099-INT";
               payer_name := "Interest";
               nonemployee_compensation := None;
               interest_income := Some (interestIncome s);
               ordinary_dividends := None;
               fed_income_tax_withheld := None;
               state := None;
               extraction_status := [("interest_income", "extracted")] |} ]
     else [])
    ++ (if has1099DIV s && gtb (dividendIncome s) (js 0)
        then [ {| doc_type := "1099-DIV";
                  payer_name := "Dividends";
                  nonemployee_compensation := None;
                  interest_income := None;
                  ordinary_dividends := Some (dividendIncome s);
                  fed_income_tax_withheld := None;
                  state := None;
                  extraction_status := [("ordinary_dividends", "extracted")] |} ]
        else []).
Proof.
  unfold buildIncomes. rewrite !List.filter_app.
  rewrite (filter_none _ (if has1099NEC s then _ else _)).
  2:{ destruct (has1099NEC s); [|constructor].
      apply List.Forall_forall. intros i Hi.
      apply List.in_map_iff in Hi as (entry & <- & _). reflexivity. }
  destruct (has1099INT s && gtb (interestIncome s) (js 0)),
    (has1099DIV s && gtb (dividendIncome s) (js 0)); reflexivity.
Qed.

(** A binary64 value that is not negative is greater than 0 or is 0. *)
Lemma nonneg_binary64_cases x :
  binary64 x -> le (js 0) x -> gtb x (js 0) = true \/ x = js 0.
Proof.
  change (js 0) with (Fin 0). intros Hb Hx.
  destruct (nonneg_cases x Hx) as [->|(q & -> & Hq)]; [left; reflexivity|].
  destruct (Qle_lt_or_eq _ _ Hq) as [H|H].
  - left. cbn. destruct (Qcompare_spec 0 q) as [E|E|E]; try reflexivity; exfalso.
    + rewrite E in H. revert H. apply Qlt_irrefl.
    + apply (Qlt_not_le _ _ H). apply Qlt_le_weak. assumption.
  - right. cbn [binary64] in Hb. rewrite <- Hb. apply RN_0. symmetry. assumption.
Qed.

(** The amount the wizard sums for the one record of a question, and the
    amount the interview adds for it. *)
Lemma single_record_total (has : bool) (amount : number) :
  binary64 amount -> (has = true -> le (js 0) amount) ->
  (if has && gtb amount (js 0)
   then add (js 0) (Wizard.or_else (Some amount) (js 0)) else js 0)
  = (if has then amount else js 0).
Proof.
  intros Hb Hle. destruct has; [|reflexivity]. cbn [andb].
  destruct (nonneg_binary64_cases amount Hb (Hle eq_refl)) as [G|E].
  - rewrite G, (positive_or_else _ G). apply add_0_l. assumption.
  - rewrite E. reflexivity.
Qed.

(** The bracket tax is [NaN] or not negative, whatever the income. *)
Lemma bracketLoop_loose brackets :
  wellFormedBrackets brackets = true ->
  forall tax r, okTax tax -> r = NaN \/ r = PInf ->
    okTax (bracketLoop tax r brackets).
Proof.
  induction brackets as [|[w rate] rest IH]; intros Hwf tax r Htax Hr;
    cbn [bracketLoop]; [assumption|].
  cbn [wellFormedBrackets forallb] in Hwf. apply andb_prop in Hwf as [Hb Hrest].
  apply wellFormedBracket_inv in Hb as [Hw (p & -> & Hp)].
  assert (Hleb : leb r (js 0) = false) by (destruct Hr as [-> | ->]; reflexivity).
  rewrite Hleb.
  apply (IH Hrest).
  - assert (Hm : okTax (mul (min r w) (Fin p))).
    { destruct Hr as [-> | ->]; [left; reflexivity|].
      destruct Hw as [-> | (w' & -> & Hw')].
      - change (min PInf PInf) with PInf. cbn [mul]. unfold sgn.
        destruct (Qcompare_spec p 0) as [E|E|E]; [left | exfalso | right]; try reflexivity.
        apply (Qlt_not_le _ _ E Hp).
      - change (min PInf (Fin w')) with (Fin w'). right. rewrite mul_Fin.
        apply RN_nonneg. apply Qmult_le_0_compat; [apply Qlt_le_weak|]; assumption. }
    destruct Hm as [-> | Hm]; [left; apply add_NaN_r|].
    destruct Htax as [-> | Htax]; [left; reflexivity|].
    right. apply add_nonneg; assumption.
  - destruct Hr as [-> | ->]; [left; reflexivity|].
    destruct Hw as [-> | (w' & -> & Hw')]; [left | right]; reflexivity.
Qed.

Lemma computeTaxFromBrackets_ok brackets t :
  wellFormedBrackets brackets = true -> binary64 t -> okTax t ->
  okTax (computeTaxFromBrackets t brackets).
Proof.
  intros Hwf Hb Ht. unfold computeTaxFromBrackets.
  assert (Hz : okTax (js 0)) by (right; reflexivity).
  assert (H : okTax (bracketLoop (js 0) t brackets)).
  { destruct Ht as [-> | Ht].
    - apply bracketLoop_loose; auto.
    - destruct (nonneg_cases t Ht) as [-> | (q & -> & Hq)].
      + apply bracketLoop_loose; auto.
      + right. assert (Hz' : taxok (js 0)) by (split; reflexivity).
        apply (bracketLoop_inv brackets Hwf (js 0) q Hz' Hb). }
  destruct H as [-> | H]; [left; reflexivity | right; apply round_nonneg, H].
Qed.

Lemma computeTaxFromBrackets_binary64 brackets t :
  binary64 (computeTaxFromBrackets t brackets).
Proof.
  unfold computeTaxFromBrackets. apply round_binary64, bracketLoop_binary64.
  exact (RN_binary64 0).
Qed.

Lemma max_zero_ok x : okTax x -> max (js 0) x = x.
Proof. intros [-> | H]; [reflexivity | apply max_zero_nonneg, H]. Qed.

(** The filing of a session with no manual entry, no credit, no answer
    and the standard deduction. *)
Lemma plain_filing (s : Wizard.Session) :
  Wizard.manualEntries s = ∅ -> Wizard.credits s = ∅ -> Wizard.gapAnswers s = ∅ ->
  Wizard.deductionType s = "standard" ->
  let f := Wizard.computeAndRenderTaxes s in
  Wizard.totalIncome f
  = add (add (add (add (add (Wizard.totalW2Wages f) (Wizard.totalNEC f))
                       (Wizard.totalInterest f))
                  (Wizard.totalDividends f))
             (js 0))
        (js 0)
  /\ Wizard.adjustments f = Wizard.selfEmploymentDeduction (Wizard.seTax f)
  /\ Wizard.taxableIncome f
     = max (js 0)
           (sub (sub (sub (Wizard.agi f) (Wizard.standardDeduction f)) (js 0)) (js 0))
  /\ Wizard.totalFedTax f
     = add (max (js 0) (sub (Wizard.fedIncomeTax f) (js 0))) (Wizard.seTax f).
Proof.
  intros Hm Hc Hg Hd.
  destruct s as [ty fs st ch od inc ga me dt it cr].
  cbn [Wizard.manualEntries Wizard.credits Wizard.gapAnswers Wizard.deductionType] in *.
  subst. cbv zeta. unfold Wizard.computeAndRenderTaxes.
  cbn [Wizard.taxYear Wizard.filingStatus Wizard.incomes Wizard.manualEntries
       Wizard.credits Wizard.deductionType Wizard.gapAnswers Wizard.itemized
       Wizard.totalIncome Wizard.totalW2Wages Wizard.totalNEC Wizard.totalInterest
       Wizard.totalDividends Wizard.adjustments Wizard.seTax Wizard.taxableIncome
       Wizard.agi Wizard.standardDeduction Wizard.totalFedTax Wizard.fedIncomeTax].
  unfold Wizard.answered_yes. rewrite !lookup_empty.
  cbn [Wizard.truthy_opt Wizard.or_else andb].
  change (String.eqb "standard" "itemized") with false. cbn iota.
  repeat split.
Qed.

Lemma plain_ca (s : Wizard.Session) :
  Wizard.credits s = ∅ ->
  option_map (fun c => (Wizard.caTaxableIncome c, Wizard.caTax c, Wizard.caResult c))
             (Wizard.ca (Wizard.computeAndRenderTaxes s))
  = match Wizard.getStateId s, TaxData.state (constantsOf s) with
    | Some california, Some (CaState sc) =>
        let agi := Wizard.agi (Wizard.computeAndRenderTaxes s) in
        let withheld := Wizard.totalStateWithheld (Wizard.computeAndRenderTaxes s) in
        let taxable := max (js 0) (sub agi (ca_stdDeduction sc)) in
        let base := computeTaxFromBrackets taxable (ca_brackets sc) in
        let mh :=
          if gtb taxable (Ca.mentalHealthThreshold (caYear sc))
          then round (mul (sub taxable (Ca.mentalHealthThreshold (caYear sc)))
                          (Ca.mentalHealthRate (caYear sc)))
          else js 0 in
        Some (taxable, sub (add base mh) (js 0),
              sub withheld (sub (add base mh) (js 0)))
    | _, _ => None
    end.
Proof.
  intros Hc. rewrite ca_computeAndRenderTaxes. unfold constantsOf.
  destruct (Wizard.getStateId s) as [[|]|]; try reflexivity.
  destruct (TaxData.state _) as [[sc|sc]|]; try reflexivity.
  unfold Wizard.californiaPass. rewrite Hc, lookup_empty. reflexivity.
Qed.

Lemma plain_ny (s : Wizard.Session) :
  option_map (fun c => (Wizard.nyTaxableIncome c, Wizard.nyTax c, Wizard.nyResult c))
             (Wizard.ny (Wizard.computeAndRenderTaxes s))
  = match Wizard.getStateId s, TaxData.state (constantsOf s) with
    | Some newYork, Some (NyState sc) =>
        let agi := Wizard.agi (Wizard.computeAndRenderTaxes s) in
        let withheld := Wizard.totalStateWithheld (Wizard.computeAndRenderTaxes s) in
        let taxable := max (js 0) (sub agi (ny_stdDeduction sc)) in
        let tax := computeTaxFromBrackets taxable (ny_brackets sc) in
        Some (taxable, tax, sub withheld tax)
    | _, _ => None
    end.
Proof.
  unfold constantsOf.
  change (Wizard.ny (Wizard.computeAndRenderTaxes s))
    with (match Wizard.getStateId s,
                TaxData.state (getTaxConstants (Wizard.taxYear s) (Wizard.getStateId s)
                                 (Some (Wizard.filingStatus s)))
          with
          | Some newYork, Some (NyState sc) =>
              Some (Wizard.newYorkPass sc (Wizard.agi (Wizard.computeAndRenderTaxes s))
                      (Wizard.totalStateWithheld (Wizard.computeAndRenderTaxes s)))
          | _, _ => None
          end).
  destruct (Wizard.getStateId s) as [[|]|]; reflexivity.
Qed.

(** The totals of the wizard on the incomes of an interview. *)
Lemma wizard_totals s :
  binary64 (interestIncome s) -> binary64 (dividendIncome s) ->
  (has1099INT s = true -> le (js 0) (interestIncome s)) ->
  (has1099DIV s = true -> le (js 0) (dividendIncome s)) ->
  let f := Wizard.computeAndRenderTaxes (wizardSession s) in
  Wizard.totalW2Wages f = js 0
  /\ Wizard.totalNEC f
     = Wizard.sumOf (fun i => Wizard.or_else (nonemployee_compensation i) (js 0))
         (List.filter (fun i => String.eqb (doc_type i) "1099-NEC") (buildIncomes s))
  /\ Wizard.totalInterest f = (if has1099INT s then interestIncome s else js 0)
  /\ Wizard.totalDividends f = (if has1099DIV s then dividendIncome s else js 0)
  /\ Wizard.totalFedWithheld f
     = Wizard.sumOf (fun i => Wizard.or_else (fed_income_tax_withheld i) (js 0))
         (buildIncomes s)
  /\ Wizard.totalStateWithheld f = js 0.
Proof.
  intros Hbi Hbd Hi Hd f.
  assert (EW : Wizard.totalW2Wages f
               = Wizard.sumOf (fun i => Wizard.or_else (Wizard.wages i) (js 0))
                   (List.filter (Wizard.ofType "W-2")
                                (List.map asIncome (buildIncomes s)))) by reflexivity.
  assert (EN : Wizard.totalNEC f
               = Wizard.sumOf
                   (fun i => Wizard.or_else (Wizard.nonemployee_compensation i) (js 0))
                   (List.filter (Wizard.ofType "1099-NEC")
                                (List.map asIncome (buildIncomes s)))) by reflexivity.
  assert (EI : Wizard.totalInterest f
               = Wizard.sumOf (fun i => Wizard.or_else (Wizard.interest_income i) (js 0))
                   (List.filter (Wizard.ofType "1099-INT")
                                (List.map asIncome (buildIncomes s)))) by reflexivity.
  assert (ED : Wizard.totalDividends f
               = Wizard.sumOf
                   (fun i => Wizard.or_else (Wizard.ordinary_dividends i) (js 0))
                   (List.filter (Wizard.ofType "1099-DIV")
                                (List.map asIncome (buildIncomes s)))) by reflexivity.
  assert (EF : Wizard.totalFedWithheld f
               = Wizard.sumOf
                   (fun i => Wizard.or_else (Wizard.fed_income_tax_withheld i) (js 0))
                   (List.map asIncome (buildIncomes s))) by reflexivity.
  assert (ES : Wizard.totalStateWithheld f
               = RulesChecks.stateWithheldOf (List.map asIncome (buildIncomes s)))
    by reflexivity.
  clearbody f.
  rewrite EW, EN, EI, ED, EF, ES. clear EW EN EI ED EF ES.
  unfold RulesChecks.stateWithheldOf.
  rewrite !filter_map_comm, !sumOf_map.
  unfold Wizard.ofType. cbn [asIncome Wizard.doc_type Wizard.wages
    Wizard.nonemployee_compensation Wizard.interest_income Wizard.ordinary_dividends
    Wizard.fed_income_tax_withheld Wizard.state_income_tax_withheld
    Wizard.state_tax_withheld Wizard.truthy_opt Wizard.or_else].
  split; [|split; [reflexivity|split; [|split; [|split; [reflexivity|]]]]].
  - apply sumOf_zero. apply List.Forall_forall. intros; reflexivity.
  - rewrite (buildIncomes_filter s "1099-INT") by discriminate.
    rewrite buildIncomes_others, List.filter_app.
    rewrite <- (single_record_total (has1099INT s) (interestIncome s) Hbi Hi).
    destruct (has1099INT s && gtb (interestIncome s) (js 0)),
      (has1099DIV s && gtb (dividendIncome s) (js 0)); reflexivity.
  - rewrite (buildIncomes_filter s "1099-DIV") by discriminate.
    rewrite buildIncomes_others, List.filter_app.
    rewrite <- (single_record_total (has1099DIV s) (dividendIncome s) Hbd Hd).
    destruct (has1099INT s && gtb (interestIncome s) (js 0)),
      (has1099DIV s && gtb (dividendIncome s) (js 0)); reflexivity.
  - apply sumOf_zero. apply List.Forall_forall. intros; reflexivity.
Qed.

Lemma interview_ca s :
  let fi := filing (buildRulesState true s) in
  option_map (fun c => (caTaxableIncome c, caTax c, caResult c)) (ca fi)
  = match Wizard.getStateId (wizardSession s), TaxData.state (constantsOf (wizardSession s))
    with
    | Some california, Some (CaState sc) =>
        let taxable := max (js 0) (sub (agi fi) (ca_stdDeduction sc)) in
        let base := computeTaxFromBrackets taxable (ca_brackets sc) in
        let tax :=
          if gtb taxable (Ca.mentalHealthThreshold (caYear sc))
          then add base
                   (round (mul (sub taxable (Ca.mentalHealthThreshold (caYear sc)))
                               (Ca.mentalHealthRate (caYear sc))))
          else base in
        Some (taxable, tax, sub (js 0) tax)
    | _, _ => None
    end.
Proof.
  cbv zeta. unfold buildRulesState, constantsOf, wizardSession, Wizard.getStateId.
  cbn [filing ca agi Wizard.stateOfResidence Wizard.taxYear Wizard.filingStatus].
  destruct (stateOfResidence s) as [st|]; [|reflexivity].
  destruct (String.eqb st "CA"); [reflexivity|].
  destruct (String.eqb st "NY"); reflexivity.
Qed.

Lemma interview_ny s :
  let fi := filing (buildRulesState true s) in
  option_map (fun c => (nyTaxableIncome c, nyTax c, nyResult c)) (ny fi)
  = match Wizard.getStateId (wizardSession s), TaxData.state (constantsOf (wizardSession s))
    with
    | Some newYork, Some (NyState sc) =>
        let taxable := max (js 0) (sub (agi fi) (ny_stdDeduction sc)) in
        let tax := computeTaxFromBrackets taxable (ny_brackets sc) in
        Some (taxable, tax, sub (js 0) tax)
    | _, _ => None
    end.
Proof.
  cbv zeta. unfold buildRulesState, constantsOf, wizardSession, Wizard.getStateId.
  cbn [filing ny agi Wizard.stateOfResidence Wizard.taxYear Wizard.filingStatus].
  destruct (stateOfResidence s) as [st|]; [|reflexivity].
  destruct (String.eqb st "CA"); [reflexivity|].
  destruct (String.eqb st "NY"); reflexivity.
Qed.

(** The interview and the wizard agree.  When the amounts of interest
    and dividends are binary64 values that are not negative, the filing
    [buildRulesState] computes is the filing [computeAndRenderTaxes]
    computes for a fresh session with the same year, filing status, state
    and income records: total income, adjustments, AGI, standard
    deduction, taxable income, income tax, self-employment tax, total
    tax, withholding, federal result, and the California or New York
    taxable income, tax and result. *)
Theorem interview_agrees_with_wizard :
  forall s : InterviewState,
    binary64 (interestIncome s) -> binary64 (dividendIncome s) ->
    (has1099INT s = true -> le (js 0) (interestIncome s)) ->
    (has1099DIV s = true -> le (js 0) (dividendIncome s)) ->
    let fi := filing (buildRulesState true s) in
    let fw := Wizard.computeAndRenderTaxes (wizardSession s) in
    totalIncome fi = Wizard.totalIncome fw
    /\ adjustments fi = Wizard.adjustments fw
    /\ agi fi = Wizard.agi fw
    /\ standardDeduction fi = Wizard.standardDeduction fw
    /\ taxableIncome fi = Wizard.taxableIncome fw
    /\ fedIncomeTax fi = Wizard.fedIncomeTax fw
    /\ seTax fi = Wizard.seTax fw
    /\ totalFedTax fi = Wizard.totalFedTax fw
    /\ totalFedWithheld fi = Wizard.totalFedWithheld fw
    /\ fedResult fi = Wizard.fedResult fw
    /\ totalStateWithheld fi = Wizard.totalStateWithheld fw
    /\ option_map (fun c => (caTaxableIncome c, caTax c, caResult c)) (ca fi)
       = option_map
           (fun c => (Wizard.caTaxableIncome c, Wizard.caTax c, Wizard.caResult c))
           (Wizard.ca fw)
    /\ option_map (fun c => (nyTaxableIncome c, nyTax c, nyResult c)) (ny fi)
       = option_map
           (fun c => (Wizard.nyTaxableIncome c, Wizard.nyTax c, Wizard.nyResult c))
           (Wizard.ny fw).
Proof.
  intros s Hbi Hbd Hi Hd fi fw.
  destruct (wizard_totals s Hbi Hbd Hi Hd) as (EW & EN & EI & ED & EF & ES).
  destruct (plain_filing (wizardSession s) eq_refl eq_refl eq_refl eq_refl)
    as (PT & PA & PX & PF).
  pose proof (plain_ca (wizardSession s) eq_refl) as PC.
  pose proof (plain_ny (wizardSession s)) as PN.
  pose proof (interview_ca s) as IC. pose proof (interview_ny s) as IN.
  pose proof (filing_seTax_year (wizardSession s)) as WSe.
  pose proof (filing_agi (wizardSession s)) as WAgi.
  pose proof (filing_fedIncomeTax (wizardSession s)) as WFit.
  pose proof (filing_fedResult (wizardSession s)) as WRes.
  pose proof (fed_brackets_wellFormed (Wizard.taxYear (wizardSession s))
                (Wizard.getStateId (wizardSession s))
                (Wizard.filingStatus (wizardSession s))) as Hwf.
  fold (constantsOf (wizardSession s)) in Hwf.
  assert (WStd : Wizard.standardDeduction fw
                 = fed_stdDeduction (fed (constantsOf (wizardSession s))))
    by reflexivity.
  fold fw in EW, EN, EI, ED, EF, ES, PT, PA, PX, PF, PC, PN, WSe, WAgi, WFit, WRes.
  cbv zeta in IC, IN, PC, PN. fold fi in IC, IN.
  (* the interview's equations *)
  set (N := Wizard.sumOf (fun i => Wizard.or_else (nonemployee_compensation i) (js 0))
              (List.filter (fun i => String.eqb (doc_type i) "1099-NEC")
                           (buildIncomes s))) in *.
  assert (ITot : totalIncome fi
                 = add (add N (if has1099INT s then interestIncome s else js 0))
                       (if has1099DIV s then dividendIncome s else js 0))
    by reflexivity.
  assert (ISe : seTax fi
                = round (mul (mul N (js 0.9235))
                             (Fed.seTaxRate (federalYear (taxYear s))))) by reflexivity.
  assert (IAdj : adjustments fi = Wizard.selfEmploymentDeduction (seTax fi))
    by reflexivity.
  assert (IAgi : agi fi = sub (totalIncome fi) (adjustments fi)) by reflexivity.
  assert (IStd : standardDeduction fi
                 = fed_stdDeduction (fed (constantsOf (wizardSession s))))
    by reflexivity.
  assert (ITax : taxableIncome fi = max (js 0) (sub (agi fi) (standardDeduction fi)))
    by reflexivity.
  assert (IFit : fedIncomeTax fi
                 = computeTaxFromBrackets (taxableIncome fi)
                     (fed_brackets (fed (constantsOf (wizardSession s)))))
    by reflexivity.
  assert (IFed : totalFedTax fi = add (fedIncomeTax fi) (seTax fi)) by reflexivity.
  assert (IWh : totalFedWithheld fi
                = Wizard.sumOf (fun i => Wizard.or_else (fed_income_tax_withheld i) (js 0))
                    (buildIncomes s)) by reflexivity.
  assert (IRes : fedResult fi = sub (totalFedWithheld fi) (totalFedTax fi))
    by reflexivity.
  assert (ISt : totalStateWithheld fi = js 0) by reflexivity.
  assert (Hyear : Wizard.taxYear (wizardSession s) = taxYear s) by reflexivity.
  assert (HN : nonneg N) by apply interview_totalNEC_nonneg.
  assert (HNb : binary64 N) by apply sumOf_binary64.
  clearbody fi fw.
  generalize dependent (fed_brackets (fed (constantsOf (wizardSession s)))).
  intros brackets WFit Hwf IFit.
  (* total income *)
  assert (E1 : totalIncome fi = Wizard.totalIncome fw).
  { rewrite ITot, PT, EW, EN, EI, ED. change (js 0) with (Fin 0).
    rewrite (add_0_l N HNb). rewrite !add_0_r by apply add_binary64. reflexivity. }
  (* self-employment tax and adjustments *)
  assert (E2 : seTax fi = Wizard.seTax fw).
  { rewrite ISe, WSe, EN, Hyear, seTaxRate_year. apply unguarded_seTax, HN. }
  assert (E3 : adjustments fi = Wizard.adjustments fw) by (rewrite IAdj, PA, E2; reflexivity).
  assert (E4 : agi fi = Wizard.agi fw) by (rewrite IAgi, WAgi, E1, E3; reflexivity).
  assert (E5 : standardDeduction fi = Wizard.standardDeduction fw)
    by (rewrite IStd, WStd; reflexivity).
  assert (E6 : taxableIncome fi = Wizard.taxableIncome fw).
  { rewrite ITax, PX, E4, E5. change (js 0) with (Fin 0).
    rewrite !sub_0_r by apply sub_binary64. reflexivity. }
  assert (E7 : fedIncomeTax fi = Wizard.fedIncomeTax fw)
    by (rewrite IFit, WFit, E6; reflexivity).
  assert (E8 : totalFedTax fi = Wizard.totalFedTax fw).
  { rewrite IFed, PF, E7, E2. rewrite WFit. change (js 0) with (Fin 0).
    rewrite sub_0_r by apply computeTaxFromBrackets_binary64.
    change (Fin 0) with (js 0). rewrite max_zero_ok; [reflexivity|].
    apply computeTaxFromBrackets_ok; [assumption| |].
    - rewrite PX. apply max_binary64; [exact (RN_binary64 0) | apply sub_binary64].
    - rewrite PX. apply max_zero_floor. }
  assert (E9 : totalFedWithheld fi = Wizard.totalFedWithheld fw)
    by (rewrite IWh, EF; reflexivity).
  assert (E10 : fedResult fi = Wizard.fedResult fw)
    by (rewrite IRes, WRes, E9, E8; reflexivity).
  assert (E11 : totalStateWithheld fi = Wizard.totalStateWithheld fw)
    by (rewrite ISt, ES; reflexivity).
  repeat (split; [assumption|]).
  split.
  - rewrite IC, PC, ES, E4.
    destruct (Wizard.getStateId (wizardSession s)) as [[|]|]; try reflexivity.
    destruct (TaxData.state (constantsOf (wizardSession s))) as [[sc|sc]|];
      try reflexivity.
    destruct (gtb _ _).
    + change (js 0) with (Fin 0). rewrite !sub_0_r by apply add_binary64. reflexivity.
    + change (js 0) with (Fin 0).
      rewrite add_0_r by apply computeTaxFromBrackets_binary64.
      rewrite !sub_0_r by apply computeTaxFromBrackets_binary64. reflexivity.
  - rewrite IN, PN, ES, E4.
    destruct (Wizard.getStateId (wizardSession s)) as [[|]|]; reflexivity.
Qed.

Lemma interview_agrees_with_wizard_witness :
  agi (filing (buildRulesState true freelancerInterview))
  = Wizard.agi (Wizard.computeAndRenderTaxes (wizardSession freelancerInterview))
  /\ agi (filing (buildRulesState true freelancerInterview)) = js 56011.
Proof.
  split; [|vm_compute; reflexivity].
  assert (H1 : binary64 (interestIncome freelancerInterview)) by (vm_compute; reflexivity).
  assert (H2 : binary64 (dividendIncome freelancerInterview)) by (vm_compute; reflexivity).
  assert (H3 : has1099INT freelancerInterview = true ->
               le (js 0) (interestIncome freelancerInterview))
    by (intros _; vm_compute; reflexivity).
  assert (H4 : has1099DIV freelancerInterview = true ->
               le (js 0) (dividendIncome freelancerInterview))
    by (intros _; vm_compute; reflexivity).
  exact (proj1 (proj2 (proj2 (interview_agrees_with_wizard
                                freelancerInterview H1 H2 H3 H4)))).
Defined.

End InterviewFacts.

(* ================================================================== *)
(** * More about the tax constants and the bracket calculator           *)
(* ================================================================== *)

Module TaxDataFacts.
Import TaxData Wizard Rules RulesChecks CheckNotions Notions Scenarios.
Import JsNumberFacts ArithmeticFacts BracketFacts ConstantsFacts RulesHelperFacts.
Import WizardRulesFacts InterviewFacts.

(** Years and filing statuses without data.  A year other than 2023
    and 2024 (2025, an unknown year, or 0) resolves to the constants of
    2025, and a missing filing status to those of a single filer.  No
    year has federal brackets for a qualifying surviving spouse: that
    status is taxed with the brackets of a single filer but gets the
    standard deduction of a joint return, and the two tables differ. *)
Theorem constants_fallbacks :
  forall (year : Z) (stateId : option StateId),
    (year <> 2023%Z -> year <> 2024%Z ->
     forall fs, getTaxConstants year stateId fs = getTaxConstants 2025 stateId fs)
    /\ getTaxConstants year stateId None = getTaxConstants year stateId (Some single)
    /\ fed_brackets (fed (getTaxConstants year stateId (Some qss)))
       = fed_brackets (fed (getTaxConstants year stateId (Some single)))
    /\ fed_stdDeduction (fed (getTaxConstants year stateId (Some qss)))
       = fed_stdDeduction (fed (getTaxConstants year stateId (Some mfj)))
    /\ fed_brackets (fed (getTaxConstants year stateId (Some mfj)))
       <> fed_brackets (fed (getTaxConstants year stateId (Some single)))
    /\ fed_stdDeduction (fed (getTaxConstants year stateId (Some mfj)))
       <> fed_stdDeduction (fed (getTaxConstants year stateId (Some single))).
Proof.
  intros year stateId.
  split; [|split; [reflexivity|]].
  - intros H23 H24 fs.
    unfold getTaxConstants, FEDERAL_DATA, CALIFORNIA_DATA, NEWYORK_DATA.
    destruct (Z.eqb_spec year 0) as [->|H0]; [reflexivity|].
    destruct (Z.eqb_spec year 2023) as [E|_]; [contradiction|].
    destruct (Z.eqb_spec year 2024) as [E|_]; [contradiction|].
    destruct (Z.eqb_spec year 2025) as [E|_]; reflexivity.
  - rewrite !fed_brackets_resolved.
    change (fed_stdDeduction (fed (getTaxConstants year stateId (Some qss))))
      with (amount_or_single (Fed.standardDeduction (federalYear year)) qss).
    change (fed_stdDeduction (fed (getTaxConstants year stateId (Some mfj))))
      with (amount_or_single (Fed.standardDeduction (federalYear year)) mfj).
    change (fed_stdDeduction (fed (getTaxConstants year stateId (Some single))))
      with (amount_or_single (Fed.standardDeduction (federalYear year)) single).
    destruct (federalYear_cases year) as [E|[E|E]]; rewrite E;
      (split; [vm_compute; reflexivity|]);
      (split; [vm_compute; reflexivity|]);
      split; vm_compute; discriminate.
Qed.

(** The edges of the bracket calculator.  An income that is zero or
    negative gives a tax of 0, and so does an empty table; [NaN] gives
    [NaN]; and with a table of positive widths and non-negative rates the
    tax on an income that is not negative is never negative. *)
Theorem bracket_edge_cases :
  forall (brackets : list bracket) (taxableIncome : number),
    (leb taxableIncome (js 0) = true ->
     computeTaxFromBrackets taxableIncome brackets = js 0)
    /\ computeTaxFromBrackets taxableIncome [] = js 0
    /\ (brackets <> [] -> computeTaxFromBrackets NaN brackets = NaN)
    /\ (wellFormedBrackets brackets = true -> binary64 taxableIncome ->
        okTax taxableIncome ->
        okTax (computeTaxFromBrackets taxableIncome brackets)).
Proof.
  intros brackets t. split; [|split; [reflexivity|split]].
  - intros H. unfold computeTaxFromBrackets.
    destruct brackets as [|[w r] rest]; [reflexivity|].
    cbn [bracketLoop]. rewrite H. reflexivity.
  - intros Hne. unfold computeTaxFromBrackets.
    destruct brackets as [|[w r] rest]; [congruence|].
    assert (H : forall l x, bracketLoop NaN x l = NaN).
    { induction l as [|[w' r'] l IH]; intros x; cbn [bracketLoop]; [reflexivity|].
      destruct (leb x (js 0)); [reflexivity|]. apply IH. }
    cbn [bracketLoop leb]. change (min NaN w) with NaN. change (mul NaN r) with NaN.
    rewrite add_NaN_r, H. reflexivity.
  - apply computeTaxFromBrackets_ok.
Qed.

Lemma CA_BRACKETS_2025 fs :
  fs = single \/ fs = mfs \/ fs = hoh ->
  caBracketsOf (TaxData.state (getTaxConstants 2025 (Some california) (Some fs)))
  = CA_BRACKETS.
Proof. intros [-> | [-> | ->]]; vm_compute; reflexivity. Qed.

Lemma tables_wellFormed :
  wellFormedBrackets FED_BRACKETS = true /\ wellFormedBrackets CA_BRACKETS = true.
Proof. vm_compute. split; reflexivity. Qed.

(** [computeCATax] of rules.js against the wizard.  For an income that
    is not above 1,000,000 it is the bracket tax the wizard computes for
    a California filer of 2025 (or of a year without data) who is single,
    married filing separately or head of household. *)
Theorem computeCATax_table :
  forall (year : Z) (fs : FilingStatus) (sc : CaConstants) (taxable : number),
    year <> 2023%Z -> year <> 2024%Z ->
    fs = single \/ fs = mfs \/ fs = hoh ->
    TaxData.state (getTaxConstants year (Some california) (Some fs)) = Some (CaState sc) ->
    gtb taxable (js 1000000) = false ->
    computeCATax taxable = computeTaxFromBrackets taxable (ca_brackets sc).
Proof.
  intros year fs sc taxable H23 H24 Hfs Hsc Hle.
  assert (E : getTaxConstants year (Some california) (Some fs)
              = getTaxConstants 2025 (Some california) (Some fs)).
  { unfold getTaxConstants, FEDERAL_DATA, CALIFORNIA_DATA, NEWYORK_DATA.
    destruct (Z.eqb_spec year 0) as [->|H0]; [reflexivity|].
    destruct (Z.eqb_spec year 2023) as [E|_]; [contradiction|].
    destruct (Z.eqb_spec year 2024) as [E|_]; [contradiction|].
    destruct (Z.eqb_spec year 2025) as [E|_]; reflexivity. }
  rewrite E in Hsc. apply (f_equal caBracketsOf) in Hsc.
  rewrite (CA_BRACKETS_2025 fs Hfs) in Hsc. cbn [caBracketsOf] in Hsc.
  rewrite <- Hsc. unfold computeCATax. rewrite Hle. reflexivity.
Qed.

Lemma computeCATax_table_witness :
  computeCATax (js 74460) = js 3578.
Proof.
  assert (H1 : (2025 <> 2023)%Z) by discriminate.
  assert (H2 : (2025 <> 2024)%Z) by discriminate.
  assert (H3 : single = single \/ single = mfs \/ single = hoh) by (left; reflexivity).
  assert (H5 : gtb (js 74460) (js 1000000) = false) by (vm_compute; reflexivity).
  assert (E : TaxData.state (getTaxConstants 2025 (Some california) (Some single))
              = Some (CaState (Build_CaConstants CALIFORNIA_2025 CA_BRACKETS (js 5540))))
    by (vm_compute; reflexivity).
  rewrite (computeCATax_table 2025 single _ (js 74460) H1 H2 H3 E H5).
  vm_compute. reflexivity.
Defined.

End TaxDataFacts.
